(** * Medieventhub: the certificate subsystem

    A shallow embedding of the certificate code of the platform:

    - [server/utils/certificate.ts]: [generateCertificateNumber],
      [validateCertificateNumber] and the QR rendering [generateCertificate];
    - the [certificates] table of the schema with the tables it references
      ([users], [events], [event_registrations], [activity_logs]), and the
      two tables whose foreign keys decide whether an event can be deleted
      ([event_speakers], [event_schedules]);
    - the storage object: [generateCertificate], [getCertificateByNumber],
      [revokeCertificate], [deleteEvent], [logActivity];
    - the route handlers [POST /registrations/:id/certificate],
      [GET /certificates/verify/:number] and [POST /certificates/:id/revoke].

    Tables are lists of rows in storage order, timestamps are integers
    (milliseconds), nullable columns are options, a rejected promise is the
    [Thrown] outcome of the storage monad. Requests that overlap are runs of
    the statements of their storage calls, interleaved at each [await]. *)

From Stdlib Require Import ZArith List String Ascii Bool Lia Permutation.
Import ListNotations.
Local Open Scope string_scope.
Local Open Scope Z_scope.

Set Implicit Arguments.

(* ===================================================================== *)
(** * JavaScript string helpers *)
(* ===================================================================== *)

Module JS.

(** The decimal digit [d] (0..9) as a character. *)
Definition digitChar (d : Z) : ascii := ascii_of_N (Z.to_N (48 + d)).

(** Digits of a non-negative integer, most significant first, pushed in
    front of [acc]. [fuel] bounds the number of digits. *)
Fixpoint digitsOf (fuel : nat) (n : Z) (acc : string) : string :=
  match fuel with
  | O => acc
  | S f =>
      let acc' := String (digitChar (n mod 10)) acc in
      if n / 10 =? 0 then acc' else digitsOf f (n / 10) acc'
  end.

(** A number of binary digits is at least its number of decimal digits. *)
Definition digitFuel (n : Z) : nat := S (Z.to_nat (Z.log2 n)).

(** [Number.prototype.toString()] on an integer (template literals
    [`${n}`] use it too). *)
Definition toString (n : Z) : string :=
  if n <? 0 then String "-" (digitsOf (digitFuel (- n)) (- n) "")
  else digitsOf (digitFuel n) n "".

(** [s.slice(-k)]: the last [k] characters, the whole string when it is
    shorter. *)
Definition sliceLast (k : nat) (s : string) : string :=
  substring (String.length s - k) k s.

Fixpoint replicate (k : nat) (c : ascii) : string :=
  match k with
  | O => ""
  | S k' => String c (replicate k' c)
  end.

(** [s.padStart(k, c)] for a one-character pad string. *)
Definition padStart (k : nat) (c : ascii) (s : string) : string :=
  replicate (k - String.length s) c ++ s.

(** JavaScript truthiness of a nullable boolean column. *)
Definition truthy (b : option bool) : bool :=
  match b with
  | Some true => true
  | _ => false
  end.

(** The number that a string of decimal digits denotes, read after the
    digits [v] already seen. *)
Fixpoint valueOfDigits (s : string) (v : Z) : Z :=
  match s with
  | EmptyString => v
  | String c rest => valueOfDigits rest (10 * v + (Z.of_N (N_of_ascii c) - 48))
  end.

End JS.

(* ===================================================================== *)
(** * Anchored regular expressions without alternation *)
(* ===================================================================== *)

Module Regex.

(** A character class; a pattern is one class per position, which is all
    that [/^MEDEVENT-\d{4}-[A-Z0-9]{6}$/] needs. *)
Definition CharClass := ascii -> bool.

Definition inRange (lo hi : N) : CharClass :=
  fun c => ((lo <=? N_of_ascii c) && (N_of_ascii c <=? hi))%N.

(** [\d] *)
Definition digit : CharClass := inRange 48 57.
(** [[A-Z]] *)
Definition upper : CharClass := inRange 65 90.
(** [[A-Z0-9]] *)
Definition upperOrDigit : CharClass := fun c => upper c || digit c.

Definition lit (s : string) : list CharClass :=
  map Ascii.eqb (list_ascii_of_string s).

Definition times (k : nat) (c : CharClass) : list CharClass := repeat c k.

(** [/^re$/.test(s)]: every position matches and nothing is left over. *)
Fixpoint test (re : list CharClass) (s : string) : bool :=
  match re, s with
  | [], EmptyString => true
  | c :: re', String a s' => c a && test re' s'
  | _, _ => false
  end.

End Regex.

(* ===================================================================== *)
(** * server/utils/certificate.ts *)
(* ===================================================================== *)

(** What the code reads of a [Date]: [getFullYear()] and [getMonth()]
    (0 = January). *)
Record Date := mkDate { getFullYear : Z; getMonth : Z }.

(** [customAlphabet('1234567890ABCDEFGHIJKLMNOPQRSTUVWXYZ', 10)]: the
    alphabet of the random suffix. *)
Definition nanoidAlphabet : string := "1234567890ABCDEFGHIJKLMNOPQRSTUVWXYZ".

Fixpoint inAlphabet (alphabet : string) (c : ascii) : bool :=
  match alphabet with
  | EmptyString => false
  | String a rest => Ascii.eqb a c || inAlphabet rest c
  end.

Fixpoint allChars (p : ascii -> bool) (s : string) : bool :=
  match s with
  | EmptyString => true
  | String a rest => p a && allChars p rest
  end.

(** What [nanoid(size)] can return: [size] characters of the alphabet. *)
Definition nanoidOutput (size : nat) (s : string) : bool :=
  Nat.eqb (String.length s) size && allChars (inAlphabet nanoidAlphabet) s.

(** [generateCertificateNumber()], with the two things it reads from the
    outside made arguments: the current date and the value of [nanoid(6)]. *)
Definition generateCertificateNumber (date : Date) (nanoid6 : string) : string :=
  let year := JS.sliceLast 2 (JS.toString (getFullYear date)) in
  let month := JS.padStart 2 "0" (JS.toString (getMonth date + 1)) in
  "MEDEVENT-" ++ year ++ month ++ "-" ++ nanoid6.

Definition certNumberRegex : list Regex.CharClass :=
  (Regex.lit "MEDEVENT-" ++ Regex.times 4 Regex.digit
     ++ Regex.lit "-" ++ Regex.times 6 Regex.upperOrDigit)%list.

(** [validateCertificateNumber(certificateNumber)] *)
Definition validateCertificateNumber (certificateNumber : string) : bool :=
  Regex.test certNumberRegex certificateNumber.

(* ===================================================================== *)
(** * JSON values sent by [res.json] *)
(* ===================================================================== *)

#[local] Unset Elimination Schemes.
Inductive json : Type :=
| JNull
| JBool (b : bool)
| JNum (n : Z)
| JStr (s : string)
| JDate (t : Z)
| JObj (fields : list (string * json)).
#[local] Set Elimination Schemes.

Definition jOpt {A : Type} (f : A -> json) (o : option A) : json :=
  match o with
  | Some a => f a
  | None => JNull
  end.

(** [o.key], [None] when the value is not an object or has no such key. *)
Definition jField (key : string) (o : json) : option json :=
  match o with
  | JObj fields =>
      option_map snd (find (fun kv => String.eqb (fst kv) key) fields)
  | _ => None
  end.

Definition jKeys (o : json) : list string :=
  match o with
  | JObj fields => map fst fields
  | _ => []
  end.

Record Response := mkResponse { status : Z; body : json }.

(* ===================================================================== *)
(** * The schema: rows of the tables the certificate code touches *)
(* ===================================================================== *)

(** The columns of [users] that the certificate queries select. *)
Module User.
Record t := mk {
  id : Z;
  fullName : string;
  email : string;
  organization : option string;
  position : option string
}.
End User.

Module Event.
Record t := mk {
  id : Z;
  title : string;
  startDate : Z;
  endDate : Z
}.
End Event.

Inductive registrationStatus := pending | approved | rejected.

Module Registration.
Record t := mk {
  id : Z;
  eventId : Z;                      (* references events, on delete cascade *)
  userId : Z;                       (* references users, on delete cascade *)
  status : registrationStatus;
  attendanceConfirmed : option bool
}.
End Registration.

Module Certificate.
Record t := mk {
  id : Z;                           (* serial primary key *)
  registrationId : Z;               (* not null, references event_registrations,
                                       on delete cascade *)
  certificateNumber : string;       (* varchar(50), not null, unique *)
  qrCode : string;
  issuedDate : Z;
  isRevoked : option bool;          (* default false, nullable *)
  revokedReason : option string;
  revokedDate : option Z;
  revokedById : option Z;           (* references users *)
  createdAt : Z;
  updatedAt : Z
}.

(** The row as [res.json] serialises it. *)
Definition toJSON (c : t) : json :=
  JObj [ ("id", JNum (id c));
         ("registrationId", JNum (registrationId c));
         ("certificateNumber", JStr (certificateNumber c));
         ("qrCode", JStr (qrCode c));
         ("issuedDate", JDate (issuedDate c));
         ("isRevoked", jOpt JBool (isRevoked c));
         ("revokedReason", jOpt JStr (revokedReason c));
         ("revokedDate", jOpt JDate (revokedDate c));
         ("revokedById", jOpt JNum (revokedById c));
         ("createdAt", JDate (createdAt c));
         ("updatedAt", JDate (updatedAt c)) ].
End Certificate.

(** The columns of [event_speakers] and [event_schedules] that the foreign
    keys of the schema read. *)
Module Speaker.
Record t := mk {
  id : Z;
  eventId : Z                       (* references events, on delete cascade *)
}.
End Speaker.

Module Schedule.
Record t := mk {
  id : Z;
  eventId : Z;                      (* references events, on delete cascade *)
  speakerId : option Z              (* references event_speakers, no action *)
}.
End Schedule.

Inductive logAction :=
| generate_certificate
| revoke_certificate
| verify_certificate
| delete_action.

Module ActivityLog.
Record t := mk {
  id : Z;
  userId : Z;                       (* not null, references users *)
  action : logAction;
  resourceType : option string;
  resourceId : option Z;
  details : json;
  ipAddress : option string;
  userAgent : option string;
  createdAt : Z
}.
End ActivityLog.

(** The database: each table in storage order, and the two sequences behind
    the serial keys that the modelled code inserts into. *)
Record DB := mkDB {
  users : list User.t;
  events : list Event.t;
  eventRegistrations : list Registration.t;
  certificates : list Certificate.t;
  certificates_id_seq : Z;
  activityLogs : list ActivityLog.t;
  activity_logs_id_seq : Z;
  eventSpeakers : list Speaker.t;
  eventSchedules : list Schedule.t
}.

(** Postgres stores no text value that contains the character U+0000: a
    statement with such a parameter is refused. *)
Definition pgText (s : string) : bool :=
  allChars (fun c => negb (Ascii.eqb c Ascii.zero)) s.

(** The world a handler runs in: the database and the clock. Reading the
    clock ([new Date()], [Date.now()], the database's [now()]) consumes one
    reading of the oracle [clock]. *)
Record World := mkWorld {
  db : DB;
  clock : nat -> Z;
  ticks : nat
}.

Definition withDB (w : World) (d : DB) : World :=
  mkWorld d (clock w) (ticks w).

Definition withCertificates (d : DB) (cs : list Certificate.t) (seq : Z) : DB :=
  mkDB (users d) (events d) (eventRegistrations d) cs seq
       (activityLogs d) (activity_logs_id_seq d)
       (eventSpeakers d) (eventSchedules d).

(* ===================================================================== *)
(** * Promises: state and exceptions *)
(* ===================================================================== *)

Inductive Outcome (A : Type) : Type :=
| Returned (a : A)
| Thrown (error : string).
Arguments Thrown {A} error.

Definition Async (A : Type) : Type := World -> Outcome A * World.

Definition ret {A : Type} (a : A) : Async A := fun w => (Returned a, w).

Definition throw {A : Type} (error : string) : Async A :=
  fun w => (Thrown error, w).

Definition bind {A B : Type} (c : Async A) (k : A -> Async B) : Async B :=
  fun w =>
    match c w with
    | (Returned a, w') => k a w'
    | (Thrown e, w') => (Thrown e, w')
    end.

(** [try { c } catch (error) { handler }] *)
Definition tryCatch {A : Type} (c : Async A) (handler : string -> Async A) : Async A :=
  fun w =>
    match c w with
    | (Returned a, w') => (Returned a, w')
    | (Thrown e, w') => handler e w'
    end.

Declare Scope async_scope.
Delimit Scope async_scope with async.
Notation "x <- c ;; k" := (bind c (fun x => k))
  (at level 61, c at next level, right associativity) : async_scope.
Notation "c ;;; k" := (bind c (fun _ => k))
  (at level 61, right associativity) : async_scope.
Local Open Scope async_scope.

(** The world after one reading of the clock. *)
Definition tick (w : World) : World := mkWorld (db w) (clock w) (S (ticks w)).

(** [new Date()] and [Date.now()] *)
Definition newDate : Async Z := fun w => (Returned (clock w (ticks w)), tick w).

(** Reading a property of a value that may be [undefined] or [null]. *)
Definition deref {A : Type} (o : option A) : Async A :=
  match o with
  | Some a => ret a
  | None => throw "TypeError: Cannot read properties of undefined"
  end.

Definition getDB : Async DB := fun w => (Returned (db w), w).
Definition putDB (d : DB) : Async unit := fun w => (Returned tt, withDB w d).

(* ===================================================================== *)
(** * The storage object *)
(* ===================================================================== *)

Module storage.

Definition userExists (d : DB) (userId : Z) : bool :=
  existsb (fun u => User.id u =? userId) (users d).

Definition registrationExists (d : DB) (registrationId : Z) : bool :=
  existsb (fun r => Registration.id r =? registrationId) (eventRegistrations d).

Definition numberTaken (d : DB) (certificateNumber : string) : bool :=
  existsb (fun c => String.eqb (Certificate.certificateNumber c) certificateNumber)
          (certificates d).

(** [db.query.certificates.findFirst({ where: eq(registrationId, ...) })] *)
Definition findByRegistration (d : DB) (registrationId : Z) : option Certificate.t :=
  find (fun c => Certificate.registrationId c =? registrationId) (certificates d).

(** The [.set({...})] of the reissue branch of [generateCertificate]. *)
Definition reissued (qrCode : string) (issued updated : Z) (c : Certificate.t)
  : Certificate.t :=
  Certificate.mk (Certificate.id c) (Certificate.registrationId c)
    (Certificate.certificateNumber c)
    qrCode issued (Some false) None None None
    (Certificate.createdAt c) updated.

(** The [.set({...})] of [revokeCertificate]. *)
Definition revoked (reason : string) (revokedDate revokedById updated : Z)
  (c : Certificate.t) : Certificate.t :=
  Certificate.mk (Certificate.id c) (Certificate.registrationId c)
    (Certificate.certificateNumber c)
    (Certificate.qrCode c) (Certificate.issuedDate c)
    (Some true) (Some reason) (Some revokedDate) (Some revokedById)
    (Certificate.createdAt c) updated.

(** [db.update(certificates).set(f).where(eq(id, ...))]: the table after
    the update. *)
Definition updateWhereId (certificateId : Z) (f : Certificate.t -> Certificate.t)
  (cs : list Certificate.t) : list Certificate.t :=
  map (fun c => if Certificate.id c =? certificateId then f c else c) cs.

(** [.returning()]: the rows the statement touched, as they are after it. *)
Definition returningWhereId (certificateId : Z) (cs : list Certificate.t)
  : list Certificate.t :=
  filter (fun c => Certificate.id c =? certificateId) cs.

(** [db.insert(certificates).values({registrationId, certificateNumber,
    qrCode, issuedDate}).returning()]. The sequence is advanced before the
    constraints of the table are checked: the foreign key on
    [registration_id], the unique index and the length of
    [certificate_number]. *)
Definition insertCertificate (registrationId : Z) (certificateNumber qrCode : string)
  (issuedDate : Z) : Async (list Certificate.t) :=
  now <- newDate ;;
  d <- getDB ;;
  let newId := certificates_id_seq d in
  let row := Certificate.mk newId registrationId certificateNumber qrCode issuedDate
               (Some false) None None None now now in
  if negb (registrationExists d registrationId) then
    putDB (withCertificates d (certificates d) (newId + 1)) ;;;
    throw "violates foreign key constraint certificates_registration_id"
  else if numberTaken d certificateNumber then
    putDB (withCertificates d (certificates d) (newId + 1)) ;;;
    throw "duplicate key value violates unique constraint certificates_certificate_number"
  else if (50 <? String.length certificateNumber)%nat then
    putDB (withCertificates d (certificates d) (newId + 1)) ;;;
    throw "value too long for type character varying(50)"
  else
    putDB (withCertificates d (certificates d ++ [row])%list (newId + 1)) ;;;
    ret [row].

(** [storage.generateCertificate(registrationId, qrCode, certificateNumber)] *)
Definition generateCertificate (registrationId : Z) (qrCode certificateNumber : string)
  : Async (option Certificate.t) :=
  d <- getDB ;;
  match findByRegistration d registrationId with
  | Some existingCertificate =>
      if JS.truthy (Certificate.isRevoked existingCertificate) then
        issued <- newDate ;;
        updated <- newDate ;;
        let cs := updateWhereId (Certificate.id existingCertificate)
                    (reissued qrCode issued updated) (certificates d) in
        putDB (withCertificates d cs (certificates_id_seq d)) ;;;
        ret (hd_error (returningWhereId (Certificate.id existingCertificate) cs))
      else
        ret (Some existingCertificate)
  | None =>
      issued <- newDate ;;
      rows <- insertCertificate registrationId certificateNumber qrCode issued ;;
      ret (hd_error rows)
  end.

(** The result of [getCertificateByNumber]: the row with its registration,
    and the registration's event and user. *)
Record WithRegistration := mkWithRegistration {
  registration : Registration.t;
  event : option Event.t;
  user : option User.t
}.

Record CertificateWith := mkCertificateWith {
  certificate : Certificate.t;
  registrationOf : option WithRegistration
}.

Definition joinRegistration (d : DB) (registrationId : Z) : option WithRegistration :=
  match find (fun r => Registration.id r =? registrationId) (eventRegistrations d) with
  | Some r =>
      Some (mkWithRegistration r
              (find (fun e => Event.id e =? Registration.eventId r) (events d))
              (find (fun u => User.id u =? Registration.userId r) (users d)))
  | None => None
  end.

(** [storage.getCertificateByNumber(certificateNumber)]. The number is a
    text parameter of the query: with U+0000 in it the query is refused. *)
Definition getCertificateByNumber (certificateNumber : string)
  : Async (option CertificateWith) :=
  if pgText certificateNumber then
    d <- getDB ;;
    match find (fun c => String.eqb (Certificate.certificateNumber c) certificateNumber)
               (certificates d) with
    | Some c =>
        ret (Some (mkCertificateWith c
                     (joinRegistration d (Certificate.registrationId c))))
    | None => ret None
    end
  else
    throw "invalid byte sequence for encoding UTF8: 0x00".

(** [storage.revokeCertificate(id, revokedById, reason)]. The reason is a
    text parameter of the statement: with U+0000 in it the statement is
    refused, whether or not a row has the id. The foreign key on
    [revoked_by_id] is checked when a row is written. *)
Definition revokeCertificate (certificateId revokedById : Z) (reason : string)
  : Async (option Certificate.t) :=
  revokedDate <- newDate ;;
  updated <- newDate ;;
  if pgText reason then
    d <- getDB ;;
    let cs := updateWhereId certificateId
                (revoked reason revokedDate revokedById updated) (certificates d) in
    match returningWhereId certificateId cs with
    | [] => ret None
    | row :: _ =>
        if userExists d revokedById then
          putDB (withCertificates d cs (certificates_id_seq d)) ;;;
          ret (Some row)
        else
          throw "violates foreign key constraint certificates_revoked_by_id"
    end
  else
    throw "invalid byte sequence for encoding UTF8: 0x00".

(** The rows of [events] that [DELETE ... WHERE id = eventId] deletes. *)
Definition deletedEvents (d : DB) (eventId : Z) : list Event.t :=
  filter (fun e => Event.id e =? eventId) (events d).

(** Whether the cascade from those rows reaches a row of event [e]. *)
Definition gone (d : DB) (eventId e : Z) : bool :=
  existsb (fun ev => Event.id ev =? e) (deletedEvents d eventId).

(** The foreign key [event_schedules.speaker_id] has no [onDelete]: when
    the statement ends, a schedule that stays must not name a speaker that
    went. A schedule of another event that names a speaker of the deleted
    event therefore blocks the deletion. *)
Definition scheduleBlocks (d : DB) (eventId : Z) : bool :=
  existsb (fun s =>
             negb (gone d eventId (Schedule.eventId s))
             && match Schedule.speakerId s with
                | Some speakerId =>
                    existsb (fun sp => (Speaker.id sp =? speakerId)
                                       && gone d eventId (Speaker.eventId sp))
                            (eventSpeakers d)
                | None => false
                end)
          (eventSchedules d).

(** [storage.deleteEvent(id)]: the event's row goes, and with it, by the
    [onDelete: "cascade"] of the schema, the speakers, the schedules and the
    registrations of the event and the certificates of those registrations;
    when a schedule blocks the deletion the statement is refused as a whole
    and nothing is deleted. *)
Definition deleteEvent (eventId : Z) : Async (option Event.t) :=
  d <- getDB ;;
  let keptEvents := filter (fun e => negb (Event.id e =? eventId)) (events d) in
  let keptRegistrations :=
    filter (fun r => negb (gone d eventId (Registration.eventId r)))
           (eventRegistrations d) in
  let keptCertificates :=
    filter (fun c =>
              existsb (fun r => Registration.id r =? Certificate.registrationId c)
                      keptRegistrations)
           (certificates d) in
  let keptSpeakers :=
    filter (fun sp => negb (gone d eventId (Speaker.eventId sp))) (eventSpeakers d) in
  let keptSchedules :=
    filter (fun s => negb (gone d eventId (Schedule.eventId s))) (eventSchedules d) in
  if scheduleBlocks d eventId then
    throw "violates foreign key constraint event_schedules_speaker_id"
  else
    putDB (mkDB (users d) keptEvents keptRegistrations keptCertificates
                (certificates_id_seq d) (activityLogs d) (activity_logs_id_seq d)
                keptSpeakers keptSchedules) ;;;
    ret (hd_error (deletedEvents d eventId)).

(** [storage.logActivity(userId, action, details, resourceType, resourceId,
    ipAddress, userAgent)] *)
Definition logActivity (userId : Z) (action : logAction) (details : json)
  (resourceType : option string) (resourceId : option Z)
  (ipAddress userAgent : option string) : Async (option ActivityLog.t) :=
  now <- newDate ;;
  d <- getDB ;;
  let newId := activity_logs_id_seq d in
  let row := ActivityLog.mk newId userId action resourceType resourceId details
               ipAddress userAgent now in
  if userExists d userId then
    putDB (mkDB (users d) (events d) (eventRegistrations d) (certificates d)
                (certificates_id_seq d) (activityLogs d ++ [row])%list (newId + 1)
                (eventSpeakers d) (eventSchedules d)) ;;;
    ret (Some row)
  else
    putDB (mkDB (users d) (events d) (eventRegistrations d) (certificates d)
                (certificates_id_seq d) (activityLogs d) (newId + 1)
                (eventSpeakers d) (eventSchedules d)) ;;;
    throw "violates foreign key constraint activity_logs_user_id".

End storage.

(** [generateCertificate(url)] of [utils/certificate.ts]: the QR code of the
    URL as a data URL. [toDataURL] stands for [QRCode.toDataURL] with the
    options of the source; [None] is its rejection. *)
Definition generateCertificate (toDataURL : string -> option string) (url : string)
  : Async string :=
  match toDataURL url with
  | Some qrCodeDataUrl => ret qrCodeDataUrl
  | None => throw "Failed to generate certificate QR code"
  end.

(* ===================================================================== *)
(** * The route handlers *)
(* ===================================================================== *)

(** What the handlers read of the request, once [authenticateJWT] and
    [checkPermission] have let it through. *)
Module Request.
Record t := mk {
  protocol : string;
  host : string;
  ip : option string;
  userAgent : option string;
  user_id : Z                       (* req.user.id *)
}.
End Request.

Module routes.

Definition message (status : Z) (text : string) : Response :=
  mkResponse status (JObj [("message", JStr text)]).

(** [`CERT-${Date.now()}-${registrationId}`] *)
Definition certificateNumberFor (now registrationId : Z) : string :=
  "CERT-" ++ JS.toString now ++ "-" ++ JS.toString registrationId.

(** [`${req.protocol}://${req.get("host")}/certificates/verify/${certificateNumber}`] *)
Definition verificationUrl (req : Request.t) (certificateNumber : string) : string :=
  Request.protocol req ++ "://" ++ Request.host req
    ++ "/certificates/verify/" ++ certificateNumber.

(** [POST /registrations/:id/certificate] *)
Definition postRegistrationCertificate (toDataURL : string -> option string)
  (req : Request.t) (registrationId : Z) : Async Response :=
  tryCatch
    (now <- newDate ;;
     let certificateNumber := certificateNumberFor now registrationId in
     qrCode <- generateCertificate toDataURL (verificationUrl req certificateNumber) ;;
     certificate <- storage.generateCertificate registrationId qrCode certificateNumber ;;
     row <- deref certificate ;;
     storage.logActivity (Request.user_id req) generate_certificate
       (JObj [("certificateNumber", JStr certificateNumber)])
       (Some "certificate") (Some (Certificate.id row))
       (Request.ip req) (Request.userAgent req) ;;;
     ret (mkResponse 201 (Certificate.toJSON row)))
    (fun _ => ret (message 500 "Failed to generate certificate")).

Definition notFoundResponse : Response :=
  mkResponse 404
    (JObj [("message", JStr "Certificate not found"); ("valid", JBool false)]).

Definition revokedResponse (c : Certificate.t) : Response :=
  mkResponse 200
    (JObj [("message", JStr "Certificate has been revoked");
           ("valid", JBool false);
           ("revoked", JBool true);
           ("revokedReason", jOpt JStr (Certificate.revokedReason c));
           ("revokedDate", jOpt JDate (Certificate.revokedDate c))]).

Definition validResponse (c : Certificate.t) (e : Event.t) (u : User.t) : Response :=
  mkResponse 200
    (JObj [("message", JStr "Certificate is valid");
           ("valid", JBool true);
           ("certificate",
            JObj [("certificateNumber", JStr (Certificate.certificateNumber c));
                  ("issuedDate", JDate (Certificate.issuedDate c));
                  ("event",
                   JObj [("title", JStr (Event.title e));
                         ("startDate", JDate (Event.startDate e));
                         ("endDate", JDate (Event.endDate e))]);
                  ("user",
                   JObj [("fullName", JStr (User.fullName u));
                         ("organization", jOpt JStr (User.organization u));
                         ("position", jOpt JStr (User.position u))])])]).

(** [GET /certificates/verify/:number] *)
Definition getCertificatesVerify (req : Request.t) (certificateNumber : string)
  : Async Response :=
  tryCatch
    (found <- storage.getCertificateByNumber certificateNumber ;;
     match found with
     | None => ret notFoundResponse
     | Some certificate =>
         let c := storage.certificate certificate in
         if JS.truthy (Certificate.isRevoked c) then ret (revokedResponse c)
         else
           registration <- deref (storage.registrationOf certificate) ;;
           storage.logActivity
             (Registration.userId (storage.registration registration))
             verify_certificate
             (JObj [("certificateNumber", JStr certificateNumber)])
             (Some "certificate") (Some (Certificate.id c))
             (Request.ip req) (Request.userAgent req) ;;;
           e <- deref (storage.event registration) ;;
           u <- deref (storage.user registration) ;;
           ret (validResponse c e u)
     end)
    (fun _ => ret (message 500 "Failed to verify certificate")).

(** [POST /certificates/:id/revoke], [reason] being [req.body.reason]. *)
Definition postCertificatesRevoke (req : Request.t) (certificateId : Z)
  (reason : option string) : Async Response :=
  tryCatch
    (match reason with
     | None | Some "" => ret (message 400 "Revocation reason is required")
     | Some reason =>
         revokedCertificate <-
           storage.revokeCertificate certificateId (Request.user_id req) reason ;;
         row <- deref revokedCertificate ;;
         storage.logActivity (Request.user_id req) revoke_certificate
           (JObj [("certificateNumber", JStr (Certificate.certificateNumber row));
                  ("reason", JStr reason)])
           (Some "certificate") (Some certificateId)
           (Request.ip req) (Request.userAgent req) ;;;
         ret (mkResponse 200 (Certificate.toJSON row))
     end)
    (fun _ => ret (message 500 "Failed to revoke certificate")).

End routes.

(* ===================================================================== *)
(** * Sequences of storage calls *)
(* ===================================================================== *)

(** The calls of the storage object that read or write the tables of the
    model. *)
Inductive Call :=
| CallGenerateCertificate (registrationId : Z) (qrCode certificateNumber : string)
| CallRevokeCertificate (certificateId revokedById : Z) (reason : string)
| CallGetCertificateByNumber (certificateNumber : string)
| CallDeleteEvent (eventId : Z)
| CallLogActivity (userId : Z) (action : logAction) (details : json)
    (resourceType : option string) (resourceId : option Z)
    (ipAddress userAgent : option string).

(** The world after a call, whether it returned or threw. *)
Definition step (c : Call) (w : World) : World :=
  match c with
  | CallGenerateCertificate r q n => snd (storage.generateCertificate r q n w)
  | CallRevokeCertificate i u reason => snd (storage.revokeCertificate i u reason w)
  | CallGetCertificateByNumber n => snd (storage.getCertificateByNumber n w)
  | CallDeleteEvent e => snd (storage.deleteEvent e w)
  | CallLogActivity u a d rt ri ip ua => snd (storage.logActivity u a d rt ri ip ua w)
  end.

(** Calls made one after the other, each run to its end before the next
    starts. *)
Definition run (calls : list Call) (w : World) : World :=
  fold_left (fun w c => step c w) calls w.

(* ===================================================================== *)
(** * Requests that overlap *)
(* ===================================================================== *)

(** Node runs one handler at a time and moves to another request where a
    handler awaits. [storage.generateCertificate] awaits twice: its
    [findFirst], then its insert or update. Each statement is atomic in the
    database; between the two, other requests run. *)
Module overlap.











End overlap.

(* ===================================================================== *)
(** * Predicates of the statements *)
(* ===================================================================== *)

Definition isSome {A : Type} (o : option A) : bool :=
  match o with
  | Some _ => true
  | None => false
  end.

(** Revocation fields agree with the flag: all three set when [isRevoked]
    is true, all three null when it is false. *)
Definition revocationConsistent (c : Certificate.t) : bool :=
  match Certificate.isRevoked c with
  | Some true =>
      isSome (Certificate.revokedReason c) && isSome (Certificate.revokedDate c)
        && isSome (Certificate.revokedById c)
  | Some false =>
      negb (isSome (Certificate.revokedReason c))
        && negb (isSome (Certificate.revokedDate c))
        && negb (isSome (Certificate.revokedById c))
  | None => true
  end.


(** [id] is the primary key of [certificates], fed by its sequence. *)
Definition primaryKey (d : DB) : Prop :=
  NoDup (map Certificate.id (certificates d))
  /\ Forall (fun c => Certificate.id c < certificates_id_seq d) (certificates d).

(** A user row with the e-mail address blanked. *)
Definition withoutEmail (u : User.t) : User.t :=
  User.mk (User.id u) (User.fullName u) "" (User.organization u) (User.position u).

(** Two databases that differ at most in the e-mail addresses of users
    (speakers and schedules, which no certificate handler reads, are not
    compared). *)
Definition sameButEmails (d d' : DB) : Prop :=
  map withoutEmail (users d) = map withoutEmail (users d')
  /\ events d = events d'
  /\ eventRegistrations d = eventRegistrations d'
  /\ certificates d = certificates d'
  /\ certificates_id_seq d = certificates_id_seq d'
  /\ activityLogs d = activityLogs d'
  /\ activity_logs_id_seq d = activity_logs_id_seq d'.

(** A registration with what makes it eligible blanked: the attendance flag
    and the approval status. *)
Definition withoutEligibility (r : Registration.t) : Registration.t :=
  Registration.mk (Registration.id r) (Registration.eventId r) (Registration.userId r)
    pending None.

(** Two databases that differ at most in the eligibility of registrations
    (speakers and schedules, which no certificate handler reads, are not
    compared). *)
Definition sameButEligibility (d d' : DB) : Prop :=
  users d = users d'
  /\ events d = events d'
  /\ map withoutEligibility (eventRegistrations d)
     = map withoutEligibility (eventRegistrations d')
  /\ certificates d = certificates d'
  /\ certificates_id_seq d = certificates_id_seq d'
  /\ activityLogs d = activityLogs d'
  /\ activity_logs_id_seq d = activity_logs_id_seq d'.

(** A registration is certificate-eligible when its attendance is
    confirmed. *)
Definition eligible (r : Registration.t) : bool :=
  JS.truthy (Registration.attendanceConfirmed r).

(** The result the specification gives for an unknown number. *)
Definition specNotFound : json :=
  JObj [("valid", JBool false); ("reason", JStr "not_found")].

(** The three writes of the code keep the key columns of a row. *)
Definition keepsKeys (f : Certificate.t -> Certificate.t) : Prop :=
  forall c, Certificate.id (f c) = Certificate.id c
            /\ Certificate.registrationId (f c) = Certificate.registrationId c
            /\ Certificate.certificateNumber (f c) = Certificate.certificateNumber c
            /\ Certificate.createdAt (f c) = Certificate.createdAt c.

(** The three ways [generateCertificate] and [revokeCertificate] write the
    [certificates] table. *)
Inductive LedgerWrite (d d' : DB) : Prop :=
| LedgerSame :
    certificates d' = certificates d ->
    certificates_id_seq d <= certificates_id_seq d' ->
    LedgerWrite d d'
| LedgerUpdate (i : Z) (f : Certificate.t -> Certificate.t) :
    certificates d' = storage.updateWhereId i f (certificates d) ->
    certificates_id_seq d' = certificates_id_seq d ->
    keepsKeys f ->
    (forall c, revocationConsistent (f c) = true) ->
    LedgerWrite d d'
| LedgerInsert (row : Certificate.t) :
    certificates d' = (certificates d ++ [row])%list ->
    Certificate.id row = certificates_id_seq d ->
    certificates_id_seq d' = certificates_id_seq d + 1 ->
    ~ In (Certificate.registrationId row)
         (map Certificate.registrationId (certificates d)) ->
    revocationConsistent row = true ->
    LedgerWrite d d'.

(** What any storage call does to the table: one of these writes, or the
    cascade of [deleteEvent]. *)
Inductive LedgerChange (d d' : DB) : Prop :=
| LedgerWritten : LedgerWrite d d' -> LedgerChange d d'
| LedgerDelete (p : Certificate.t -> bool) :
    certificates d' = filter p (certificates d) ->
    certificates_id_seq d' = certificates_id_seq d ->
    LedgerChange d d'.

(* ===================================================================== *)
(** * A small deployment used in the examples *)
(* ===================================================================== *)

Module Example.

(** A clock that gives the readings of the list, then 0. *)
Definition clockOf (readings : list Z) : nat -> Z := fun n => nth n readings 0.

Definition readings : list Z :=
  [1700000000000; 1700000000001; 1700000000002; 1700000000003;
   1700000000004; 1700000000005; 1700000000006; 1700000000007;
   1700000000008; 1700000000009; 1700000000010; 1700000000011].

(** A stand-in for the QR encoder that keeps the URL readable. *)
Definition toDataURL (url : string) : option string :=
  Some ("data:image/png;base64," ++ url).

Definition admin : User.t := User.mk 7 "Dr A" "a@example.org" (Some "CHU") None.
Definition manager : User.t := User.mk 8 "Dr B" "b@example.org" None (Some "Director").
Definition congress : Event.t := Event.mk 1 "Cardiology days" 100 200.

(** Registration 42: pending, attendance not confirmed. *)
Definition registration42 : Registration.t :=
  Registration.mk 42 1 7 pending (Some false).

Definition emptyLedger : DB :=
  mkDB [admin; manager] [congress] [registration42] [] 1 [] 1 [] [].

(** A request of user 7, and one of user 8. *)
Definition req : Request.t := Request.mk "https" "med.example" None None 7.
Definition req8 : Request.t := Request.mk "https" "med.example" None None 8.

Definition start : World := mkWorld emptyLedger (clockOf readings) 0.

(** After certificate 1 was issued to registration 42. *)
Definition issued : World :=
  snd (routes.postRegistrationCertificate toDataURL req 42 start).

(** The row of certificate 1 after that call. *)
Definition certificate1 : Certificate.t :=
  Certificate.mk 1 42 "CERT-1700000000000-42"
    "data:image/png;base64,https://med.example/certificates/verify/CERT-1700000000000-42"
    1700000000001 (Some false) None None None 1700000000002 1700000000002.

(** The row of certificate 1 once revoked. *)
Definition certificate1Revoked : Certificate.t :=
  Certificate.mk 1 42 "CERT-1700000000000-42"
    "data:image/png;base64,https://med.example/certificates/verify/CERT-1700000000000-42"
    1700000000001 (Some true) (Some "duplicate issuance") (Some 1700000000004)
    (Some 7) 1700000000002 1700000000005.

(** The row of certificate 1 once revoked a second time, by user 8. *)
Definition certificate1RevokedTwice : Certificate.t :=
  Certificate.mk 1 42 "CERT-1700000000000-42"
    "data:image/png;base64,https://med.example/certificates/verify/CERT-1700000000000-42"
    1700000000001 (Some true) (Some "second reason") (Some 1700000000007)
    (Some 8) 1700000000002 1700000000008.

(** After certificate 1 was revoked. *)
Definition revokedOnce : World :=
  snd (routes.postCertificatesRevoke req 1 (Some "duplicate issuance") issued).

(** The world after the issuance endpoint is called again for
    registration 42, whose certificate was revoked. *)
Definition reissuedWorld : World :=
  snd (routes.postRegistrationCertificate toDataURL req 42 revokedOnce).

(** The row of certificate 1 after that call. *)
Definition certificate1Reissued : Certificate.t :=
  Certificate.mk 1 42 "CERT-1700000000000-42"
    "data:image/png;base64,https://med.example/certificates/verify/CERT-1700000000007-42"
    1700000000008 (Some false) None None None 1700000000002 1700000000009.

(** A second event, and a database where a schedule of it names a speaker
    of event 1, the event of certificate 1. *)
Definition workshop : Event.t := Event.mk 2 "Workshop" 300 400.

Definition sharedSpeaker : World :=
  mkWorld
    (mkDB [admin; manager] [congress; workshop] [registration42] [certificate1] 2
          [] 1 [Speaker.mk 5 1] [Schedule.mk 9 2 (Some 5)])
    (clockOf readings) 0.

(** The world [issued] with other e-mail addresses for the two users. *)
Definition issuedOtherEmails : World :=
  mkWorld
    (mkDB [User.mk 7 "Dr A" "private@example.net" (Some "CHU") None;
           User.mk 8 "Dr B" "other@example.net" None (Some "Director")]
          (events (db issued)) (eventRegistrations (db issued))
          (certificates (db issued)) (certificates_id_seq (db issued))
          (activityLogs (db issued)) (activity_logs_id_seq (db issued))
          (eventSpeakers (db issued)) (eventSchedules (db issued)))
    (clock issued) (ticks issued).

End Example.

(* ===================================================================== *)
(** * server/middleware/auth.ts *)
(* ===================================================================== *)

Module auth.

(** The payload of a token, which [authenticateJWT] stores in [req.user]. *)
Record User := mkUser {
  id : Z;
  email : string;
  role : string;
  permissions : list string
}.

(** [s.split(sep)] for a one-character separator: the pieces between the
    separators, [[""]] for the empty string. *)
Fixpoint split (sep : ascii) (s : string) : list string :=
  match s with
  | EmptyString => [""]
  | String c rest =>
      if Ascii.eqb c sep then "" :: split sep rest
      else
        match split sep rest with
        | first :: others => String c first :: others
        | [] => [String c ""]
        end
  end.

(** [roles.includes(x)], [permissions.includes(x)] *)
Definition includes (l : list string) (x : string) : bool :=
  existsb (String.eqb x) l.

Definition denied (status : Z) (text : string) : Response :=
  mkResponse status (JObj [("message", JStr text)]).

(** [authenticateJWT]: either the response it sends, or the user it stores
    in [req.user] before calling [next()]. [authorization] is
    [req.headers.authorization]; [jwtVerify] stands for
    [jwt.verify(token, secret)], [None] when it throws. *)
Definition authenticateJWT (jwtVerify : string -> option User)
  (authorization : option string) : Response + User :=
  match authorization with
  | None | Some "" => inl (denied 401 "Authentication required")
  | Some authHeader =>
      match nth_error (split " " authHeader) 1 with
      | None | Some "" => inl (denied 401 "Authentication token is missing")
      | Some token =>
          match jwtVerify token with
          | Some decoded => inr decoded
          | None => inl (denied 403 "Invalid or expired token")
          end
      end
  end.

(** [checkPermission(permission)] on [req.user]: the response it sends, or
    [None] when it calls [next()]. *)
Definition checkPermission (permission : string) (user : option User)
  : option Response :=
  match user with
  | None => Some (denied 401 "Authentication required")
  | Some u =>
      if String.eqb (role u) "super_admin" then None
      else if includes (permissions u) permission then None
      else Some (denied 403 "Permission denied")
  end.

(** [checkRole(roles)] on [req.user]. *)
Definition checkRole (roles : list string) (user : option User) : option Response :=
  match user with
  | None => Some (denied 401 "Authentication required")
  | Some u =>
      if includes roles (role u) then None
      else Some (denied 403 "Access denied: Insufficient role privileges")
  end.

End auth.

(* ===================================================================== *)
(** * The certificate routes as they are registered *)
(* ===================================================================== *)

Module app.

(** What reaches the application of an HTTP request to a certificate
    route. *)
Record Incoming := mkIncoming {
  authorization : option string;
  protocol : string;
  host : string;
  ip : option string;
  userAgent : option string
}.

(** The request as a handler reads it, [req.user] being [u]. *)
Definition withUser (req : Incoming) (userId : Z) : Request.t :=
  Request.mk (protocol req) (host req) (ip req) (userAgent req) userId.

(** [app.METHOD(path, authenticateJWT, checkPermission(permission),
    handler)]: the handler runs when both middlewares call [next()]. *)
Definition guarded (jwtVerify : string -> option auth.User) (permission : string)
  (handler : Request.t -> Async Response) (req : Incoming) : Async Response :=
  match auth.authenticateJWT jwtVerify (authorization req) with
  | inl response => ret response
  | inr user =>
      match auth.checkPermission permission (Some user) with
      | Some response => ret response
      | None => handler (withUser req (auth.id user))
      end
  end.

(** [app.post("/registrations/:id/certificate", authenticateJWT,
    checkPermission("certificate:generate"), ...)] *)
Definition postRegistrationCertificate (jwtVerify : string -> option auth.User)
  (toDataURL : string -> option string) (req : Incoming) (registrationId : Z)
  : Async Response :=
  guarded jwtVerify "certificate:generate"
    (fun r => routes.postRegistrationCertificate toDataURL r registrationId) req.

(** [app.post("/certificates/:id/revoke", authenticateJWT,
    checkPermission("certificate:revoke"), ...)] *)
Definition postCertificatesRevoke (jwtVerify : string -> option auth.User)
  (req : Incoming) (certificateId : Z) (reason : option string) : Async Response :=
  guarded jwtVerify "certificate:revoke"
    (fun r => routes.postCertificatesRevoke r certificateId reason) req.

End app.

(* ===================================================================== *)
(** * Constraints of the schema as predicates *)
(* ===================================================================== *)

(** The unique index on [certificate_number]. *)
Definition uniqueNumbers (d : DB) : Prop :=
  NoDup (map Certificate.certificateNumber (certificates d)).

Definition eventExists (d : DB) (eventId : Z) : bool :=
  existsb (fun e => Event.id e =? eventId) (events d).

(** The foreign keys between the tables of the model: a certificate has
    its registration and, when set, its revoking user; a registration has
    its event and its user; an activity log has its user. *)
Definition foreignKeys (d : DB) : Prop :=
  Forall (fun c =>
            storage.registrationExists d (Certificate.registrationId c) = true
            /\ (forall u, Certificate.revokedById c = Some u ->
                          storage.userExists d u = true))
         (certificates d)
  /\ Forall (fun r =>
               eventExists d (Registration.eventId r) = true
               /\ storage.userExists d (Registration.userId r) = true)
            (eventRegistrations d)
  /\ Forall (fun l => storage.userExists d (ActivityLog.userId l) = true)
            (activityLogs d).

(** The stored certificate numbers are text values of Postgres. *)
Definition numbersAreText (d : DB) : Prop :=
  Forall (fun c => pgText (Certificate.certificateNumber c) = true) (certificates d).

(** The key columns of a certificate row. *)
Definition keyColumns (c : Certificate.t) : Z * Z * string * Z :=
  (Certificate.id c, Certificate.registrationId c,
   Certificate.certificateNumber c, Certificate.createdAt c).

(* ===================================================================== *)
(** * The storage object: permissions of users *)
(* ===================================================================== *)

Module permissionStore.

Record Permission := mkPermission {
  id : Z;
  name : string;
  description : string;
  createdAt : Z;
  updatedAt : Z
}.

Record UserPermission := mkUserPermission {
  up_id : Z;                        (* serial primary key *)
  userId : Z;                       (* not null, references users *)
  permissionId : Z;                 (* not null, references permissions *)
  up_createdAt : Z;
  up_updatedAt : Z
}.

(** The tables these calls read and write, and the sequence of
    [user_permissions.id]. *)
Record State := mkState {
  userIds : list Z;                 (* the ids of the rows of users *)
  permissions : list Permission;
  userPermissions : list UserPermission;
  user_permissions_id_seq : Z
}.

Definition permissionExists (st : State) (pid : Z) : bool :=
  existsb (fun p => id p =? pid) (permissions st).

Definition userExists (st : State) (uid : Z) : bool :=
  existsb (Z.eqb uid) (userIds st).

(** The query of [getUserPermissions] has no [orderBy]: the order in which
    Postgres returns its rows is not specified. [Scan] stands for that
    order; [anyOrder] is all that is known of it. *)
Definition Scan : Type := list UserPermission -> list UserPermission.

Definition anyOrder (scan : Scan) : Prop :=
  forall rows, Permutation (scan rows) rows.

(** [storage.getUserPermissions(userId)]: the [permission] of each row of
    the user, in the order the database returns the rows ([null] when the
    join finds none). *)
Definition getUserPermissions (scan : Scan) (uid : Z) (st : State)
  : list (option Permission) :=
  map (fun up => find (fun p => id p =? permissionId up) (permissions st))
      (scan (filter (fun up => userId up =? uid) (userPermissions st))).

(** The rows of a multi-row insert, with consecutive ids from [seq] on. *)
Fixpoint newRows (uid : Z) (permissionIds : list Z) (seq now : Z)
  : list UserPermission :=
  match permissionIds with
  | [] => []
  | pid :: rest =>
      mkUserPermission seq uid pid now now :: newRows uid rest (seq + 1) now
  end.

(** [storage.updateUserPermissions(userId, permissionIds)]: the user's rows
    are deleted, then, if the list is not empty, one row per id is inserted
    by one statement, which the foreign keys refuse as a whole; [now] is the
    database's [now()] for that statement. There is no transaction around
    the two statements. *)
Definition updateUserPermissions (scan : Scan) (uid : Z) (permissionIds : list Z)
  (now : Z) (st : State) : Outcome (list (option Permission)) * State :=
  let afterDelete :=
    mkState (userIds st) (permissions st)
      (filter (fun up => negb (userId up =? uid)) (userPermissions st))
      (user_permissions_id_seq st) in
  match permissionIds with
  | [] => (Returned (getUserPermissions scan uid afterDelete), afterDelete)
  | _ :: _ =>
      let seq' := user_permissions_id_seq st + Z.of_nat (List.length permissionIds) in
      if userExists st uid && forallb (permissionExists st) permissionIds then
        let afterInsert :=
          mkState (userIds st) (permissions st)
            (userPermissions afterDelete
               ++ newRows uid permissionIds (user_permissions_id_seq st) now)%list
            seq' in
        (Returned (getUserPermissions scan uid afterInsert), afterInsert)
      else
        (Thrown "violates foreign key constraint on user_permissions",
         mkState (userIds st) (permissions st) (userPermissions afterDelete) seq')
  end.

End permissionStore.

(* ===================================================================== *)
(** * The storage object: registrations for events *)
(* ===================================================================== *)

Module registrationStore.

(** The columns of [events] that [registerForEvent] reads. *)
Record Event := mkEvent {
  id : Z;
  capacity : option Z;                        (* integer, nullable *)
  autoApproveRegistrations : option bool      (* default false, nullable *)
}.

Record Row := mkRow {
  r_id : Z;                                   (* serial primary key *)
  eventId : Z;
  userId : Z;
  status : registrationStatus;
  registrationDate : Z;
  attendanceConfirmed : option bool;
  notes : option string;
  createdAt : Z;
  updatedAt : Z
}.

(** [schema.NewEventRegistration]: what a caller passes. *)
Record NewEventRegistration := mkNew {
  new_eventId : Z;
  new_userId : Z;
  new_status : option registrationStatus;
  new_notes : option string
}.

Record State := mkState {
  userIds : list Z;                           (* the ids of the rows of users *)
  events : list Event;
  eventRegistrations : list Row;
  event_registrations_id_seq : Z
}.

(** The SQL count of the approved registrations of an event. *)
Definition approvedCount (st : State) (eid : Z) : Z :=
  Z.of_nat
    (List.length
       (filter (fun r =>
                  (eventId r =? eid)
                  && match status r with approved => true | _ => false end)
               (eventRegistrations st))).

(** [event.capacity && count >= event.capacity]: a capacity that is null or
    0 is falsy. *)
Definition full (capacity : option Z) (count : Z) : bool :=
  match capacity with
  | None => false
  | Some c => if c =? 0 then false else c <=? count
  end.

(** [storage.registerForEvent(registrationData)]; [jsNow] is the reading of
    [new Date()], [dbNow] the database's [now()] for the insert. *)
Definition registerForEvent (data : NewEventRegistration) (jsNow dbNow : Z)
  (st : State) : Outcome Row * State :=
  match find (fun e => id e =? new_eventId data) (events st) with
  | None => (Thrown "Event not found", st)
  | Some event =>
      match find (fun r => (eventId r =? new_eventId data)
                           && (userId r =? new_userId data))
                 (eventRegistrations st) with
      | Some _ => (Thrown "User is already registered for this event", st)
      | None =>
          if full (capacity event) (approvedCount st (new_eventId data)) then
            (Thrown "Event has reached maximum capacity", st)
          else
            let status :=
              if JS.truthy (autoApproveRegistrations event) then approved
              else pending in
            let seq := event_registrations_id_seq st in
            let row := mkRow seq (new_eventId data) (new_userId data) status jsNow
                         (Some false) (new_notes data) dbNow dbNow in
            if existsb (Z.eqb (new_userId data)) (userIds st) then
              (Returned row,
               mkState (userIds st) (events st)
                 (eventRegistrations st ++ [row])%list (seq + 1))
            else
              (Thrown "violates foreign key constraint event_registrations_user_id",
               mkState (userIds st) (events st) (eventRegistrations st) (seq + 1))
      end
  end.

(** [storage.confirmAttendance(id)] *)
Definition confirmAttendance (rid : Z) (jsNow : Z) (st : State)
  : Outcome (option Row) * State :=
  let confirm (r : Row) :=
    mkRow (r_id r) (eventId r) (userId r) (status r) (registrationDate r)
      (Some true) (notes r) (createdAt r) jsNow in
  let rows := map (fun r => if r_id r =? rid then confirm r else r)
                  (eventRegistrations st) in
  (Returned (hd_error (filter (fun r => r_id r =? rid) rows)),
   mkState (userIds st) (events st) rows (event_registrations_id_seq st)).

(** The calls of this part of the storage object. *)
Inductive Call :=
| CallRegister (data : NewEventRegistration) (jsNow dbNow : Z)
| CallConfirm (rid : Z) (jsNow : Z).

Definition step (c : Call) (st : State) : State :=
  match c with
  | CallRegister data jsNow dbNow => snd (registerForEvent data jsNow dbNow st)
  | CallConfirm rid jsNow => snd (confirmAttendance rid jsNow st)
  end.

Definition run (calls : list Call) (st : State) : State :=
  fold_left (fun st c => step c st) calls st.

(** No user is registered twice for the same event. *)
Definition oneRegistrationPerUser (st : State) : Prop :=
  NoDup (map (fun r => (eventId r, userId r)) (eventRegistrations st)).

(** No event with a positive capacity has more approved registrations than
    its capacity. *)
Definition withinCapacity (st : State) : Prop :=
  forall e c, In e (events st) -> capacity e = Some c -> 0 < c ->
              approvedCount st (id e) <= c.

(** What the two invariants read of a registration. *)
Definition slot (r : Row) : Z * Z * registrationStatus :=
  (eventId r, userId r, status r).

(** The invariant of the registrations: the events have distinct ids, no
    user is registered twice for an event, no event is over its capacity. *)
Definition registrationsOk (st : State) : Prop :=
  NoDup (map id (events st)) /\ oneRegistrationPerUser st /\ withinCapacity st.

End registrationStore.

(* ===================================================================== *)
(** * Small states for the permission and registration examples *)
(* ===================================================================== *)

Module StoreExample.

Definition readCertificates : permissionStore.Permission :=
  permissionStore.mkPermission 1 "certificate:read" "Can view certificates" 10 10.
Definition revokeCertificates : permissionStore.Permission :=
  permissionStore.mkPermission 2 "certificate:revoke" "Can revoke certificates" 10 10.

(** User 7 holds permission 1, user 8 permission 2. *)
Definition permissionState : permissionStore.State :=
  permissionStore.mkState [7; 8] [readCertificates; revokeCertificates]
    [permissionStore.mkUserPermission 1 7 1 20 20;
     permissionStore.mkUserPermission 2 8 2 20 20]
    3.

(** Event 1 takes two approved registrations and approves by itself;
    event 2 has capacity 0 and does not. *)
Definition registrationState : registrationStore.State :=
  registrationStore.mkState [7; 8; 9]
    [registrationStore.mkEvent 1 (Some 2) (Some true);
     registrationStore.mkEvent 2 (Some 0) (Some false)]
    [registrationStore.mkRow 1 1 7 approved 30 (Some false) None 30 30]
    2.

End StoreExample.

(** No character of the string is a space. *)
Definition noSpace (s : string) : bool :=
  allChars (fun c => negb (Ascii.eqb c " ")) s.

(* ===================================================================== *)
(** * Tactics for the storage monad *)
(* ===================================================================== *)

Ltac proj :=
  cbn [fst snd db clock ticks users events eventRegistrations certificates
       certificates_id_seq activityLogs activity_logs_id_seq eventSpeakers
       eventSchedules negb hd_error] in *.

Ltac run_async :=
  unfold deref in *;
  unfold bind, ret, throw, tryCatch, getDB, putDB, newDate, tick, withDB,
    withCertificates in *;
  cbn beta iota in *;
  proj.

(* ===================================================================== *)
(** * Strings: digits, padding, the regular expression *)
(* ===================================================================== *)

Section StringFacts.

Lemma digitChar_digit (d : Z) :
  0 <= d < 10 -> Regex.digit (JS.digitChar d) = true.
Proof.
  intros H.
  assert (d = 0 \/ d = 1 \/ d = 2 \/ d = 3 \/ d = 4 \/ d = 5 \/ d = 6
          \/ d = 7 \/ d = 8 \/ d = 9) as Hd by lia.
  repeat (destruct Hd as [-> | Hd]; [reflexivity |]).
  subst d. reflexivity.
Qed.

Lemma append_assoc (a b c : string) : (a ++ b) ++ c = a ++ (b ++ c).
Proof. induction a as [| x a IH]; simpl; [reflexivity | now rewrite IH]. Qed.

Lemma digitsOf_extends (fuel : nat) :
  forall n acc, exists p, JS.digitsOf fuel n acc = p ++ acc.
Proof.
  induction fuel as [| f IH]; intros n acc; simpl.
  - exists "". reflexivity.
  - destruct (n / 10 =? 0).
    + exists (String (JS.digitChar (n mod 10)) ""). reflexivity.
    + destruct (IH (n / 10) (String (JS.digitChar (n mod 10)) acc)) as [p Hp].
      exists (p ++ String (JS.digitChar (n mod 10)) "").
      rewrite Hp. rewrite append_assoc. reflexivity.
Qed.

Lemma valueOfDigits_app (a b : string) :
  forall v, JS.valueOfDigits (a ++ b) v = JS.valueOfDigits b (JS.valueOfDigits a v).
Proof. induction a as [| c a IH]; intros v; simpl; [reflexivity | apply IH]. Qed.

Lemma digitChar_value (d : Z) :
  0 <= d < 10 -> Z.of_N (N_of_ascii (JS.digitChar d)) - 48 = d.
Proof.
  intros H.
  assert (d = 0 \/ d = 1 \/ d = 2 \/ d = 3 \/ d = 4 \/ d = 5 \/ d = 6
          \/ d = 7 \/ d = 8 \/ d = 9) as Hd by lia.
  repeat (destruct Hd as [-> | Hd]; [reflexivity |]).
  subst d. reflexivity.
Qed.

(** With fuel for the binary digits of [n], [digitsOf] writes all the
    decimal digits of [n]. *)
Lemma digitsOf_value (fuel : nat) :
  forall n acc,
    0 <= n < 2 ^ Z.of_nat fuel ->
    exists p, JS.digitsOf fuel n acc = p ++ acc /\ JS.valueOfDigits p 0 = n.
Proof.
  induction fuel as [| f IH]; intros n acc Hn.
  - exists "". split; [reflexivity |]. simpl in *. lia.
  - cbn [JS.digitsOf].
    assert (0 <= n mod 10 < 10) as Hd by (apply Z.mod_pos_bound; lia).
    pose proof (Z.div_mod n 10 ltac:(lia)) as Hdiv.
    destruct (Z.eqb_spec (n / 10) 0) as [H0 | Hnz].
    + exists (String (JS.digitChar (n mod 10)) ""). split; [reflexivity |].
      cbn [JS.valueOfDigits]. rewrite digitChar_value by exact Hd. lia.
    + assert (0 <= n / 10 < 2 ^ Z.of_nat f) as Hrec.
      { split; [apply Z.div_pos; lia |].
        apply Z.div_lt_upper_bound; [lia |].
        rewrite Nat2Z.inj_succ, Z.pow_succ_r in Hn by lia. lia. }
      destruct (IH (n / 10) (String (JS.digitChar (n mod 10)) acc) Hrec)
        as [p [Hp Hv]].
      exists (p ++ String (JS.digitChar (n mod 10)) ""). split.
      * rewrite Hp, append_assoc. reflexivity.
      * rewrite valueOfDigits_app, Hv. cbn [JS.valueOfDigits].
        rewrite digitChar_value by exact Hd. lia.
Qed.

(** [toString] prints a non-negative integer in full: reading the digits
    back gives the number. *)
Lemma toString_value (n : Z) :
  0 <= n -> JS.valueOfDigits (JS.toString n) 0 = n.
Proof.
  intros Hn. unfold JS.toString.
  destruct (Z.ltb_spec n 0) as [Hneg | _]; [lia |].
  destruct (@digitsOf_value (JS.digitFuel n) n "") as [p [Hp Hv]].
  - split; [exact Hn |]. unfold JS.digitFuel.
    rewrite Nat2Z.inj_succ, Z2Nat.id by apply Z.log2_nonneg.
    destruct (Z.eq_dec n 0) as [-> | Hpos]; [reflexivity |].
    apply Z.log2_spec. lia.
  - rewrite Hp. replace (p ++ "") with p; [exact Hv |].
    clear. induction p as [| c p IH]; simpl; [reflexivity | now rewrite <- IH].
Qed.

(** From 10 on, a number prints with its tens and units last. *)
Lemma toString_last_two (n : Z) :
  10 <= n ->
  exists p, JS.toString n
            = p ++ String (JS.digitChar ((n / 10) mod 10))
                     (String (JS.digitChar (n mod 10)) "").
Proof.
  intros Hn. unfold JS.toString.
  destruct (Z.ltb_spec n 0) as [Hneg | _]; [lia |].
  unfold JS.digitFuel.
  assert (1 <= Z.log2 n) as Hlog.
  { apply Z.log2_le_pow2; simpl; lia. }
  destruct (Z.to_nat (Z.log2 n)) as [| f] eqn:Hf; [lia |].
  cbn [JS.digitsOf].
  destruct (Z.eqb_spec (n / 10) 0) as [H0 | _].
  { assert (1 <= n / 10) by (apply Z.div_le_lower_bound; lia). lia. }
  destruct (n / 10 / 10 =? 0).
  - exists "". reflexivity.
  - apply digitsOf_extends.
Qed.

Lemma substring_all (s : string) : substring 0 (String.length s) s = s.
Proof. induction s as [| c s IH]; simpl; [reflexivity | now rewrite IH]. Qed.

Lemma substring_skip (p s : string) :
  substring (String.length p) (String.length s) (p ++ s) = s.
Proof. induction p as [| c p IH]; simpl; [apply substring_all | exact IH]. Qed.

Lemma length_append (p s : string) :
  String.length (p ++ s) = (String.length p + String.length s)%nat.
Proof. induction p as [| c p IH]; simpl; [reflexivity | now rewrite IH]. Qed.

Lemma sliceLast_suffix (p s : string) :
  JS.sliceLast (String.length s) (p ++ s) = s.
Proof.
  unfold JS.sliceLast. rewrite length_append.
  replace (String.length p + String.length s - String.length s)%nat
    with (String.length p) by lia.
  apply substring_skip.
Qed.

(** [year.toString().slice(-2)] *)
Lemma year_two_digits (y : Z) :
  10 <= y ->
  JS.sliceLast 2 (JS.toString y)
  = String (JS.digitChar ((y / 10) mod 10)) (String (JS.digitChar (y mod 10)) "").
Proof.
  intros Hy. destruct (toString_last_two Hy) as [p ->].
  apply (sliceLast_suffix p (String _ (String _ ""))).
Qed.

(** [(month + 1).toString().padStart(2, '0')] *)
Lemma month_two_digits (m : Z) :
  0 <= m <= 11 ->
  JS.padStart 2 "0" (JS.toString (m + 1))
  = String (JS.digitChar ((m + 1) / 10)) (String (JS.digitChar ((m + 1) mod 10)) "").
Proof.
  intros H.
  assert (m = 0 \/ m = 1 \/ m = 2 \/ m = 3 \/ m = 4 \/ m = 5 \/ m = 6
          \/ m = 7 \/ m = 8 \/ m = 9 \/ m = 10 \/ m = 11) as Hm by lia.
  repeat (destruct Hm as [-> | Hm]; [reflexivity |]).
  subst m. reflexivity.
Qed.

Lemma test_lit (l : string) :
  forall re s, Regex.test (Regex.lit l ++ re)%list (l ++ s) = Regex.test re s.
Proof.
  induction l as [| c l IH]; intros re s; simpl; [reflexivity |].
  rewrite Ascii.eqb_refl. apply IH.
Qed.

Lemma test_times (q : Regex.CharClass) (p : ascii -> bool) :
  (forall c, p c = true -> q c = true) ->
  forall s, allChars p s = true ->
            Regex.test (Regex.times (String.length s) q) s = true.
Proof.
  intros Hpq. induction s as [| c s IH]; simpl; [reflexivity |].
  intros H. apply andb_true_iff in H as [Hc Hs].
  rewrite (Hpq _ Hc). apply IH, Hs.
Qed.

Lemma alphabet_upperOrDigit (c : ascii) :
  inAlphabet nanoidAlphabet c = true -> Regex.upperOrDigit c = true.
Proof.
  destruct c as [[] [] [] [] [] [] [] []]; vm_compute; intros H;
    first [reflexivity | discriminate H].
Qed.

(** A string that does not start with ['M'] is no certificate number for
    the validator. *)
Lemma validate_other_prefix (c : ascii) (s : string) :
  Ascii.eqb "M" c = false -> validateCertificateNumber (String c s) = false.
Proof.
  intros H. unfold validateCertificateNumber, certNumberRegex.
  cbn -[Ascii.eqb]. now rewrite H.
Qed.

End StringFacts.

(* ===================================================================== *)
(** * Tables: lookups and updates *)
(* ===================================================================== *)

Section Tables.

Lemma findByRegistration_some (d : DB) (r : Z) (c : Certificate.t) :
  storage.findByRegistration d r = Some c ->
  In c (certificates d) /\ Certificate.registrationId c = r.
Proof.
  unfold storage.findByRegistration. intros H.
  apply find_some in H as [Hin Heq]. split; [exact Hin | lia].
Qed.

Lemma findByRegistration_none (d : DB) (r : Z) :
  storage.findByRegistration d r = None ->
  ~ In r (map Certificate.registrationId (certificates d)).
Proof.
  unfold storage.findByRegistration. intros H Hin.
  apply in_map_iff in Hin as [c [Hc Hin]].
  pose proof (find_none _ _ H c Hin) as Hn. cbn in Hn. lia.
Qed.

Lemma reissued_keepsKeys q a b : keepsKeys (storage.reissued q a b).
Proof. intros c. repeat split. Qed.

Lemma revoked_keepsKeys r a u b : keepsKeys (storage.revoked r a u b).
Proof. intros c. repeat split. Qed.

Lemma updateWhereId_length i f cs :
  List.length (storage.updateWhereId i f cs) = List.length cs.
Proof. apply length_map. Qed.

Lemma updateWhereId_map (A : Type) (key : Certificate.t -> A) i f cs :
  (forall c, key (f c) = key c) ->
  map key (storage.updateWhereId i f cs) = map key cs.
Proof.
  intros Hk. unfold storage.updateWhereId. rewrite map_map.
  apply map_ext. intros c. destruct (Certificate.id c =? i); [apply Hk | reflexivity].
Qed.

Lemma updateWhereId_other i f cs c :
  In c cs -> Certificate.id c <> i -> In c (storage.updateWhereId i f cs).
Proof.
  intros Hin Hne. apply in_map_iff. exists c. split; [| exact Hin].
  destruct (Z.eqb_spec (Certificate.id c) i); [contradiction | reflexivity].
Qed.

Lemma updateWhereId_hit i f cs c :
  In c cs -> Certificate.id c = i -> In (f c) (storage.updateWhereId i f cs).
Proof.
  intros Hin He. apply in_map_iff. exists c. split; [| exact Hin].
  rewrite He, Z.eqb_refl. reflexivity.
Qed.

Lemma updateWhereId_in i f cs c' :
  In c' (storage.updateWhereId i f cs) ->
  (In c' cs /\ Certificate.id c' <> i)
  \/ (exists c, In c cs /\ Certificate.id c = i /\ c' = f c).
Proof.
  intros H. apply in_map_iff in H as [c [He Hin]].
  destruct (Z.eqb_spec (Certificate.id c) i) as [Hi | Hi].
  - right. exists c. auto.
  - left. subst c'. auto.
Qed.

Lemma returning_updated i f cs :
  (forall c, Certificate.id (f c) = Certificate.id c) ->
  storage.returningWhereId i (storage.updateWhereId i f cs)
  = map f (storage.returningWhereId i cs).
Proof.
  intros Hk. unfold storage.returningWhereId, storage.updateWhereId.
  induction cs as [| c cs IH]; simpl; [reflexivity |].
  destruct (Z.eqb_spec (Certificate.id c) i) as [Hi | Hi].
  - rewrite Hk, Hi, Z.eqb_refl. simpl. now rewrite IH.
  - destruct (Z.eqb_spec (Certificate.id c) i); [contradiction | exact IH].
Qed.

Lemma returning_absent i cs :
  ~ In i (map Certificate.id cs) -> storage.returningWhereId i cs = [].
Proof.
  induction cs as [| c cs IH]; simpl; [reflexivity |]. intros H.
  destruct (Z.eqb_spec (Certificate.id c) i) as [Hi | Hi]; [tauto |].
  apply IH. tauto.
Qed.

(** With [id] a key, the rows with the id of a stored row are that row. *)
Lemma returning_unique cs c :
  NoDup (map Certificate.id cs) -> In c cs ->
  storage.returningWhereId (Certificate.id c) cs = [c].
Proof.
  induction cs as [| x cs IH]; simpl; [tauto |].
  intros Hnd Hin. inversion Hnd as [| ? ? Hx Hnd']; subst.
  destruct Hin as [-> | Hin].
  - rewrite Z.eqb_refl. f_equal. apply returning_absent, Hx.
  - destruct (Z.eqb_spec (Certificate.id x) (Certificate.id c)) as [He | _].
    + exfalso. apply Hx. rewrite He. apply in_map, Hin.
    + apply IH; assumption.
Qed.

Lemma returning_present i cs c :
  In c cs -> Certificate.id c = i -> storage.returningWhereId i cs <> [].
Proof.
  intros Hin He Hnil.
  assert (In c (storage.returningWhereId i cs)) as H.
  { apply filter_In. split; [exact Hin | lia]. }
  rewrite Hnil in H. exact H.
Qed.

Lemma NoDup_map_filter (A B : Type) (key : A -> B) (p : A -> bool) (l : list A) :
  NoDup (map key l) -> NoDup (map key (filter p l)).
Proof.
  induction l as [| a l IH]; simpl; [auto |]. intros H.
  inversion H as [| ? ? Ha Hl]; subst.
  destruct (p a); [| auto]. simpl. constructor; [| auto].
  intros Hin. apply Ha. apply in_map_iff in Hin as [x [Hx Hin]].
  apply filter_In in Hin as [Hin _]. rewrite <- Hx. apply in_map, Hin.
Qed.

Lemma userExists_in (d : DB) (u : Z) :
  storage.userExists d u = true <-> In u (map User.id (users d)).
Proof.
  unfold storage.userExists. rewrite existsb_exists, in_map_iff.
  split; intros [x [H1 H2]].
  - exists x. split; [lia | exact H1].
  - exists x. split; [exact H2 | lia].
Qed.

End Tables.

(* ===================================================================== *)
(** * What a storage call does to the ledger *)
(* ===================================================================== *)

Section Steps.

Lemma generateCertificate_change r q n w :
  LedgerWrite (db w) (db (snd (storage.generateCertificate r q n w))).
Proof.
  unfold storage.generateCertificate. run_async.
  destruct (storage.findByRegistration (db w) r) as [c |] eqn:Hfind.
  - destruct (JS.truthy (Certificate.isRevoked c)); proj.
    + eapply LedgerUpdate; proj; try reflexivity.
      apply reissued_keepsKeys.
    + apply LedgerSame; [reflexivity | lia].
  - unfold storage.insertCertificate. run_async.
    destruct (storage.registrationExists (db w) r); proj;
      [| apply LedgerSame; proj; [reflexivity | lia]].
    destruct (storage.numberTaken (db w) n); proj;
      [apply LedgerSame; proj; [reflexivity | lia] |].
    destruct (50 <? String.length n)%nat; proj;
      [apply LedgerSame; proj; [reflexivity | lia] |].
    eapply LedgerInsert; proj; try reflexivity.
    apply findByRegistration_none, Hfind.
Qed.

Lemma revokeCertificate_change i u reason w :
  LedgerWrite (db w) (db (snd (storage.revokeCertificate i u reason w))).
Proof.
  unfold storage.revokeCertificate. run_async.
  destruct (pgText reason); proj; [| apply LedgerSame; [reflexivity | lia]].
  destruct (storage.returningWhereId i _) as [| row rows]; proj;
    [apply LedgerSame; [reflexivity | lia] |].
  destruct (storage.userExists (db w) u); proj;
    [| apply LedgerSame; [reflexivity | lia]].
  eapply LedgerUpdate; proj; try reflexivity.
  apply revoked_keepsKeys.
Qed.

Lemma getCertificateByNumber_same n w :
  snd (storage.getCertificateByNumber n w) = w.
Proof.
  unfold storage.getCertificateByNumber. run_async.
  destruct (pgText n); [| reflexivity].
  destruct (find _ _); reflexivity.
Qed.

Lemma logActivity_certificates u a dt rt ri ip ua w :
  certificates (db (snd (storage.logActivity u a dt rt ri ip ua w)))
  = certificates (db w)
  /\ certificates_id_seq (db (snd (storage.logActivity u a dt rt ri ip ua w)))
     = certificates_id_seq (db w).
Proof.
  unfold storage.logActivity. run_async.
  destruct (storage.userExists (db w) u); proj; split; reflexivity.
Qed.

(** Every call but [deleteEvent] writes the table in one of the three
    ways. *)
Lemma step_write (c : Call) (w : World) :
  (forall e, c <> CallDeleteEvent e) -> LedgerWrite (db w) (db (step c w)).
Proof.
  intros Hc. destruct c; cbn [step].
  - apply generateCertificate_change.
  - apply revokeCertificate_change.
  - rewrite getCertificateByNumber_same. apply LedgerSame; [reflexivity | lia].
  - exfalso. eapply Hc. reflexivity.
  - destruct (logActivity_certificates userId action details resourceType
                resourceId ipAddress userAgent w) as [Hl Hs].
    apply LedgerSame; [exact Hl | lia].
Qed.

Lemma step_change (c : Call) (w : World) : LedgerChange (db w) (db (step c w)).
Proof.
  destruct c;
    try (apply LedgerWritten, step_write; intros e; discriminate).
  cbn [step]. unfold storage.deleteEvent. run_async.
  destruct (storage.scheduleBlocks (db w) eventId); proj.
  - apply LedgerWritten, LedgerSame; [reflexivity | lia].
  - eapply LedgerDelete; proj; reflexivity.
Qed.



Lemma change_consistent d d' :
  LedgerChange d d' ->
  Forall (fun c => revocationConsistent c = true) (certificates d) ->
  Forall (fun c => revocationConsistent c = true) (certificates d').
Proof.
  intros [[Hc _ | i f Hc _ _ Hf | row Hc _ _ _ Hrow] | p Hc _] H; rewrite Hc.
  - exact H.
  - apply Forall_forall. intros c' Hin.
    apply updateWhereId_in in Hin as [[Hin _] | [c [_ [_ ->]]]]; [| apply Hf].
    rewrite Forall_forall in H. apply H, Hin.
  - apply Forall_app. split; [exact H | constructor; [exact Hrow | constructor]].
  - apply Forall_forall. intros c Hin. apply filter_In in Hin as [Hin _].
    rewrite Forall_forall in H. apply H, Hin.
Qed.


(** An invariant kept by every call is kept by every sequence of calls. *)
Lemma run_invariant (P : DB -> Prop) :
  (forall d d', LedgerChange d d' -> P d -> P d') ->
  forall calls w, P (db w) -> P (db (run calls w)).
Proof.
  intros Hstep calls. unfold run.
  induction calls as [| c calls IH]; intros w Hw; cbn; [exact Hw |].
  apply IH. eapply Hstep; [apply step_change | exact Hw].
Qed.

End Steps.

(* ===================================================================== *)
(** * The example deployment, run *)
(* ===================================================================== *)

Section ExampleRuns.

Lemma issued_ledger : certificates (db Example.issued) = [Example.certificate1].
Proof. vm_compute. reflexivity. Qed.

Lemma revokedOnce_ledger :
  certificates (db Example.revokedOnce) = [Example.certificate1Revoked].
Proof. vm_compute. reflexivity. Qed.

Lemma issued_primaryKey : primaryKey (db Example.issued).
Proof.
  unfold primaryKey. rewrite issued_ledger. split.
  - repeat constructor. intros [].
  - repeat constructor.
Qed.

End ExampleRuns.

(* ===================================================================== *)
(** * The issuance endpoint and the ledger *)
(* ===================================================================== *)

Section Issuance.

Variable toDataURL : string -> option string.
Variable req : Request.t.
Variable registrationId : Z.
Variable w : World.

(** The ledger after the handler is the ledger after the one storage call
    it makes, if the QR code could be rendered. The number it passes is
    computed from its first reading of the clock. *)
Lemma post_ledger :
  certificates (db (snd (routes.postRegistrationCertificate toDataURL req
                           registrationId w)))
  = match toDataURL
            (routes.verificationUrl req
               (routes.certificateNumberFor (clock w (ticks w)) registrationId))
    with
    | Some qrCode =>
        certificates
          (db (snd (storage.generateCertificate registrationId qrCode
                      (routes.certificateNumberFor (clock w (ticks w)) registrationId)
                      (tick w))))
    | None => certificates (db w)
    end.
Proof.
  unfold routes.postRegistrationCertificate, generateCertificate.
  unfold deref; unfold tryCatch, bind, newDate, ret, throw.
  set (number := routes.certificateNumberFor (clock w (ticks w)) registrationId).
  destruct (toDataURL (routes.verificationUrl req number)) as [qrCode |];
    [| reflexivity].
  destruct (storage.generateCertificate registrationId qrCode number (tick w))
    as [[[row |] | e] w2]; cbn beta iota; cbn [fst snd]; try reflexivity.
  match goal with
  | |- context [storage.logActivity ?u ?a ?d ?rt ?ri ?ip ?ua w2] =>
      destruct (logActivity_certificates u a d rt ri ip ua w2) as [Hl _];
      destruct (storage.logActivity u a d rt ri ip ua w2) as [[l | e] w3]
  end; cbn [fst snd] in *; exact Hl.
Qed.


End Issuance.

(* ===================================================================== *)
(** * Issuing when a certificate exists *)
(* ===================================================================== *)



(** C5. Reissue after revocation: when the registration's certificate is
    revoked, [storage.generateCertificate] returns the same row with
    [isRevoked] false, the three revocation fields null, [qrCode] the one
    passed in, [issuedDate] and [updatedAt] fresh readings of the clock, and
    [id], [registrationId], [certificateNumber] and [createdAt] as they
    were; the row is in the ledger, which has as many rows as before and
    every other row as it was, and no other table changes. *)
Theorem reissue_after_revoke_frame :
  forall (w : World) (registrationId : Z) (qrCode certificateNumber : string)
         (existing : Certificate.t),
    primaryKey (db w) ->
    storage.findByRegistration (db w) registrationId = Some existing ->
    Certificate.isRevoked existing = Some true ->
    exists (row : Certificate.t) (w' : World),
      storage.generateCertificate registrationId qrCode certificateNumber w
      = (Returned (Some row), w')
      /\ Certificate.isRevoked row = Some false
      /\ Certificate.revokedReason row = None
      /\ Certificate.revokedDate row = None
      /\ Certificate.revokedById row = None
      /\ Certificate.qrCode row = qrCode
      /\ Certificate.issuedDate row = clock w (ticks w)
      /\ Certificate.updatedAt row = clock w (S (ticks w))
      /\ Certificate.id row = Certificate.id existing
      /\ Certificate.registrationId row = Certificate.registrationId existing
      /\ Certificate.certificateNumber row = Certificate.certificateNumber existing
      /\ Certificate.createdAt row = Certificate.createdAt existing
      /\ In row (certificates (db w'))
      /\ List.length (certificates (db w')) = List.length (certificates (db w))
      /\ (forall other, In other (certificates (db w)) ->
                        Certificate.id other <> Certificate.id existing ->
                        In other (certificates (db w')))
      /\ users (db w') = users (db w)
      /\ events (db w') = events (db w)
      /\ eventRegistrations (db w') = eventRegistrations (db w)
      /\ activityLogs (db w') = activityLogs (db w).
Proof.
  intros w registrationId qrCode certificateNumber existing [Hkey _] Hfind Hrev.
  destruct (findByRegistration_some _ _ Hfind) as [Hin _].
  unfold storage.generateCertificate. run_async.
  rewrite Hfind, Hrev. cbn [JS.truthy]. proj.
  rewrite returning_updated by reflexivity.
  rewrite (returning_unique _ _ Hkey Hin). cbn [map hd_error].
  eexists. eexists. split; [reflexivity |].
  cbn. repeat (split; [reflexivity |]).
  split; [apply updateWhereId_hit; [exact Hin | reflexivity] |].
  split; [apply updateWhereId_length |].
  split; [intros other Ho Hne; apply updateWhereId_other; assumption |].
  repeat split.
Qed.

Lemma reissue_after_revoke_frame_witness :
  primaryKey (db Example.revokedOnce)
  /\ storage.findByRegistration (db Example.revokedOnce) 42
     = Some Example.certificate1Revoked
  /\ Certificate.isRevoked Example.certificate1Revoked = Some true
  /\ exists row w',
      storage.generateCertificate 42 "fresh QR code" "CERT-1700000000007-42"
        Example.revokedOnce
      = (Returned (Some row), w')
      /\ Certificate.isRevoked row = Some false
      /\ Certificate.certificateNumber row = "CERT-1700000000000-42".
Proof.
  assert (primaryKey (db Example.revokedOnce)) as Hkey.
  { split; vm_compute; repeat constructor. intros []. }
  split; [exact Hkey |].
  split; [vm_compute; reflexivity |].
  split; [reflexivity |].
  destruct (reissue_after_revoke_frame Example.revokedOnce 42 "fresh QR code"
              "CERT-1700000000007-42" (existing := Example.certificate1Revoked)
              Hkey) as [row [w' H]].
  - vm_compute; reflexivity.
  - reflexivity.
  - exists row, w'. intuition.
Defined.

(* ===================================================================== *)
(** * Invariants of the ledger *)
(* ===================================================================== *)

(** C8. Revocation-field consistency is kept by every sequence of storage
    calls (insert, reissue after revoke, revoke, and the calls that do not
    write the rows): if every row of the ledger has the three revocation
    fields set when [isRevoked] is true and null when it is false, so has
    every row after the calls. The empty ledger is such a ledger. *)
Theorem revocation_fields_consistent :
  forall (calls : list Call) (w : World),
    Forall (fun c => revocationConsistent c = true) (certificates (db w)) ->
    forall c, In c (certificates (db (run calls w))) ->
      (Certificate.isRevoked c = Some true ->
       Certificate.revokedReason c <> None
       /\ Certificate.revokedDate c <> None
       /\ Certificate.revokedById c <> None)
      /\ (Certificate.isRevoked c = Some false ->
          Certificate.revokedReason c = None
          /\ Certificate.revokedDate c = None
          /\ Certificate.revokedById c = None).
Proof.
  intros calls w Hw c Hin.
  pose proof (run_invariant
                (fun d => Forall (fun c => revocationConsistent c = true)
                                 (certificates d))
                change_consistent calls w Hw) as Hall.
  rewrite Forall_forall in Hall. specialize (Hall c Hin).
  unfold revocationConsistent in Hall.
  destruct (Certificate.isRevoked c) as [[|] |];
    destruct (Certificate.revokedReason c), (Certificate.revokedDate c),
      (Certificate.revokedById c);
    cbn in Hall; try discriminate Hall; split; intros H;
    try discriminate H; repeat split; congruence.
Qed.

Lemma revocation_fields_consistent_witness :
  Forall (fun c => revocationConsistent c = true)
         (certificates (db Example.issued))
  /\ In Example.certificate1Revoked
        (certificates
           (db (run [CallRevokeCertificate 1 7 "duplicate issuance"] Example.issued)))
  /\ (Certificate.isRevoked Example.certificate1Revoked = Some true ->
      Certificate.revokedReason Example.certificate1Revoked <> None
      /\ Certificate.revokedDate Example.certificate1Revoked <> None
      /\ Certificate.revokedById Example.certificate1Revoked <> None).
Proof.
  assert (Forall (fun c => revocationConsistent c = true)
                 (certificates (db Example.issued))) as H0
      by (vm_compute; repeat constructor).
  assert (In Example.certificate1Revoked
            (certificates
               (db (run [CallRevokeCertificate 1 7 "duplicate issuance"]
                        Example.issued)))) as Hin
      by (vm_compute; left; reflexivity).
  split; [exact H0 |].
  split; [exact Hin |].
  apply (revocation_fields_consistent _ _ H0 _ Hin).
Defined.

(* ===================================================================== *)
(** * Requests that overlap *)
(* ===================================================================== *)

Section Overlap.








Lemma hd_filter_find (A : Type) (p : A -> bool) (l : list A) :
  hd_error (filter p l) = find p l.
Proof.
  induction l as [| a l IH]; simpl; [reflexivity |].
  destruct (p a); [reflexivity | exact IH].
Qed.

Lemma gone_existing (d : DB) (e : Z) :
  eventExists d e = true -> storage.gone d e e = true.
Proof.
  unfold eventExists, storage.gone, storage.deletedEvents.
  rewrite !existsb_exists. intros [ev [Hin He]].
  exists ev. split; [| exact He]. apply filter_In. split; assumption.
Qed.

Lemma gone_other (d : DB) (e e' : Z) :
  e' <> e -> storage.gone d e e' = false.
Proof.
  intros Hne. unfold storage.gone, storage.deletedEvents.
  destruct (existsb _ _) eqn:Hex; [| reflexivity].
  apply existsb_exists in Hex as [ev [Hin He]].
  apply filter_In in Hin as [_ Hin]. lia.
Qed.

End Overlap.




(* ===================================================================== *)
(** * Certificate numbers *)
(* ===================================================================== *)

Section Numbers.

(** A row with an id that was not in the table before
    [storage.generateCertificate] is the row it inserted, with the
    arguments of the call. *)
Lemma generateCertificate_new_row r q n w row :
  In row (certificates (db (snd (storage.generateCertificate r q n w)))) ->
  ~ In (Certificate.id row) (map Certificate.id (certificates (db w))) ->
  Certificate.registrationId row = r
  /\ Certificate.certificateNumber row = n
  /\ Certificate.qrCode row = q.
Proof.
  unfold storage.generateCertificate. run_async.
  destruct (storage.findByRegistration (db w) r) as [c |] eqn:Hfind.
  - destruct (JS.truthy (Certificate.isRevoked c)); proj; intros Hin Hnew.
    + exfalso. apply Hnew.
      rewrite <- (updateWhereId_map Certificate.id (Certificate.id c)
                    (storage.reissued q (clock w (ticks w)) (clock w (S (ticks w))))
                    (certificates (db w))) by reflexivity.
      apply in_map, Hin.
    + exfalso. apply Hnew, in_map, Hin.
  - unfold storage.insertCertificate. run_async.
    destruct (storage.registrationExists (db w) r); proj;
      [| intros Hin Hnew; exfalso; apply Hnew, in_map, Hin].
    destruct (storage.numberTaken (db w) n); proj;
      [intros Hin Hnew; exfalso; apply Hnew, in_map, Hin |].
    destruct (50 <? String.length n)%nat; proj;
      [intros Hin Hnew; exfalso; apply Hnew, in_map, Hin |].
    intros Hin Hnew. apply in_app_or in Hin as [Hin | [<- | []]].
    + exfalso. apply Hnew, in_map, Hin.
    + repeat split.
Qed.

Lemma certificateNumberFor_rejected now registrationId :
  validateCertificateNumber (routes.certificateNumberFor now registrationId) = false.
Proof. apply validate_other_prefix. reflexivity. Qed.

Lemma generated_number_shape (date : Date) (suffix : string) :
  10 <= getFullYear date ->
  0 <= getMonth date <= 11 ->
  generateCertificateNumber date suffix
  = "MEDEVENT-"
      ++ String (JS.digitChar ((getFullYear date / 10) mod 10))
           (String (JS.digitChar (getFullYear date mod 10))
              (String (JS.digitChar ((getMonth date + 1) / 10))
                 (String (JS.digitChar ((getMonth date + 1) mod 10))
                    ("-" ++ suffix)))).
Proof.
  intros Hy Hm. unfold generateCertificateNumber.
  rewrite (year_two_digits Hy), (month_two_digits Hm). reflexivity.
Qed.

End Numbers.

(** C7 as stated fails: the number the endpoint stored for registration 42
    is [CERT-1700000000000-42], which the validator rejects. *)
Lemma issued_number_not_well_formed :
  certificates (db Example.start) = []
  /\ certificates
       (db (snd (routes.postRegistrationCertificate Example.toDataURL Example.req 42
                   Example.start)))
     = [Example.certificate1]
  /\ Certificate.certificateNumber Example.certificate1 = "CERT-1700000000000-42"
  /\ validateCertificateNumber (Certificate.certificateNumber Example.certificate1)
     = false.
Proof. vm_compute. repeat split. Qed.

(** C7, amended. Every number that [generateCertificateNumber] returns, for
    a date from the year 10 on and a six-character value of [nanoid(6)], is
    well-formed: it is [MEDEVENT-], the last two digits of the year, the
    month on two digits, a hyphen and the suffix, and
    [validateCertificateNumber] accepts it. The issuance endpoint does not
    call that generator: every row it creates carries
    [CERT-{Date.now()}-{registrationId}], which [validateCertificateNumber]
    rejects. *)
Theorem generated_numbers_well_formed :
  forall (date : Date) (suffix : string),
    10 <= getFullYear date ->
    0 <= getMonth date <= 11 ->
    nanoidOutput 6 suffix = true ->
    generateCertificateNumber date suffix
    = "MEDEVENT-"
        ++ String (JS.digitChar ((getFullYear date / 10) mod 10))
             (String (JS.digitChar (getFullYear date mod 10))
                (String (JS.digitChar ((getMonth date + 1) / 10))
                   (String (JS.digitChar ((getMonth date + 1) mod 10))
                      ("-" ++ suffix))))
    /\ validateCertificateNumber (generateCertificateNumber date suffix) = true
    /\ (forall toDataURL req registrationId w row,
           In row (certificates
                     (db (snd (routes.postRegistrationCertificate toDataURL req
                                 registrationId w)))) ->
           ~ In (Certificate.id row) (map Certificate.id (certificates (db w))) ->
           Certificate.certificateNumber row
           = routes.certificateNumberFor (clock w (ticks w)) registrationId
           /\ validateCertificateNumber (Certificate.certificateNumber row) = false).
Proof.
  intros date suffix Hy Hm Hsuffix.
  split; [apply generated_number_shape; assumption |].
  split.
  - rewrite generated_number_shape by assumption.
    unfold validateCertificateNumber, certNumberRegex.
    rewrite test_lit. cbn [Regex.times repeat app Regex.test].
    assert (0 <= getFullYear date mod 10 < 10) by (apply Z.mod_pos_bound; lia).
    assert (0 <= (getFullYear date / 10) mod 10 < 10) by (apply Z.mod_pos_bound; lia).
    assert (0 <= (getMonth date + 1) mod 10 < 10) by (apply Z.mod_pos_bound; lia).
    assert (0 <= (getMonth date + 1) / 10 < 10).
    { split; [apply Z.div_pos; lia | apply Z.div_lt_upper_bound; lia]. }
    rewrite !digitChar_digit by assumption. cbn [andb].
    change (Regex.lit "-" ++ repeat Regex.upperOrDigit 6)%list
      with (Regex.lit "-" ++ Regex.times 6 Regex.upperOrDigit)%list.
    rewrite test_lit.
    unfold nanoidOutput in Hsuffix. apply andb_true_iff in Hsuffix as [Hlen Hall].
    apply Nat.eqb_eq in Hlen.
    pose proof (test_times _ _ alphabet_upperOrDigit _ Hall) as Ht.
    rewrite Hlen in Ht. exact Ht.
  - intros toDataURL req registrationId w row Hin Hnew.
    rewrite post_ledger in Hin.
    destruct (toDataURL _) as [q |]; [| exfalso; apply Hnew, in_map, Hin].
    destruct (generateCertificate_new_row _ _ _ (tick w) _ Hin Hnew) as [_ [Hn _]].
    rewrite Hn. split; [reflexivity | apply certificateNumberFor_rejected].
Qed.

Lemma generated_numbers_well_formed_witness :
  10 <= getFullYear (mkDate 2026 10)
  /\ 0 <= getMonth (mkDate 2026 10) <= 11
  /\ nanoidOutput 6 "A1B2C3" = true
  /\ generateCertificateNumber (mkDate 2026 10) "A1B2C3" = "MEDEVENT-2611-A1B2C3"
  /\ validateCertificateNumber (generateCertificateNumber (mkDate 2026 10) "A1B2C3")
     = true.
Proof.
  assert (10 <= getFullYear (mkDate 2026 10)) as Hy by (simpl; lia).
  assert (0 <= getMonth (mkDate 2026 10) <= 11) as Hm by (simpl; lia).
  assert (nanoidOutput 6 "A1B2C3" = true) as Hs by reflexivity.
  split; [exact Hy |]. split; [exact Hm |]. split; [exact Hs |].
  pose proof (generated_numbers_well_formed (mkDate 2026 10) "A1B2C3" Hy Hm Hs)
    as [Hshape [Hvalid _]].
  split; [exact Hshape | exact Hvalid].
Defined.

(* ===================================================================== *)
(** * Public verification *)
(* ===================================================================== *)

Section Verification.

Lemma numberTaken_find (d : DB) (n : string) :
  storage.numberTaken d n
  = isSome (find (fun c => String.eqb (Certificate.certificateNumber c) n)
                 (certificates d)).
Proof.
  unfold storage.numberTaken.
  induction (certificates d) as [| c cs IH]; cbn; [reflexivity |].
  destruct (String.eqb (Certificate.certificateNumber c) n); [reflexivity | exact IH].
Qed.

(** The handler answers a stored number with 200 or 500, never with the
    404 of an unknown number. *)
Lemma verify_found req n w c :
  find (fun c => String.eqb (Certificate.certificateNumber c) n)
       (certificates (db w)) = Some c ->
  exists r, fst (routes.getCertificatesVerify req n w) = Returned r
            /\ (status r = 200 \/ status r = 500).
Proof.
  intros Hfind.
  unfold routes.getCertificatesVerify, storage.getCertificateByNumber.
  unfold deref; unfold tryCatch, bind, ret, throw, getDB. cbn beta iota.
  destruct (pgText n); cbn beta iota;
    [| eexists; split; [reflexivity | right; reflexivity]].
  rewrite Hfind. cbn beta iota. cbn [storage.certificate storage.registrationOf].
  destruct (JS.truthy (Certificate.isRevoked c)).
  { eexists. split; [reflexivity | left; reflexivity]. }
  destruct (storage.joinRegistration (db w) (Certificate.registrationId c))
    as [reg |]; cbn beta iota;
    [| eexists; split; [reflexivity | right; reflexivity]].
  destruct (storage.logActivity _ _ _ _ _ _ _ w) as [[l | e] w1]; cbn beta iota;
    [| eexists; split; [reflexivity | right; reflexivity]].
  destruct (storage.event reg); cbn beta iota;
    [| eexists; split; [reflexivity | right; reflexivity]].
  destruct (storage.user reg); cbn beta iota;
    eexists; (split; [reflexivity |]); [left | right]; reflexivity.
Qed.

(** A number with U+0000 in it is answered 500: the query is refused. *)
Lemma verify_refused req n w :
  pgText n = false ->
  routes.getCertificatesVerify req n w
  = (Returned (routes.message 500 "Failed to verify certificate"), w).
Proof.
  intros Hn. unfold routes.getCertificatesVerify, storage.getCertificateByNumber.
  rewrite Hn. reflexivity.
Qed.

End Verification.

(** C3 as stated fails: [CERT-1700000000000-42], the number the endpoint
    issued, is not well-formed, and verification answers it from the ledger
    with [valid: true]; against the empty ledger the same request gets the
    404 answer, whose body has a [message] and no [reason]. *)
Lemma verify_malformed_number_is_looked_up :
  validateCertificateNumber "CERT-1700000000000-42" = false
  /\ fst (routes.getCertificatesVerify Example.req "CERT-1700000000000-42"
            Example.issued)
     = Returned (routes.validResponse Example.certificate1 Example.congress
                   Example.admin)
  /\ jField "valid"
       (body (routes.validResponse Example.certificate1 Example.congress
                Example.admin))
     = Some (JBool true)
  /\ fst (routes.getCertificatesVerify Example.req "CERT-1700000000000-42"
            Example.start)
     = Returned routes.notFoundResponse
  /\ body routes.notFoundResponse <> specNotFound.
Proof.
  split; [reflexivity |].
  split; [vm_compute; reflexivity |].
  split; [reflexivity |].
  split; [vm_compute; reflexivity |].
  discriminate.
Qed.

(** C3, amended. For every input string, well-formed or not, verification
    answers 404 with [{message: "Certificate not found", valid: false}]
    exactly when the string is a text the database accepts (it has no
    U+0000 in it) and no row of the ledger has that [certificateNumber]; the
    world is then as it was. The answer comes from the lookup
    [getCertificateByNumber]: the handler makes no format check. A string
    with U+0000 in it is refused by the database and answered 500, the world
    staying as it was. *)
Theorem verify_not_found_by_lookup :
  forall (req : Request.t) (number : string) (w : World),
    (fst (routes.getCertificatesVerify req number w) = Returned routes.notFoundResponse
     <-> pgText number = true /\ storage.numberTaken (db w) number = false)
    /\ (pgText number = true ->
        storage.numberTaken (db w) number = false ->
        snd (routes.getCertificatesVerify req number w) = w)
    /\ (pgText number = false ->
        routes.getCertificatesVerify req number w
        = (Returned (routes.message 500 "Failed to verify certificate"), w)).
Proof.
  intros req number w.
  destruct (pgText number) eqn:Htext.
  - rewrite numberTaken_find.
    destruct (find (fun c => String.eqb (Certificate.certificateNumber c) number)
                   (certificates (db w))) as [c |] eqn:Hfind; cbn [isSome].
    + split; [| split; discriminate].
      split; [| intros [_ H]; discriminate H].
      destruct (verify_found req number w Hfind) as [r [Hr Hs]].
      rewrite Hr. intros H. injection H as ->. cbn in Hs. destruct Hs; discriminate.
    + assert (routes.getCertificatesVerify req number w
              = (Returned routes.notFoundResponse, w)) as Hrun.
      { unfold routes.getCertificatesVerify, storage.getCertificateByNumber.
        rewrite Htext.
        unfold tryCatch, bind, ret, getDB. cbn beta iota. rewrite Hfind. reflexivity. }
      rewrite Hrun. repeat split. discriminate.
  - rewrite (verify_refused req number w Htext).
    split; [| split; [discriminate | reflexivity]].
    split; [discriminate | intros [H _]; discriminate H].
Qed.

Lemma verify_not_found_by_lookup_witness :
  pgText "not-a-real-number" = true
  /\ storage.numberTaken (db Example.issued) "not-a-real-number" = false
  /\ fst (routes.getCertificatesVerify Example.req "not-a-real-number" Example.issued)
     = Returned routes.notFoundResponse
  /\ snd (routes.getCertificatesVerify Example.req "not-a-real-number" Example.issued)
     = Example.issued
  /\ pgText (String Ascii.zero "") = false
  /\ routes.getCertificatesVerify Example.req (String Ascii.zero "") Example.issued
     = (Returned (routes.message 500 "Failed to verify certificate"), Example.issued).
Proof.
  assert (storage.numberTaken (db Example.issued) "not-a-real-number" = false) as H
      by (vm_compute; reflexivity).
  pose proof (verify_not_found_by_lookup Example.req "not-a-real-number"
                Example.issued) as [Hiff [Hsame _]].
  pose proof (verify_not_found_by_lookup Example.req (String Ascii.zero "")
                Example.issued) as [_ [_ Hrefused]].
  split; [reflexivity |]. split; [exact H |].
  split; [exact (proj2 Hiff (conj eq_refl H)) |].
  split; [exact (Hsame eq_refl H) |].
  split; [reflexivity | exact (Hrefused eq_refl)].
Defined.

(* ===================================================================== *)
(** * Revocation *)
(* ===================================================================== *)

(** C4 as stated fails: revoking certificate 1 a second time, by user 8 and
    for another reason, is answered 200, and the row now carries the second
    reason, date and actor. *)
Lemma second_revoke_succeeds :
  certificates (db Example.revokedOnce) = [Example.certificate1Revoked]
  /\ Certificate.isRevoked Example.certificate1Revoked = Some true
  /\ fst (routes.postCertificatesRevoke Example.req8 1 (Some "second reason")
            Example.revokedOnce)
     = Returned (mkResponse 200 (Certificate.toJSON Example.certificate1RevokedTwice))
  /\ certificates
       (db (snd (routes.postCertificatesRevoke Example.req8 1 (Some "second reason")
                   Example.revokedOnce)))
     = [Example.certificate1RevokedTwice]
  /\ Example.certificate1RevokedTwice <> Example.certificate1Revoked.
Proof.
  split; [vm_compute; reflexivity |].
  split; [reflexivity |].
  split; [vm_compute; reflexivity |].
  split; [vm_compute; reflexivity |].
  discriminate.
Qed.

(** C4, amended. For every certificate whose [isRevoked] flag is already
    true, a second revoke call with a non-empty reason that the database
    accepts as text (no U+0000 in it), made by a user, succeeds with status
    200: the row keeps [isRevoked] true and its [revokedReason],
    [revokedDate], [revokedById] and [updatedAt] are overwritten with the
    values of the second call, the other fields staying as they were. There
    is no [AlreadyRevoked] failure. With U+0000 in the reason the database
    refuses the update: the answer is 500 and the database is as it was. *)
Theorem revoke_again_overwrites :
  forall (req : Request.t) (certificateId : Z) (reason : string) (w : World)
         (existing : Certificate.t),
    primaryKey (db w) ->
    In existing (certificates (db w)) ->
    Certificate.id existing = certificateId ->
    Certificate.isRevoked existing = Some true ->
    reason <> "" ->
    storage.userExists (db w) (Request.user_id req) = true ->
    (pgText reason = true ->
     exists (row : Certificate.t) (w' : World),
       routes.postCertificatesRevoke req certificateId (Some reason) w
       = (Returned (mkResponse 200 (Certificate.toJSON row)), w')
       /\ In row (certificates (db w'))
       /\ List.length (certificates (db w')) = List.length (certificates (db w))
       /\ Certificate.isRevoked row = Some true
       /\ Certificate.revokedReason row = Some reason
       /\ Certificate.revokedDate row = Some (clock w (ticks w))
       /\ Certificate.revokedById row = Some (Request.user_id req)
       /\ Certificate.updatedAt row = clock w (S (ticks w))
       /\ Certificate.id row = Certificate.id existing
       /\ Certificate.registrationId row = Certificate.registrationId existing
       /\ Certificate.certificateNumber row = Certificate.certificateNumber existing
       /\ Certificate.qrCode row = Certificate.qrCode existing
       /\ Certificate.issuedDate row = Certificate.issuedDate existing
       /\ Certificate.createdAt row = Certificate.createdAt existing)
    /\ (pgText reason = false ->
        fst (routes.postCertificatesRevoke req certificateId (Some reason) w)
        = Returned (routes.message 500 "Failed to revoke certificate")
        /\ db (snd (routes.postCertificatesRevoke req certificateId (Some reason) w))
           = db w).
Proof.
  intros req certificateId reason w existing [Hkey _] Hin Hid _ Hreason Huser.
  subst certificateId.
  unfold routes.postCertificatesRevoke.
  destruct reason as [| ch rest]; [contradiction |].
  unfold storage.revokeCertificate, storage.logActivity. run_async.
  split; intros Htext; rewrite Htext; run_async; [| split; reflexivity].
  rewrite returning_updated by reflexivity.
  rewrite (returning_unique _ _ Hkey Hin). cbn [map].
  rewrite Huser. run_async.
  unfold storage.userExists in *. proj. rewrite Huser.
  eexists. eexists. split; [reflexivity |]. proj.
  split; [apply updateWhereId_hit; [exact Hin | reflexivity] |].
  split; [apply updateWhereId_length |].
  cbn. repeat split.
Qed.

Lemma revoke_again_overwrites_witness :
  primaryKey (db Example.revokedOnce)
  /\ In Example.certificate1Revoked (certificates (db Example.revokedOnce))
  /\ Certificate.id Example.certificate1Revoked = 1
  /\ Certificate.isRevoked Example.certificate1Revoked = Some true
  /\ "second reason" <> ""
  /\ storage.userExists (db Example.revokedOnce) (Request.user_id Example.req8) = true
  /\ pgText "second reason" = true
  /\ exists row w',
      routes.postCertificatesRevoke Example.req8 1 (Some "second reason")
        Example.revokedOnce
      = (Returned (mkResponse 200 (Certificate.toJSON row)), w')
      /\ Certificate.revokedReason row = Some "second reason"
      /\ Certificate.revokedById row = Some 8.
Proof.
  assert (primaryKey (db Example.revokedOnce)) as Hkey.
  { split; vm_compute; repeat constructor. intros []. }
  assert (In Example.certificate1Revoked (certificates (db Example.revokedOnce)))
    as Hin by (vm_compute; left; reflexivity).
  assert ("second reason" <> "") as Hreason by discriminate.
  assert (storage.userExists (db Example.revokedOnce) (Request.user_id Example.req8)
          = true) as Huser by (vm_compute; reflexivity).
  split; [exact Hkey |]. split; [exact Hin |]. split; [reflexivity |].
  split; [reflexivity |]. split; [exact Hreason |]. split; [exact Huser |].
  split; [reflexivity |].
  destruct (proj1 (@revoke_again_overwrites Example.req8 1 "second reason"
                     Example.revokedOnce Example.certificate1Revoked
                     Hkey Hin eq_refl eq_refl Hreason Huser) eq_refl)
    as [row [w' H]].
  exists row, w'. intuition.
Defined.

(* ===================================================================== *)
(** * The QR code of a reissued certificate *)
(* ===================================================================== *)

(** C6, at the input where the code departs from it. Registration 42 holds
    the revoked certificate [CERT-1700000000000-42]; the issuance endpoint,
    called at 1700000000007, keeps that number in the row and stores the QR
    code of the URL of another number, [CERT-1700000000007-42], which is the
    number of no row: verifying it gives 404. The stored QR code is not the
    QR code of the URL of the stored number. *)
Theorem reissued_qr_code_names_another_number :
  certificates (db Example.revokedOnce) = [Example.certificate1Revoked]
  /\ fst (routes.postRegistrationCertificate Example.toDataURL Example.req 42
            Example.revokedOnce)
     = Returned (mkResponse 201 (Certificate.toJSON Example.certificate1Reissued))
  /\ certificates (db Example.reissuedWorld) = [Example.certificate1Reissued]
  /\ Certificate.certificateNumber Example.certificate1Reissued
     = "CERT-1700000000000-42"
  /\ Example.toDataURL
       (routes.verificationUrl Example.req "CERT-1700000000007-42")
     = Some (Certificate.qrCode Example.certificate1Reissued)
  /\ Example.toDataURL
       (routes.verificationUrl Example.req
          (Certificate.certificateNumber Example.certificate1Reissued))
     <> Some (Certificate.qrCode Example.certificate1Reissued)
  /\ fst (routes.getCertificatesVerify Example.req "CERT-1700000000007-42"
            Example.reissuedWorld)
     = Returned routes.notFoundResponse.
Proof.
  split; [vm_compute; reflexivity |].
  split; [vm_compute; reflexivity |].
  split; [vm_compute; reflexivity |].
  split; [reflexivity |].
  split; [reflexivity |].
  split; [vm_compute; discriminate |].
  vm_compute; reflexivity.
Qed.

(** On the insert path the property of C6 holds: a row the endpoint creates
    carries the QR code of the verification URL of its own number. *)
Lemma inserted_qr_code_names_stored_number :
  forall toDataURL req registrationId w row,
    In row (certificates
              (db (snd (routes.postRegistrationCertificate toDataURL req
                          registrationId w)))) ->
    ~ In (Certificate.id row) (map Certificate.id (certificates (db w))) ->
    toDataURL (routes.verificationUrl req (Certificate.certificateNumber row))
    = Some (Certificate.qrCode row).
Proof.
  intros toDataURL req registrationId w row Hin Hnew.
  rewrite post_ledger in Hin.
  destruct (toDataURL _) as [q |] eqn:Hq; [| exfalso; apply Hnew, in_map, Hin].
  destruct (generateCertificate_new_row _ _ _ (tick w) _ Hin Hnew) as [_ [Hn Hqr]].
  rewrite Hn, Hqr. exact Hq.
Qed.

(* ===================================================================== *)
(** * Eligibility *)
(* ===================================================================== *)

Section Eligibility.

Lemma existsb_registration_id (rid : Z) (regs : list Registration.t) :
  existsb (fun r => Registration.id r =? rid) (map withoutEligibility regs)
  = existsb (fun r => Registration.id r =? rid) regs.
Proof.
  induction regs as [| r regs IH]; cbn; [reflexivity |]. now rewrite IH.
Qed.

Lemma registrationExists_eligibility (d d' : DB) (rid : Z) :
  sameButEligibility d d' ->
  storage.registrationExists d rid = storage.registrationExists d' rid.
Proof.
  intros (_ & _ & Hregs & _). unfold storage.registrationExists.
  rewrite <- (existsb_registration_id rid (eventRegistrations d)).
  rewrite <- (existsb_registration_id rid (eventRegistrations d')).
  now rewrite Hregs.
Qed.

Lemma registrationExists_in (d : DB) (reg : Registration.t) :
  In reg (eventRegistrations d) ->
  storage.registrationExists d (Registration.id reg) = true.
Proof.
  intros Hin. apply existsb_exists. exists reg. split; [exact Hin | lia].
Qed.

End Eligibility.

(** C9 as stated fails: registration 42 is pending and its attendance is
    not confirmed, and the endpoint answers 201 and creates the row. *)
Lemma ineligible_registration_is_certified :
  eventRegistrations (db Example.start) = [Example.registration42]
  /\ eligible Example.registration42 = false
  /\ Registration.status Example.registration42 = pending
  /\ certificates (db Example.start) = []
  /\ fst (routes.postRegistrationCertificate Example.toDataURL Example.req 42
            Example.start)
     = Returned (mkResponse 201 (Certificate.toJSON Example.certificate1))
  /\ certificates
       (db (snd (routes.postRegistrationCertificate Example.toDataURL Example.req 42
                   Example.start)))
     = [Example.certificate1].
Proof. vm_compute. repeat split. Qed.

(** C9, amended. The issuance endpoint makes no eligibility check and has no
    [NotEligible] failure: its response and the ledger it leaves are the same
    in two worlds that differ only in the attendance flag and the status of
    registrations. For a registration that is not eligible and has no
    certificate, it creates the row and answers 201, provided the QR code
    renders, the number is free and fits the column, and the caller is a
    user. *)
Theorem issuance_ignores_eligibility :
  forall (toDataURL : string -> option string) (req : Request.t)
         (registrationId : Z) (w : World),
    (forall w',
        sameButEligibility (db w) (db w') ->
        clock w' = clock w ->
        ticks w' = ticks w ->
        fst (routes.postRegistrationCertificate toDataURL req registrationId w')
        = fst (routes.postRegistrationCertificate toDataURL req registrationId w)
        /\ certificates
             (db (snd (routes.postRegistrationCertificate toDataURL req
                         registrationId w')))
           = certificates
               (db (snd (routes.postRegistrationCertificate toDataURL req
                           registrationId w))))
    /\ (forall reg qrCode,
           In reg (eventRegistrations (db w)) ->
           Registration.id reg = registrationId ->
           eligible reg = false ->
           storage.findByRegistration (db w) registrationId = None ->
           toDataURL
             (routes.verificationUrl req
                (routes.certificateNumberFor (clock w (ticks w)) registrationId))
           = Some qrCode ->
           storage.numberTaken (db w)
             (routes.certificateNumberFor (clock w (ticks w)) registrationId)
           = false ->
           (String.length
              (routes.certificateNumberFor (clock w (ticks w)) registrationId)
            <= 50)%nat ->
           storage.userExists (db w) (Request.user_id req) = true ->
           exists row,
             fst (routes.postRegistrationCertificate toDataURL req registrationId w)
             = Returned (mkResponse 201 (Certificate.toJSON row))
             /\ certificates
                  (db (snd (routes.postRegistrationCertificate toDataURL req
                              registrationId w)))
                = (certificates (db w) ++ [row])%list
             /\ Certificate.registrationId row = registrationId
             /\ Certificate.isRevoked row = Some false).
Proof.
  intros toDataURL req registrationId w. split.
  - intros w' Hsame Hclock Hticks.
    pose proof (registrationExists_eligibility registrationId Hsame) as Hreg.
    destruct Hsame as (Hu & He & _ & Hc & Hs & Hl & Hls).
    destruct w as [d clk t], w' as [d' clk' t']. cbn in Hclock, Hticks. subst clk' t'.
    destruct d as [us es regs cs seq ls lseq], d' as [us' es' regs' cs' seq' ls' lseq'].
    cbn in Hu, He, Hc, Hs, Hl, Hls. subst us' es' cs' seq' ls' lseq'.
    cbn [db] in Hreg.
    unfold routes.postRegistrationCertificate, generateCertificate,
      storage.generateCertificate, storage.insertCertificate, storage.logActivity,
      storage.findByRegistration, storage.numberTaken, storage.userExists.
    run_async.
    destruct (toDataURL _) as [q |]; run_async; [| split; reflexivity].
    destruct (find _ cs) as [c |]; run_async.
    + destruct (JS.truthy (Certificate.isRevoked c)); run_async.
      * destruct (hd_error _); run_async; [| split; reflexivity].
        destruct (existsb _ us); run_async; split; reflexivity.
      * destruct (existsb _ us); run_async; split; reflexivity.
    + rewrite <- Hreg.
      destruct (storage.registrationExists _ registrationId); run_async;
        [| split; reflexivity].
      destruct (existsb _ cs); run_async; [split; reflexivity |].
      destruct (50 <? String.length _)%nat; run_async; [split; reflexivity |].
      destruct (existsb _ us); run_async; split; reflexivity.
  - intros reg qrCode Hin Hid _ Hfind Hqr Hfree Hlen Huser. subst registrationId.
    pose proof (registrationExists_in _ _ Hin) as Hreg.
    apply Nat.ltb_ge in Hlen.
    unfold routes.postRegistrationCertificate, generateCertificate,
      storage.generateCertificate, storage.insertCertificate, storage.logActivity.
    run_async. rewrite Hqr. run_async. rewrite Hfind. run_async.
    rewrite Hreg. run_async. rewrite Hfree. run_async. rewrite Hlen. run_async.
    unfold storage.userExists in *. proj. rewrite Huser.
    eexists. split; [reflexivity |]. proj. repeat split.
Qed.

Lemma issuance_ignores_eligibility_witness :
  In Example.registration42 (eventRegistrations (db Example.start))
  /\ eligible Example.registration42 = false
  /\ storage.findByRegistration (db Example.start) 42 = None
  /\ exists row,
      fst (routes.postRegistrationCertificate Example.toDataURL Example.req 42
             Example.start)
      = Returned (mkResponse 201 (Certificate.toJSON row))
      /\ Certificate.registrationId row = 42.
Proof.
  assert (In Example.registration42 (eventRegistrations (db Example.start))) as Hin
      by (left; reflexivity).
  assert (storage.findByRegistration (db Example.start) 42 = None) as Hnone
      by reflexivity.
  split; [exact Hin |]. split; [reflexivity |]. split; [exact Hnone |].
  destruct (proj2 (issuance_ignores_eligibility Example.toDataURL Example.req 42
                     Example.start)
              Example.registration42
              "data:image/png;base64,https://med.example/certificates/verify/CERT-1700000000000-42"
              Hin eq_refl eq_refl Hnone)
    as [row [Hresp [_ [Hreg _]]]].
  - vm_compute; reflexivity.
  - vm_compute; reflexivity.
  - vm_compute; lia.
  - vm_compute; reflexivity.
  - exists row. split; [exact Hresp | exact Hreg].
Defined.

(* ===================================================================== *)
(** * What verification discloses *)
(* ===================================================================== *)

Section Disclosure.

Lemma find_user_withoutEmail (uid : Z) (us : list User.t) :
  find (fun u => User.id u =? uid) (map withoutEmail us)
  = option_map withoutEmail (find (fun u => User.id u =? uid) us).
Proof.
  induction us as [| u us IH]; cbn; [reflexivity |].
  destruct (User.id u =? uid); [reflexivity | exact IH].
Qed.

Lemma existsb_user_withoutEmail (uid : Z) (us : list User.t) :
  existsb (fun u => User.id u =? uid) (map withoutEmail us)
  = existsb (fun u => User.id u =? uid) us.
Proof.
  induction us as [| u us IH]; cbn; [reflexivity |]. now rewrite IH.
Qed.

(** The valid answer reads nothing of the user but the three public
    fields. *)
Lemma validResponse_withoutEmail c e u :
  routes.validResponse c e (withoutEmail u) = routes.validResponse c e u.
Proof. reflexivity. Qed.

Lemma validResponse_same_public c e u u' :
  withoutEmail u = withoutEmail u' ->
  routes.validResponse c e u = routes.validResponse c e u'.
Proof.
  intros H. rewrite <- (validResponse_withoutEmail c e u), H.
  apply validResponse_withoutEmail.
Qed.

(** A response with [valid: true] is the valid answer for some row, event
    and user. *)
Lemma verify_valid_shape req n w r :
  fst (routes.getCertificatesVerify req n w) = Returned r ->
  jField "valid" (body r) = Some (JBool true) ->
  exists c e u, r = routes.validResponse c e u.
Proof.
  unfold routes.getCertificatesVerify, storage.getCertificateByNumber.
  unfold deref; unfold tryCatch, bind, ret, throw, getDB. cbn beta iota.
  destruct (pgText n); cbn beta iota; [| intros [= <-]; discriminate].
  destruct (find _ (certificates (db w))) as [c |]; cbn beta iota;
    cbn [storage.certificate storage.registrationOf fst];
    [| intros [= <-]; discriminate].
  destruct (JS.truthy (Certificate.isRevoked c));
    [intros [= <-]; discriminate |].
  destruct (storage.joinRegistration (db w) (Certificate.registrationId c))
    as [reg |]; cbn beta iota; [| intros [= <-]; discriminate].
  destruct (storage.logActivity _ _ _ _ _ _ _ w) as [[l | e] w1]; cbn beta iota;
    [| intros [= <-]; discriminate].
  destruct (storage.event reg) as [e |]; cbn beta iota;
    [| intros [= <-]; discriminate].
  destruct (storage.user reg) as [u |]; cbn beta iota;
    [| intros [= <-]; discriminate].
  intros [= <-] _. exists c, e, u. reflexivity.
Qed.

End Disclosure.

(** C10. The public verification answer does not disclose the holder's
    e-mail address: two worlds that differ only in the e-mail addresses of
    users get the same answer to the same request, and in an answer with
    [valid: true] the holder summary has the keys [fullName], [organization]
    and [position] and no other. *)
Theorem verification_does_not_disclose_email :
  forall (req : Request.t) (number : string) (w w' : World),
    sameButEmails (db w) (db w') ->
    clock w' = clock w ->
    ticks w' = ticks w ->
    fst (routes.getCertificatesVerify req number w')
    = fst (routes.getCertificatesVerify req number w)
    /\ (forall r,
           fst (routes.getCertificatesVerify req number w) = Returned r ->
           jField "valid" (body r) = Some (JBool true) ->
           exists summary holder,
             jField "certificate" (body r) = Some summary
             /\ jField "user" summary = Some holder
             /\ jKeys holder = ["fullName"; "organization"; "position"]
             /\ jField "email" holder = None
             /\ jField "email" summary = None
             /\ jField "email" (body r) = None).
Proof.
  intros req number w w' Hsame Hclock Hticks. split.
  - destruct Hsame as (Hu & He & Hr & Hc & Hs & Hl & Hls).
    destruct w as [d clk t], w' as [d' clk' t']. cbn in Hclock, Hticks. subst clk' t'.
    destruct d as [us es regs cs seq ls lseq], d' as [us' es' regs' cs' seq' ls' lseq'].
    cbn in Hu, He, Hr, Hc, Hs, Hl, Hls. subst es' regs' cs' seq' ls' lseq'.
    assert (forall uid, existsb (fun u => User.id u =? uid) us'
                        = existsb (fun u => User.id u =? uid) us) as Hex.
    { intros uid. rewrite <- (existsb_user_withoutEmail uid us'), <- Hu.
      apply existsb_user_withoutEmail. }
    assert (forall uid, option_map withoutEmail (find (fun u => User.id u =? uid) us')
                        = option_map withoutEmail (find (fun u => User.id u =? uid) us))
      as Hfind.
    { intros uid. rewrite <- !find_user_withoutEmail, Hu. reflexivity. }
    unfold routes.getCertificatesVerify, storage.getCertificateByNumber,
      storage.joinRegistration, storage.logActivity, storage.userExists.
    run_async.
    destruct (pgText number); run_async; [| reflexivity].
    destruct (find _ cs) as [c |]; run_async; [| reflexivity].
    cbn [storage.certificate storage.registrationOf].
    destruct (JS.truthy (Certificate.isRevoked c)); [reflexivity |].
    destruct (find _ regs) as [reg |]; run_async; [| reflexivity].
    cbn [storage.registration storage.event storage.user].
    rewrite Hex.
    destruct (existsb _ us); run_async; [| reflexivity].
    destruct (find _ es) as [e |]; run_async; [| reflexivity].
    specialize (Hfind (Registration.userId reg)).
    destruct (find _ us') as [u' |], (find _ us) as [u |]; cbn in Hfind;
      try discriminate Hfind; run_async; [| reflexivity].
    assert (withoutEmail u' = withoutEmail u) as Hpublic by congruence.
    f_equal. apply validResponse_same_public, Hpublic.
  - intros r Hr Hvalid.
    destruct (verify_valid_shape _ _ _ Hr Hvalid) as (c & e & u & ->).
    eexists. eexists. cbn. repeat split.
Qed.

Lemma verification_does_not_disclose_email_witness :
  sameButEmails (db Example.issued) (db Example.issuedOtherEmails)
  /\ users (db Example.issued) <> users (db Example.issuedOtherEmails)
  /\ fst (routes.getCertificatesVerify Example.req "CERT-1700000000000-42"
            Example.issuedOtherEmails)
     = fst (routes.getCertificatesVerify Example.req "CERT-1700000000000-42"
              Example.issued).
Proof.
  assert (sameButEmails (db Example.issued) (db Example.issuedOtherEmails)) as Hsame.
  { repeat split. }
  split; [exact Hsame |].
  split; [vm_compute; discriminate |].
  exact (proj1 (@verification_does_not_disclose_email Example.req
                  "CERT-1700000000000-42" Example.issued Example.issuedOtherEmails
                  Hsame eq_refl eq_refl)).
Defined.

(* ===================================================================== *)
(** * More on certificate numbers *)
(* ===================================================================== *)

Section NumberFormat.

Lemma test_lit_inv (l : string) :
  forall re s,
    Regex.test (Regex.lit l ++ re)%list s = true ->
    exists s', s = l ++ s' /\ Regex.test re s' = true.
Proof.
  induction l as [| c l IH]; intros re s H.
  - exists s. split; [reflexivity | exact H].
  - destruct s as [| a s]; [discriminate H |].
    cbn -[Ascii.eqb] in H. apply andb_true_iff in H as [Hc H].
    apply Ascii.eqb_eq in Hc. subst a.
    destruct (IH re s H) as [s' [-> Hs']]. exists s'. split; [reflexivity | exact Hs'].
Qed.

Lemma test_times_inv (k : nat) (c : Regex.CharClass) :
  forall re s,
    Regex.test (Regex.times k c ++ re)%list s = true ->
    exists a s', s = a ++ s' /\ String.length a = k /\ allChars c a = true
                 /\ Regex.test re s' = true.
Proof.
  induction k as [| k IH]; intros re s H.
  - exists "", s. repeat split. exact H.
  - destruct s as [| x s]; [discriminate H |].
    cbn in H. apply andb_true_iff in H as [Hx H].
    destruct (IH re s H) as [a [s' [-> [Hlen [Hall Hs']]]]].
    exists (String x a), s'. cbn. rewrite Hx, Hall, Hlen. repeat split. exact Hs'.
Qed.

Lemma test_times_app (c : Regex.CharClass) (a : string) :
  forall re s',
    allChars c a = true ->
    Regex.test (Regex.times (String.length a) c ++ re)%list (a ++ s')
    = Regex.test re s'.
Proof.
  induction a as [| x a IH]; intros re s' H; [reflexivity |].
  cbn in H. apply andb_true_iff in H as [Hx Ha].
  cbn. rewrite Hx. apply IH, Ha.
Qed.

Lemma test_end (s : string) : Regex.test [] s = true -> s = "".
Proof. destruct s; [reflexivity | discriminate]. Qed.

End NumberFormat.

(** X1. [validateCertificateNumber] accepts exactly the strings made of
    [MEDEVENT-], four decimal digits, a hyphen and six characters among
    [A-Z] and [0-9]; an accepted string has 20 characters. *)
Theorem validate_accepts_exactly :
  forall s : string,
    (validateCertificateNumber s = true <->
     exists digits suffix,
       s = "MEDEVENT-" ++ digits ++ "-" ++ suffix
       /\ String.length digits = 4%nat
       /\ allChars Regex.digit digits = true
       /\ String.length suffix = 6%nat
       /\ allChars Regex.upperOrDigit suffix = true)
    /\ (validateCertificateNumber s = true -> String.length s = 20%nat).
Proof.
  intros s.
  assert (validateCertificateNumber s = true ->
          exists digits suffix,
            s = "MEDEVENT-" ++ digits ++ "-" ++ suffix
            /\ String.length digits = 4%nat
            /\ allChars Regex.digit digits = true
            /\ String.length suffix = 6%nat
            /\ allChars Regex.upperOrDigit suffix = true) as Hshape.
  { unfold validateCertificateNumber, certNumberRegex. intros H.
    apply test_lit_inv in H as [s1 [-> H]].
    apply test_times_inv in H as [digits [s2 [-> [Hd [Hdall H]]]]].
    apply test_lit_inv in H as [s3 [-> H]].
    rewrite <- (app_nil_r (Regex.times 6 Regex.upperOrDigit)) in H.
    apply test_times_inv in H as [suffix [s4 [-> [Hs [Hsall H]]]]].
    apply test_end in H. subst s4.
    exists digits, suffix. repeat split; try assumption.
    replace (suffix ++ "") with suffix; [reflexivity |].
    clear. induction suffix as [| c x IH]; simpl; [reflexivity | now rewrite <- IH]. }
  split; [split; [exact Hshape |] |].
  - intros [digits [suffix [-> [Hd [Hdall [Hs Hsall]]]]]].
    unfold validateCertificateNumber, certNumberRegex.
    rewrite <- Hs, <- Hd.
    rewrite test_lit, test_times_app by exact Hdall. rewrite test_lit.
    apply (test_times Regex.upperOrDigit Regex.upperOrDigit (fun c H => H) suffix Hsall).
  - intros H. destruct (Hshape H) as [digits [suffix [-> [Hd [_ [Hs _]]]]]].
    rewrite !length_append, Hd, Hs. reflexivity.
Qed.

(** X2. A number made by [generateCertificateNumber] has 20 characters and
    can be read back: characters 9-10 are the year modulo 100, characters
    11-12 the month counted from 1, and the last six the random suffix. *)
Theorem generated_number_decodes :
  forall (date : Date) (suffix : string),
    10 <= getFullYear date ->
    0 <= getMonth date <= 11 ->
    String.length suffix = 6%nat ->
    String.length (generateCertificateNumber date suffix) = 20%nat
    /\ JS.valueOfDigits (substring 9 2 (generateCertificateNumber date suffix)) 0
       = getFullYear date mod 100
    /\ JS.valueOfDigits (substring 11 2 (generateCertificateNumber date suffix)) 0
       = getMonth date + 1
    /\ substring 14 6 (generateCertificateNumber date suffix) = suffix.
Proof.
  intros date suffix Hy Hm Hlen.
  rewrite generated_number_shape by assumption.
  assert (0 <= getFullYear date mod 10 < 10) by (apply Z.mod_pos_bound; lia).
  assert (0 <= (getFullYear date / 10) mod 10 < 10) by (apply Z.mod_pos_bound; lia).
  assert (0 <= (getMonth date + 1) mod 10 < 10) by (apply Z.mod_pos_bound; lia).
  assert (0 <= (getMonth date + 1) / 10 < 10).
  { split; [apply Z.div_pos; lia | apply Z.div_lt_upper_bound; lia]. }
  split; [cbn; rewrite Hlen; reflexivity |].
  split; [| split].
  - cbn [append substring JS.valueOfDigits].
    rewrite !digitChar_value by assumption.
    change 100 with (10 * 10).
    rewrite (Z.rem_mul_r (getFullYear date) 10 10) by lia. lia.
  - cbn [append substring JS.valueOfDigits].
    rewrite !digitChar_value by assumption.
    pose proof (Z.div_mod (getMonth date + 1) 10 ltac:(lia)). lia.
  - cbn [append substring]. rewrite <- Hlen. apply substring_all.
Qed.

Lemma generated_number_decodes_witness :
  10 <= getFullYear (mkDate 2026 10)
  /\ 0 <= getMonth (mkDate 2026 10) <= 11
  /\ String.length "A1B2C3" = 6%nat
  /\ JS.valueOfDigits
       (substring 9 2 (generateCertificateNumber (mkDate 2026 10) "A1B2C3")) 0
     = 2026 mod 100
  /\ substring 14 6 (generateCertificateNumber (mkDate 2026 10) "A1B2C3") = "A1B2C3".
Proof.
  assert (10 <= getFullYear (mkDate 2026 10)) as Hy by (simpl; lia).
  assert (0 <= getMonth (mkDate 2026 10) <= 11) as Hm by (simpl; lia).
  assert (String.length "A1B2C3" = 6%nat) as Hs by reflexivity.
  split; [exact Hy |]. split; [exact Hm |]. split; [exact Hs |].
  pose proof (@generated_number_decodes (mkDate 2026 10) "A1B2C3" Hy Hm Hs)
    as [_ [Hyear [_ Hsuffix]]].
  split; [exact Hyear | exact Hsuffix].
Defined.

Section NumberInjective.

Lemma digitsOf_digits (fuel : nat) :
  forall n acc,
    allChars Regex.digit acc = true ->
    allChars Regex.digit (JS.digitsOf fuel n acc) = true.
Proof.
  induction fuel as [| f IH]; intros n acc Hacc; cbn [JS.digitsOf]; [exact Hacc |].
  assert (allChars Regex.digit (String (JS.digitChar (n mod 10)) acc) = true) as H.
  { cbn. rewrite Hacc, digitChar_digit; [reflexivity |]. apply Z.mod_pos_bound. lia. }
  destruct (n / 10 =? 0); [exact H | apply IH, H].
Qed.

(** A non-negative integer prints as a non-empty string of digits. *)
Lemma toString_digits (n : Z) :
  0 <= n ->
  allChars Regex.digit (JS.toString n) = true /\ JS.toString n <> "".
Proof.
  intros Hn. unfold JS.toString.
  destruct (Z.ltb_spec n 0) as [Hneg | _]; [lia |].
  split; [apply digitsOf_digits; reflexivity |].
  unfold JS.digitFuel. cbn [JS.digitsOf].
  destruct (n / 10 =? 0); [discriminate |].
  destruct (digitsOf_extends (Z.to_nat (Z.log2 n)) (n / 10)
              (String (JS.digitChar (n mod 10)) "")) as [p ->].
  destruct p; discriminate.
Qed.

Lemma toString_negative (n : Z) :
  n < 0 -> JS.toString n = String "-" (JS.toString (- n)).
Proof.
  intros Hn. unfold JS.toString.
  destruct (Z.ltb_spec n 0) as [_ | H]; [| lia].
  destruct (Z.ltb_spec (- n) 0) as [H | _]; [lia | reflexivity].
Qed.

Lemma toString_injective (a b : Z) : JS.toString a = JS.toString b -> a = b.
Proof.
  intros H.
  destruct (Z.lt_ge_cases a 0) as [Ha | Ha], (Z.lt_ge_cases b 0) as [Hb | Hb].
  - rewrite (toString_negative Ha), (toString_negative Hb) in H.
    injection H as H. apply (f_equal (fun s => JS.valueOfDigits s 0)) in H.
    rewrite !toString_value in H by lia. lia.
  - rewrite (toString_negative Ha) in H.
    destruct (toString_digits Hb) as [Hd _]. rewrite <- H in Hd. discriminate Hd.
  - rewrite (toString_negative Hb) in H.
    destruct (toString_digits Ha) as [Hd _]. rewrite H in Hd. discriminate Hd.
  - apply (f_equal (fun s => JS.valueOfDigits s 0)) in H.
    rewrite !toString_value in H by lia. exact H.
Qed.

(** Two strings of digits followed by a hyphen and a rest are equal only
    piece by piece. *)
Lemma digits_hyphen_split (d : string) :
  forall d' r r',
    allChars Regex.digit d = true ->
    allChars Regex.digit d' = true ->
    d ++ String "-" r = d' ++ String "-" r' ->
    d = d' /\ r = r'.
Proof.
  induction d as [| c d IH]; intros d' r r' Hd Hd' H.
  - destruct d' as [| c' d']; cbn in H.
    + injection H as ->. split; reflexivity.
    + injection H as Hc _. subst c'. discriminate Hd'.
  - destruct d' as [| c' d']; cbn in H.
    + injection H as Hc _. subst c. discriminate Hd.
    + injection H as -> H.
      cbn in Hd, Hd'. apply andb_true_iff in Hd as [_ Hd].
      apply andb_true_iff in Hd' as [_ Hd'].
      destruct (IH d' r r' Hd Hd' H) as [-> ->]. split; reflexivity.
Qed.

End NumberInjective.

(** X3. The numbers of the issuance endpoint tell their inputs apart: two
    of them are equal only for the same clock reading and the same
    registration id. *)
Theorem endpoint_numbers_injective :
  forall (now now' registrationId registrationId' : Z),
    0 <= now ->
    0 <= now' ->
    routes.certificateNumberFor now registrationId
    = routes.certificateNumberFor now' registrationId' ->
    now = now' /\ registrationId = registrationId'.
Proof.
  intros now now' r r' Hn Hn' H. unfold routes.certificateNumberFor in H.
  cbn [append] in H. injection H as H.
  destruct (toString_digits Hn) as [Hd _], (toString_digits Hn') as [Hd' _].
  destruct (digits_hyphen_split _ _ _ _ Hd Hd' H) as [Hnow Hreg].
  split; apply toString_injective; assumption.
Qed.

Lemma endpoint_numbers_injective_witness :
  0 <= 1700000000000
  /\ routes.certificateNumberFor 1700000000000 42
     = routes.certificateNumberFor 1700000000000 42
  /\ 1700000000000 = 1700000000000 /\ 42 = 42.
Proof.
  assert (0 <= 1700000000000) as H by lia.
  split; [exact H |]. split; [reflexivity |].
  exact (@endpoint_numbers_injective 1700000000000 1700000000000 42 42 H H eq_refl).
Defined.

(* ===================================================================== *)
(** * Authentication and permissions *)
(* ===================================================================== *)

Section Middleware.

Lemma split_word (a : string) :
  noSpace a = true -> auth.split " " a = [a].
Proof.
  induction a as [| c a IH]; cbn -[Ascii.eqb]; [reflexivity |].
  intros H. apply andb_true_iff in H as [Hc Ha].
  apply negb_true_iff in Hc. rewrite Hc, (IH Ha). reflexivity.
Qed.

Lemma split_first_word (a b : string) :
  noSpace a = true ->
  auth.split " " (a ++ String " " b) = a :: auth.split " " b.
Proof.
  induction a as [| c a IH]; cbn -[Ascii.eqb]; [reflexivity |].
  intros H. apply andb_true_iff in H as [Hc Ha].
  apply negb_true_iff in Hc. rewrite Hc, (IH Ha). reflexivity.
Qed.

Lemma includes_In (l : list string) (x : string) :
  auth.includes l x = true <-> In x l.
Proof.
  unfold auth.includes. rewrite existsb_exists. split.
  - intros [y [Hin He]]. apply String.eqb_eq in He. now subst y.
  - intros Hin. exists x. split; [exact Hin | apply String.eqb_refl].
Qed.

End Middleware.

(** X4. [authenticateJWT] takes as token the second word of the
    [Authorization] header, whatever the first word is and whatever follows
    the second: the request is authenticated as the user [jwt.verify] gives
    for it, and refused with 403 when it gives none. A header with no space
    in it is refused with 401 without the token being verified. *)
Theorem authenticate_reads_second_word :
  forall (jwtVerify : string -> option auth.User) (scheme token tail : string),
    noSpace scheme = true ->
    noSpace token = true ->
    token <> "" ->
    tail = "" \/ (exists t, tail = String " " t) ->
    auth.authenticateJWT jwtVerify (Some (scheme ++ String " " (token ++ tail)))
    = match jwtVerify token with
      | Some user => inr user
      | None => inl (auth.denied 403 "Invalid or expired token")
      end
    /\ (scheme <> "" ->
        auth.authenticateJWT jwtVerify (Some scheme)
        = inl (auth.denied 401 "Authentication token is missing")).
Proof.
  intros jwtVerify scheme token tail Hs Ht Hne Htail. split.
  - unfold auth.authenticateJWT.
    assert (nth_error (auth.split " " (scheme ++ String " " (token ++ tail))) 1
            = Some token) as Hnth.
    { rewrite (@split_first_word scheme _ Hs). cbn [nth_error].
      destruct Htail as [-> | [t ->]].
      - replace (token ++ "") with token
          by (clear; induction token as [| c x IH]; simpl;
              [reflexivity | now rewrite <- IH]).
        rewrite (@split_word token Ht). reflexivity.
      - rewrite (@split_first_word token _ Ht). reflexivity. }
    rewrite Hnth.
    destruct scheme as [| c scheme]; cbn [append];
      destruct token as [| x token]; try contradiction; reflexivity.
  - intros Hscheme. unfold auth.authenticateJWT.
    rewrite (@split_word scheme Hs). destruct scheme; [contradiction | reflexivity].
Qed.

Lemma authenticate_reads_second_word_witness :
  noSpace "Basic" = true
  /\ noSpace "abc.def.ghi" = true
  /\ "abc.def.ghi" <> ""
  /\ auth.authenticateJWT
       (fun token =>
          if String.eqb token "abc.def.ghi"
          then Some (auth.mkUser 7 "a@example.org" "guest" [])
          else None)
       (Some "Basic abc.def.ghi trailing words")
     = inr (auth.mkUser 7 "a@example.org" "guest" []).
Proof.
  assert ("abc.def.ghi" <> "") as Hne by discriminate.
  split; [reflexivity |]. split; [reflexivity |]. split; [exact Hne |].
  exact (proj1 (@authenticate_reads_second_word
                  (fun token =>
                     if String.eqb token "abc.def.ghi"
                     then Some (auth.mkUser 7 "a@example.org" "guest" [])
                     else None)
                  "Basic" "abc.def.ghi" " trailing words"
                  eq_refl eq_refl Hne
                  (or_intror (ex_intro _ "trailing words" eq_refl)))).
Defined.

(** X5. [checkPermission] lets a user through exactly when the role is
    [super_admin] or the permission is among the user's; [checkRole] lets a
    user through exactly when the role is listed, so a [super_admin] that is
    not listed is refused by [checkRole] and let through by every
    [checkPermission]. Both refuse a request with no user with 401. *)
Theorem permission_and_role_checks :
  forall (u : auth.User) (permission : string) (roles : list string),
    (auth.checkPermission permission (Some u) = None
     <-> auth.role u = "super_admin" \/ In permission (auth.permissions u))
    /\ (auth.checkRole roles (Some u) = None <-> In (auth.role u) roles)
    /\ (auth.role u = "super_admin" -> ~ In "super_admin" roles ->
        auth.checkPermission permission (Some u) = None
        /\ auth.checkRole roles (Some u)
           = Some (auth.denied 403 "Access denied: Insufficient role privileges"))
    /\ auth.checkPermission permission None
       = Some (auth.denied 401 "Authentication required")
    /\ auth.checkRole roles None = Some (auth.denied 401 "Authentication required").
Proof.
  intros u permission roles.
  assert (auth.checkPermission permission (Some u) = None
          <-> auth.role u = "super_admin" \/ In permission (auth.permissions u)) as Hp.
  { unfold auth.checkPermission.
    destruct (String.eqb_spec (auth.role u) "super_admin") as [He | Hne].
    - split; [intros _; left; exact He | reflexivity].
    - destruct (auth.includes (auth.permissions u) permission) eqn:Hin.
      + split; [intros _; right; apply includes_In, Hin | reflexivity].
      + split; [discriminate |]. intros [He | H]; [contradiction |].
        apply includes_In in H. rewrite H in Hin. discriminate Hin. }
  assert (auth.checkRole roles (Some u) = None <-> In (auth.role u) roles) as Hr.
  { unfold auth.checkRole.
    destruct (auth.includes roles (auth.role u)) eqn:Hin.
    - split; [intros _; apply includes_In, Hin | reflexivity].
    - split; [discriminate |]. intros H.
      apply includes_In in H. rewrite H in Hin. discriminate Hin. }
  split; [exact Hp |]. split; [exact Hr |]. split; [| split; reflexivity].
  intros Hrole Hnot. split; [apply Hp; left; exact Hrole |].
  unfold auth.checkRole.
  destruct (auth.includes roles (auth.role u)) eqn:Hin; [| reflexivity].
  apply includes_In in Hin. rewrite Hrole in Hin. contradiction.
Qed.

(** X6. A route registered behind [authenticateJWT] and [checkPermission]
    either runs its handler, for the user of a verified token who is
    [super_admin] or holds the permission, with that user's id as
    [req.user.id]; or answers 401 or 403 and leaves the world as it is. *)
Theorem guarded_route_needs_permission :
  forall (jwtVerify : string -> option auth.User) (permission : string)
         (handler : Request.t -> Async Response) (req : app.Incoming) (w : World),
    (exists header token user,
        app.authorization req = Some header
        /\ nth_error (auth.split " " header) 1 = Some token
        /\ jwtVerify token = Some user
        /\ (auth.role user = "super_admin" \/ In permission (auth.permissions user))
        /\ app.guarded jwtVerify permission handler req w
           = handler (app.withUser req (auth.id user)) w)
    \/ (exists response,
           app.guarded jwtVerify permission handler req w = (Returned response, w)
           /\ (status response = 401 \/ status response = 403)).
Proof.
  intros jwtVerify permission handler req w.
  unfold app.guarded, auth.authenticateJWT.
  destruct (app.authorization req) as [header |];
    [| right; eexists; split; [reflexivity | left; reflexivity]].
  destruct header as [| c header];
    [right; eexists; split; [reflexivity | left; reflexivity] |].
  destruct (nth_error (auth.split " " (String c header)) 1) as [token |] eqn:Hnth;
    [| right; eexists; split; [reflexivity | left; reflexivity]].
  destruct token as [| x token];
    [right; eexists; split; [reflexivity | left; reflexivity] |].
  destruct (jwtVerify (String x token)) as [user |] eqn:Hjwt;
    [| right; eexists; split; [reflexivity | right; reflexivity]].
  unfold auth.checkPermission.
  destruct (String.eqb_spec (auth.role user) "super_admin") as [He | Hne].
  { left. exists (String c header), (String x token), user.
    repeat split; try assumption. left; exact He. }
  destruct (auth.includes (auth.permissions user) permission) eqn:Hin.
  - left. exists (String c header), (String x token), user.
    repeat split; try assumption. right. apply includes_In, Hin.
  - right. eexists. split; [reflexivity | right; reflexivity].
Qed.

(* ===================================================================== *)
(** * Constraints of the schema, kept by the storage calls *)
(* ===================================================================== *)

Section Constraints.

Lemma run_preserves (P : DB -> Prop) :
  (forall c w, P (db w) -> P (db (step c w))) ->
  forall calls w, P (db w) -> P (db (run calls w)).
Proof.
  intros Hstep calls. unfold run.
  induction calls as [| c calls IH]; intros w Hw; cbn; [exact Hw |].
  apply IH, Hstep, Hw.
Qed.

(** The foreign keys of the rows of [certificates], for other rows. *)
Lemma foreignKeys_withCertificates d cs seq :
  foreignKeys d ->
  Forall (fun c =>
            storage.registrationExists d (Certificate.registrationId c) = true
            /\ (forall u, Certificate.revokedById c = Some u ->
                          storage.userExists d u = true)) cs ->
  foreignKeys (withCertificates d cs seq).
Proof.
  intros (_ & Hr & Hl) Hcs. split; [exact Hcs | split; [exact Hr | exact Hl]].
Qed.

Lemma foreignKeys_generate r q n w :
  foreignKeys (db w) ->
  foreignKeys (db (snd (storage.generateCertificate r q n w))).
Proof.
  intros Hfk. pose proof Hfk as (Hc & _).
  unfold storage.generateCertificate. run_async.
  destruct (storage.findByRegistration (db w) r) as [c |] eqn:Hfind.
  - destruct (JS.truthy (Certificate.isRevoked c)); proj; [| exact Hfk].
    apply (foreignKeys_withCertificates _ Hfk).
    apply Forall_forall. intros c' Hin.
    rewrite Forall_forall in Hc.
    apply updateWhereId_in in Hin as [[Hin _] | [c0 [Hin [_ ->]]]].
    + apply Hc, Hin.
    + split; [apply (Hc c0 Hin) | discriminate].
  - unfold storage.insertCertificate. run_async.
    destruct (storage.registrationExists (db w) r) eqn:Hreg; proj;
      [| apply (foreignKeys_withCertificates _ Hfk), Hc].
    destruct (storage.numberTaken (db w) n); proj;
      [apply (foreignKeys_withCertificates _ Hfk), Hc |].
    destruct (50 <? String.length n)%nat; proj;
      [apply (foreignKeys_withCertificates _ Hfk), Hc |].
    apply (foreignKeys_withCertificates _ Hfk).
    apply Forall_app. split; [exact Hc |].
    constructor; [| constructor]. split; [exact Hreg | discriminate].
Qed.

Lemma foreignKeys_revoke i u reason w :
  foreignKeys (db w) ->
  foreignKeys (db (snd (storage.revokeCertificate i u reason w))).
Proof.
  intros Hfk. pose proof Hfk as (Hc & _).
  unfold storage.revokeCertificate. run_async.
  destruct (pgText reason); proj; [| exact Hfk].
  destruct (storage.returningWhereId i _) as [| row rows]; proj; [exact Hfk |].
  destruct (storage.userExists (db w) u) eqn:Hu; proj; [| exact Hfk].
  apply (foreignKeys_withCertificates _ Hfk).
  apply Forall_forall. intros c' Hin.
  rewrite Forall_forall in Hc.
  apply updateWhereId_in in Hin as [[Hin _] | [c0 [Hin [_ ->]]]].
  - apply Hc, Hin.
  - split; [apply (Hc c0 Hin) |]. cbn. intros u' [= <-]. exact Hu.
Qed.

Lemma foreignKeys_log u a dt rt ri ip ua w :
  foreignKeys (db w) ->
  foreignKeys (db (snd (storage.logActivity u a dt rt ri ip ua w))).
Proof.
  intros (Hc & Hr & Hl). unfold storage.logActivity. run_async.
  destruct (storage.userExists (db w) u) eqn:Hu; proj.
  - split; [exact Hc | split; [exact Hr |]].
    apply Forall_app. split; [exact Hl | constructor; [exact Hu | constructor]].
  - split; [exact Hc | split; [exact Hr | exact Hl]].
Qed.

Lemma foreignKeys_deleteEvent e w :
  foreignKeys (db w) -> foreignKeys (db (snd (storage.deleteEvent e w))).
Proof.
  intros Hfk. pose proof Hfk as (Hc & Hr & Hl).
  unfold storage.deleteEvent. run_async.
  destruct (storage.scheduleBlocks (db w) e); proj; [exact Hfk |].
  unfold storage.gone, storage.deletedEvents.
  rewrite Forall_forall in Hc, Hr.
  split; [| split; [| exact Hl]].
  - apply Forall_forall. intros c Hin. apply filter_In in Hin as [Hin Hkept].
    split; [exact Hkept | apply (Hc c Hin)].
  - apply Forall_forall. intros r Hin. apply filter_In in Hin as [Hin Hkept].
    destruct (Hr r Hin) as [Hev Hu]. split; [| exact Hu].
    apply negb_true_iff in Hkept.
    apply existsb_exists in Hev as [ev [Hevin Hid]].
    apply existsb_exists. exists ev. split; [| exact Hid].
    apply filter_In. split; [exact Hevin |].
    apply negb_true_iff. destruct (Z.eqb_spec (Event.id ev) e) as [He | _];
      [| reflexivity].
    exfalso. rewrite <- Bool.not_true_iff_false in Hkept. apply Hkept.
    apply existsb_exists. exists ev. split; [| exact Hid].
    apply filter_In. split; [exact Hevin | lia].
Qed.

Lemma foreignKeys_step c w : foreignKeys (db w) -> foreignKeys (db (step c w)).
Proof.
  destruct c; cbn [step].
  - apply foreignKeys_generate.
  - apply foreignKeys_revoke.
  - rewrite getCertificateByNumber_same. auto.
  - apply foreignKeys_deleteEvent.
  - apply foreignKeys_log.
Qed.

Lemma numberTaken_in (d : DB) (n : string) :
  storage.numberTaken d n = false ->
  ~ In n (map Certificate.certificateNumber (certificates d)).
Proof.
  unfold storage.numberTaken. intros H Hin.
  apply in_map_iff in Hin as [c [He Hin]].
  rewrite <- Bool.not_true_iff_false in H. apply H.
  apply existsb_exists. exists c. split; [exact Hin |].
  rewrite He. apply String.eqb_refl.
Qed.

Lemma uniqueNumbers_step c w : uniqueNumbers (db w) -> uniqueNumbers (db (step c w)).
Proof.
  unfold uniqueNumbers. intros H. destruct c; cbn [step].
  - unfold storage.generateCertificate. run_async.
    destruct (storage.findByRegistration (db w) registrationId) as [c |].
    + destruct (JS.truthy (Certificate.isRevoked c)); proj; [| exact H].
      rewrite updateWhereId_map; [exact H | reflexivity].
    + unfold storage.insertCertificate. run_async.
      destruct (storage.registrationExists (db w) registrationId); proj;
        [| exact H].
      destruct (storage.numberTaken (db w) certificateNumber) eqn:Htaken; proj;
        [exact H |].
      destruct (50 <? String.length certificateNumber)%nat; proj; [exact H |].
      rewrite map_app. cbn. apply NoDup_app; [exact H | | ].
      * constructor; [intros [] | constructor].
      * intros x Hx [<- | []]. apply (numberTaken_in _ _ Htaken Hx).
  - unfold storage.revokeCertificate. run_async.
    destruct (pgText reason); proj; [| exact H].
    destruct (storage.returningWhereId certificateId _) as [| row rows]; proj;
      [exact H |].
    destruct (storage.userExists (db w) revokedById); proj; [| exact H].
    rewrite updateWhereId_map; [exact H | reflexivity].
  - rewrite getCertificateByNumber_same. exact H.
  - unfold storage.deleteEvent. run_async.
    destruct (storage.scheduleBlocks (db w) eventId); proj; [exact H |].
    apply NoDup_map_filter, H.
  - destruct (logActivity_certificates userId action details resourceType
                resourceId ipAddress userAgent w) as [-> _]. exact H.
Qed.

End Constraints.

(** X7. Every sequence of storage calls keeps the unique index on
    [certificate_number] and the foreign keys of the schema: after it, no
    two certificates share a number, every certificate has its registration
    and (when revoked) its revoking user, every registration has its event
    and its user, every activity log has its user. *)
Theorem schema_constraints_kept :
  forall (calls : list Call) (w : World),
    uniqueNumbers (db w) ->
    foreignKeys (db w) ->
    uniqueNumbers (db (run calls w)) /\ foreignKeys (db (run calls w)).
Proof.
  intros calls w Hu Hf. split.
  - apply (run_preserves uniqueNumbers uniqueNumbers_step calls w Hu).
  - apply (run_preserves foreignKeys foreignKeys_step calls w Hf).
Qed.

Lemma schema_constraints_kept_witness :
  uniqueNumbers (db Example.issued)
  /\ foreignKeys (db Example.issued)
  /\ uniqueNumbers
       (db (run [CallRevokeCertificate 1 8 "duplicate issuance";
                 CallGenerateCertificate 42 "QR" "CERT-1700000000006-42";
                 CallDeleteEvent 1]
                Example.issued)).
Proof.
  assert (uniqueNumbers (db Example.issued)) as Hu.
  { vm_compute. repeat constructor. intros []. }
  assert (foreignKeys (db Example.issued)) as Hf.
  { split; [| split]; vm_compute; repeat constructor; intros u H; discriminate H. }
  split; [exact Hu |]. split; [exact Hf |].
  exact (proj1 (@schema_constraints_kept _ Example.issued Hu Hf)).
Defined.

Section KeyColumns.

(** A row with a given id keeps its key columns through a change of the
    ledger, and the id stays below the sequence. *)
Lemma change_keyColumns (row0 : Certificate.t) d d' :
  LedgerChange d d' ->
  (Certificate.id row0 < certificates_id_seq d
   /\ forall row, In row (certificates d) ->
                  Certificate.id row = Certificate.id row0 ->
                  keyColumns row = keyColumns row0) ->
  Certificate.id row0 < certificates_id_seq d'
  /\ forall row, In row (certificates d') ->
                 Certificate.id row = Certificate.id row0 ->
                 keyColumns row = keyColumns row0.
Proof.
  intros [[Hc Hs | i f Hc Hs Hk _ | new Hc Hid Hs _ _] | p Hc Hs] [Hlt Hkeys];
    rewrite Hc.
  - split; [lia | exact Hkeys].
  - split; [lia |]. intros row Hin He.
    apply updateWhereId_in in Hin as [[Hin _] | [c [Hin [_ ->]]]].
    + apply Hkeys; assumption.
    + destruct (Hk c) as (H1 & H2 & H3 & H4).
      rewrite H1 in He. rewrite <- (Hkeys c Hin He).
      unfold keyColumns. rewrite H1, H2, H3, H4. reflexivity.
  - split; [lia |]. intros row Hin He.
    apply in_app_or in Hin as [Hin | [<- | []]]; [apply Hkeys; assumption | lia].
  - split; [lia |]. intros row Hin He. apply filter_In in Hin as [Hin _].
    apply Hkeys; assumption.
Qed.

End KeyColumns.

(** X8. Once a certificate row is stored, no sequence of storage calls
    changes its key columns or gives its id to another certificate: any row
    with that id afterwards has the same [registrationId],
    [certificateNumber] and [createdAt]. *)
Theorem key_columns_never_change :
  forall (calls : list Call) (w : World) (stored : Certificate.t),
    primaryKey (db w) ->
    In stored (certificates (db w)) ->
    forall row,
      In row (certificates (db (run calls w))) ->
      Certificate.id row = Certificate.id stored ->
      Certificate.registrationId row = Certificate.registrationId stored
      /\ Certificate.certificateNumber row = Certificate.certificateNumber stored
      /\ Certificate.createdAt row = Certificate.createdAt stored.
Proof.
  intros calls w stored [Hnd Hlt] Hin row Hrow Hid.
  assert (Certificate.id stored < certificates_id_seq (db w)
          /\ forall r, In r (certificates (db w)) ->
                       Certificate.id r = Certificate.id stored ->
                       keyColumns r = keyColumns stored) as H0.
  { split; [rewrite Forall_forall in Hlt; apply Hlt, Hin |].
    intros r Hr He.
    pose proof (returning_unique _ _ Hnd Hin) as H1.
    assert (In r (storage.returningWhereId (Certificate.id stored)
                    (certificates (db w)))) as H2
        by (apply filter_In; split; [exact Hr | lia]).
    rewrite H1 in H2. destruct H2 as [<- | []]. reflexivity. }
  pose proof (run_invariant
                (fun d => Certificate.id stored < certificates_id_seq d
                          /\ forall r, In r (certificates d) ->
                                       Certificate.id r = Certificate.id stored ->
                                       keyColumns r = keyColumns stored)
                (@change_keyColumns stored) calls w H0) as [_ Hkeys].
  specialize (Hkeys row Hrow Hid). unfold keyColumns in Hkeys.
  injection Hkeys as _ H2 H3 H4. repeat split; assumption.
Qed.

Lemma key_columns_never_change_witness :
  primaryKey (db Example.issued)
  /\ In Example.certificate1 (certificates (db Example.issued))
  /\ In Example.certificate1Revoked
        (certificates
           (db (run [CallRevokeCertificate 1 7 "duplicate issuance"] Example.issued)))
  /\ Certificate.certificateNumber Example.certificate1Revoked
     = Certificate.certificateNumber Example.certificate1.
Proof.
  assert (primaryKey (db Example.issued)) as Hkey.
  { split; vm_compute; repeat constructor. intros []. }
  assert (In Example.certificate1 (certificates (db Example.issued))) as Hin
      by (vm_compute; left; reflexivity).
  assert (In Example.certificate1Revoked
            (certificates
               (db (run [CallRevokeCertificate 1 7 "duplicate issuance"]
                        Example.issued)))) as Hrow
      by (vm_compute; left; reflexivity).
  split; [exact Hkey |]. split; [exact Hin |]. split; [exact Hrow |].
  exact (proj1 (proj2 (@key_columns_never_change _ Example.issued
                         Example.certificate1 Hkey Hin
                         Example.certificate1Revoked Hrow eq_refl))).
Defined.

(* ===================================================================== *)
(** * Verification of stored numbers *)
(* ===================================================================== *)

Section StoredNumbers.

Lemma existsb_find (A : Type) (p : A -> bool) (l : list A) :
  existsb p l = true -> exists x, find p l = Some x.
Proof.
  induction l as [| a l IH]; cbn; [discriminate |].
  destruct (p a); [intros _; exists a; reflexivity | exact IH].
Qed.

(** With the unique index, looking a stored row up by its number finds that
    row. *)
Lemma find_by_unique_number (cs : list Certificate.t) (row : Certificate.t) :
  NoDup (map Certificate.certificateNumber cs) ->
  In row cs ->
  find (fun c => String.eqb (Certificate.certificateNumber c)
                            (Certificate.certificateNumber row)) cs
  = Some row.
Proof.
  induction cs as [| c cs IH]; cbn; [tauto |].
  intros Hnd Hin. inversion Hnd as [| ? ? Hc Hnd']; subst.
  destruct Hin as [-> | Hin]; [now rewrite String.eqb_refl |].
  destruct (String.eqb_spec (Certificate.certificateNumber c)
                            (Certificate.certificateNumber row)) as [He | _].
  - exfalso. apply Hc. rewrite He. apply in_map, Hin.
  - apply IH; assumption.
Qed.

(** What the verification handler answers for a stored row when the
    foreign keys hold. *)
Lemma verify_stored req n w c :
  pgText n = true ->
  foreignKeys (db w) ->
  find (fun c => String.eqb (Certificate.certificateNumber c) n)
       (certificates (db w)) = Some c ->
  if JS.truthy (Certificate.isRevoked c) then
    routes.getCertificatesVerify req n w = (Returned (routes.revokedResponse c), w)
  else
    exists reg e u,
      find (fun r => Registration.id r =? Certificate.registrationId c)
           (eventRegistrations (db w)) = Some reg
      /\ find (fun e => Event.id e =? Registration.eventId reg) (events (db w))
         = Some e
      /\ find (fun u => User.id u =? Registration.userId reg) (users (db w))
         = Some u
      /\ fst (routes.getCertificatesVerify req n w)
         = Returned (routes.validResponse c e u).
Proof.
  intros Htext (Hc & Hr & _) Hfind.
  unfold routes.getCertificatesVerify, storage.getCertificateByNumber.
  rewrite Htext. run_async. rewrite Hfind. run_async.
  cbn [storage.certificate storage.registrationOf].
  destruct (JS.truthy (Certificate.isRevoked c)); [reflexivity |].
  apply find_some in Hfind as [Hin _].
  rewrite Forall_forall in Hc, Hr.
  destruct (Hc c Hin) as [Hreg _].
  apply existsb_find in Hreg as [reg Hreg].
  pose proof (find_some _ _ Hreg) as [Hregin _].
  destruct (Hr reg Hregin) as [Hev Hu].
  destruct (existsb_find _ _ Hev) as [e He].
  pose proof Hu as Hu'. apply existsb_find in Hu' as [u Hfu].
  exists reg, e, u. split; [exact Hreg |]. split; [exact He |]. split; [exact Hfu |].
  unfold storage.joinRegistration, storage.logActivity. run_async.
  rewrite Hreg. run_async. cbn [storage.registration storage.event storage.user].
  rewrite Hu. run_async. rewrite He, Hfu. reflexivity.
Qed.

End StoredNumbers.

(** X9. When the foreign keys of the schema hold, verification of a number
    that is stored never fails: it answers 200, with the revoked answer of
    the row if the row is revoked and otherwise with the valid answer made
    of the row, the event of its registration and the user of its
    registration. The stored numbers are text values of Postgres, as every
    stored value is: none has U+0000 in it. *)
Theorem verify_stored_number_answers :
  forall (req : Request.t) (number : string) (w : World) (row : Certificate.t),
    foreignKeys (db w) ->
    uniqueNumbers (db w) ->
    numbersAreText (db w) ->
    In row (certificates (db w)) ->
    Certificate.certificateNumber row = number ->
    (JS.truthy (Certificate.isRevoked row) = true ->
     routes.getCertificatesVerify req number w
     = (Returned (routes.revokedResponse row), w))
    /\ (JS.truthy (Certificate.isRevoked row) = false ->
        exists reg e u,
          In reg (eventRegistrations (db w))
          /\ Registration.id reg = Certificate.registrationId row
          /\ In e (events (db w)) /\ Event.id e = Registration.eventId reg
          /\ In u (users (db w)) /\ User.id u = Registration.userId reg
          /\ fst (routes.getCertificatesVerify req number w)
             = Returned (routes.validResponse row e u)).
Proof.
  intros req number w row Hfk Hun Htext Hin <-.
  pose proof (find_by_unique_number _ _ Hun Hin) as Hfind.
  unfold numbersAreText in Htext. rewrite Forall_forall in Htext.
  pose proof (verify_stored req _ w (Htext row Hin) Hfk Hfind) as H.
  split; intros Hrev; rewrite Hrev in H; [exact H |].
  destruct H as (reg & e & u & Hreg & He & Hu & Hresp).
  apply find_some in Hreg as [Hreg1 Hreg2].
  apply find_some in He as [He1 He2].
  apply find_some in Hu as [Hu1 Hu2].
  exists reg, e, u. repeat split; try assumption; lia.
Qed.

Lemma verify_stored_number_answers_witness :
  foreignKeys (db Example.revokedOnce)
  /\ uniqueNumbers (db Example.revokedOnce)
  /\ numbersAreText (db Example.revokedOnce)
  /\ In Example.certificate1Revoked (certificates (db Example.revokedOnce))
  /\ routes.getCertificatesVerify Example.req "CERT-1700000000000-42"
       Example.revokedOnce
     = (Returned (routes.revokedResponse Example.certificate1Revoked),
        Example.revokedOnce).
Proof.
  assert (foreignKeys (db Example.revokedOnce)) as Hf.
  { split; [| split]; vm_compute; repeat constructor; intros u H;
      injection H as <-; reflexivity. }
  assert (uniqueNumbers (db Example.revokedOnce)) as Hu.
  { vm_compute. repeat constructor. intros []. }
  assert (numbersAreText (db Example.revokedOnce)) as Ht.
  { unfold numbersAreText. rewrite revokedOnce_ledger. repeat constructor. }
  assert (In Example.certificate1Revoked (certificates (db Example.revokedOnce)))
    as Hin by (vm_compute; left; reflexivity).
  split; [exact Hf |]. split; [exact Hu |]. split; [exact Ht |]. split; [exact Hin |].
  exact (proj1 (@verify_stored_number_answers Example.req "CERT-1700000000000-42"
                  Example.revokedOnce Example.certificate1Revoked
                  Hf Hu Ht Hin eq_refl) eq_refl).
Defined.

(* ===================================================================== *)
(** * Issuing, revoking and verifying, one after the other *)
(* ===================================================================== *)

Section Handlers.

(** What is kept by every storage call is kept by the issuance handler. *)
Lemma post_preserves (P : DB -> Prop) :
  (forall c w, P (db w) -> P (db (step c w))) ->
  forall toDataURL req r w,
    P (db w) ->
    P (db (snd (routes.postRegistrationCertificate toDataURL req r w))).
Proof.
  intros Hstep toDataURL req r w HP.
  unfold routes.postRegistrationCertificate, generateCertificate.
  unfold deref; unfold tryCatch, bind, newDate, ret, throw.
  set (n := routes.certificateNumberFor (clock w (ticks w)) r).
  destruct (toDataURL (routes.verificationUrl req n)) as [q |]; [| exact HP].
  pose proof (Hstep (CallGenerateCertificate r q n) (tick w) HP) as H2.
  cbn [step] in H2.
  destruct (storage.generateCertificate r q n (tick w)) as [[[row |] | e] w2];
    cbn beta iota; cbn [fst snd] in *; try exact H2.
  match goal with
  | |- context [storage.logActivity ?u ?a ?d ?rt ?ri ?ip ?ua w2] =>
      pose proof (Hstep (CallLogActivity u a d rt ri ip ua) w2 H2) as H3;
      cbn [step] in H3;
      destruct (storage.logActivity u a d rt ri ip ua w2) as [[l | e] w3]
  end; cbn [fst snd] in *; exact H3.
Qed.

(** The row that [storage.generateCertificate] returns is in the ledger, is
    not revoked and belongs to the registration. *)
Lemma generateCertificate_returned r q n w row w' :
  primaryKey (db w) ->
  storage.generateCertificate r q n w = (Returned (Some row), w') ->
  In row (certificates (db w'))
  /\ JS.truthy (Certificate.isRevoked row) = false
  /\ Certificate.registrationId row = r.
Proof.
  intros [Hkey _]. unfold storage.generateCertificate. run_async.
  destruct (storage.findByRegistration (db w) r) as [c |] eqn:Hfind.
  - destruct (findByRegistration_some _ _ Hfind) as [Hin Hreg].
    destruct (JS.truthy (Certificate.isRevoked c)) eqn:Hrev; proj.
    + rewrite returning_updated by reflexivity.
      rewrite (returning_unique _ _ Hkey Hin). cbn [map hd_error].
      intros [= <- <-]. proj.
      split; [apply updateWhereId_hit; [exact Hin | reflexivity] |].
      split; [reflexivity | exact Hreg].
    + intros [= <- <-]. repeat split; assumption.
  - unfold storage.insertCertificate. run_async.
    destruct (storage.registrationExists (db w) r); proj; [| discriminate].
    destruct (storage.numberTaken (db w) n); proj; [discriminate |].
    destruct (50 <? String.length n)%nat; proj; [discriminate |].
    intros [= <- <-]. proj. split; [apply in_or_app; right; left; reflexivity |].
    split; reflexivity.
Qed.

(** A 201 answer of the issuance handler carries the row that
    [storage.generateCertificate] returned, and the ledger is the one that
    call left. *)
Lemma post_created toDataURL req r w body :
  fst (routes.postRegistrationCertificate toDataURL req r w)
  = Returned (mkResponse 201 body) ->
  exists q row w2,
    storage.generateCertificate r q
      (routes.certificateNumberFor (clock w (ticks w)) r) (tick w)
    = (Returned (Some row), w2)
    /\ body = Certificate.toJSON row
    /\ certificates (db (snd (routes.postRegistrationCertificate toDataURL req r w)))
       = certificates (db w2).
Proof.
  unfold routes.postRegistrationCertificate, generateCertificate.
  unfold deref; unfold tryCatch, bind, newDate, ret, throw.
  set (n := routes.certificateNumberFor (clock w (ticks w)) r).
  destruct (toDataURL (routes.verificationUrl req n)) as [q |];
    [| cbn; discriminate].
  destruct (storage.generateCertificate r q n (tick w)) as [[[row |] | e] w2]
    eqn:Hgen; cbn beta iota; cbn [fst snd]; try (cbn; discriminate).
  match goal with
  | |- context [storage.logActivity ?u ?a ?d ?rt ?ri ?ip ?ua w2] =>
      destruct (logActivity_certificates u a d rt ri ip ua w2) as [Hl _];
      destruct (storage.logActivity u a d rt ri ip ua w2) as [[l | e] w3]
  end; cbn [fst snd] in *; [| cbn; discriminate].
  intros [= <-]. exists q, row, w2.
  split; [exact Hgen |]. split; [reflexivity | exact Hl].
Qed.

Lemma allChars_impl (p q : ascii -> bool) (s : string) :
  (forall c, p c = true -> q c = true) ->
  allChars p s = true -> allChars q s = true.
Proof.
  intros Hpq. induction s as [| c s IH]; cbn; [reflexivity |].
  intros H. apply andb_true_iff in H as [Hc Hs].
  rewrite (Hpq c Hc), (IH Hs). reflexivity.
Qed.

Lemma allChars_append (p : ascii -> bool) (a b : string) :
  allChars p (a ++ b) = allChars p a && allChars p b.
Proof.
  induction a as [| c a IH]; cbn; [reflexivity |].
  rewrite IH. apply andb_assoc.
Qed.

(** An integer prints without the character U+0000. *)
Lemma toString_text (n : Z) : pgText (JS.toString n) = true.
Proof.
  assert (forall m, 0 <= m -> pgText (JS.toString m) = true) as Hpos.
  { intros m Hm. apply (allChars_impl Regex.digit); [| apply toString_digits, Hm].
    intros c Hc. destruct (Ascii.eqb_spec c Ascii.zero) as [-> | _];
      [discriminate Hc | reflexivity]. }
  destruct (Z.lt_ge_cases n 0) as [Hn | Hn]; [| apply Hpos, Hn].
  rewrite (toString_negative Hn). cbn. apply Hpos. lia.
Qed.

(** The numbers of the issuance endpoint are text the database accepts. *)
Lemma certificateNumberFor_text (now r : Z) :
  pgText (routes.certificateNumberFor now r) = true.
Proof.
  unfold routes.certificateNumberFor, pgText.
  rewrite !allChars_append.
  fold (pgText (JS.toString now)). fold (pgText (JS.toString r)).
  rewrite !toString_text. reflexivity.
Qed.

(** Storing a number that is text keeps the stored numbers text. *)
Lemma generateCertificate_text r q n w :
  pgText n = true ->
  numbersAreText (db w) ->
  numbersAreText (db (snd (storage.generateCertificate r q n w))).
Proof.
  unfold numbersAreText. intros Hn H.
  unfold storage.generateCertificate. run_async.
  destruct (storage.findByRegistration (db w) r) as [c |].
  - destruct (JS.truthy (Certificate.isRevoked c)); proj; [| exact H].
    apply Forall_forall. intros c' Hin. rewrite Forall_forall in H.
    apply updateWhereId_in in Hin as [[Hin _] | [c0 [Hin [_ ->]]]];
      [apply H, Hin | apply (H c0 Hin)].
  - unfold storage.insertCertificate. run_async.
    destruct (storage.registrationExists (db w) r); proj; [| exact H].
    destruct (storage.numberTaken (db w) n); proj; [exact H |].
    destruct (50 <? String.length n)%nat; proj; [exact H |].
    apply Forall_app. split; [exact H | constructor; [exact Hn | constructor]].
Qed.

End Handlers.

(** X10. Issue, then verify. When the issuance endpoint answers 201, its
    body is a certificate row of the registration, and verifying the number
    of that row right after is answered with the valid answer for that row
    (the constraints of the schema holding before the call). This covers a
    new certificate, the existing active one and a reissued one. The stored
    numbers are text values of Postgres, as every stored value is. *)
Theorem issue_then_verify_valid :
  forall (toDataURL : string -> option string) (req req' : Request.t)
         (registrationId : Z) (w : World) (body : json),
    primaryKey (db w) ->
    uniqueNumbers (db w) ->
    foreignKeys (db w) ->
    numbersAreText (db w) ->
    fst (routes.postRegistrationCertificate toDataURL req registrationId w)
    = Returned (mkResponse 201 body) ->
    exists row e u,
      body = Certificate.toJSON row
      /\ Certificate.registrationId row = registrationId
      /\ fst (routes.getCertificatesVerify req' (Certificate.certificateNumber row)
                (snd (routes.postRegistrationCertificate toDataURL req
                        registrationId w)))
         = Returned (routes.validResponse row e u).
Proof.
  intros toDataURL req req' registrationId w body Hkey Hun Hfk Htext Hpost.
  destruct (post_created _ _ _ _ Hpost) as (q & row & w2 & Hgen & -> & Hcs).
  assert (primaryKey (db (tick w))) as Hkey' by exact Hkey.
  destruct (@generateCertificate_returned _ _ _ _ _ _ Hkey' Hgen)
    as (Hin & Hrev & Hreg).
  assert (pgText (Certificate.certificateNumber row) = true) as Hrow.
  { assert (numbersAreText (db (tick w))) as Htext' by exact Htext.
    pose proof (@generateCertificate_text registrationId q _ (tick w)
                  (certificateNumberFor_text (clock w (ticks w)) registrationId)
                  Htext') as H.
    rewrite Hgen in H. unfold numbersAreText in H. rewrite Forall_forall in H.
    apply H, Hin. }
  pose proof (post_preserves uniqueNumbers uniqueNumbers_step toDataURL req
                registrationId w Hun) as Hun'.
  pose proof (post_preserves foreignKeys foreignKeys_step toDataURL req
                registrationId w Hfk) as Hfk'.
  rewrite <- Hcs in Hin.
  pose proof (find_by_unique_number _ _ Hun' Hin) as Hfind.
  pose proof (verify_stored req' _ _ Hrow Hfk' Hfind) as H. rewrite Hrev in H.
  destruct H as (reg & e & u & _ & _ & _ & Hresp).
  exists row, e, u. repeat split; assumption.
Qed.

Lemma issue_then_verify_valid_witness :
  primaryKey (db Example.revokedOnce)
  /\ uniqueNumbers (db Example.revokedOnce)
  /\ foreignKeys (db Example.revokedOnce)
  /\ numbersAreText (db Example.revokedOnce)
  /\ fst (routes.postRegistrationCertificate Example.toDataURL Example.req 42
            Example.revokedOnce)
     = Returned (mkResponse 201 (Certificate.toJSON Example.certificate1Reissued))
  /\ exists row e u,
      Certificate.toJSON Example.certificate1Reissued = Certificate.toJSON row
      /\ Certificate.registrationId row = 42
      /\ fst (routes.getCertificatesVerify Example.req8
                (Certificate.certificateNumber row) Example.reissuedWorld)
         = Returned (routes.validResponse row e u).
Proof.
  assert (primaryKey (db Example.revokedOnce)) as Hkey.
  { split; vm_compute; repeat constructor. intros []. }
  assert (uniqueNumbers (db Example.revokedOnce)) as Hu.
  { vm_compute. repeat constructor. intros []. }
  assert (foreignKeys (db Example.revokedOnce)) as Hf.
  { split; [| split]; vm_compute; repeat constructor; intros u H;
      injection H as <-; reflexivity. }
  assert (fst (routes.postRegistrationCertificate Example.toDataURL Example.req 42
                 Example.revokedOnce)
          = Returned (mkResponse 201
                        (Certificate.toJSON Example.certificate1Reissued))) as Hpost
      by (vm_compute; reflexivity).
  assert (numbersAreText (db Example.revokedOnce)) as Ht.
  { unfold numbersAreText. rewrite revokedOnce_ledger. repeat constructor. }
  split; [exact Hkey |]. split; [exact Hu |]. split; [exact Hf |].
  split; [exact Ht |]. split; [exact Hpost |].
  exact (@issue_then_verify_valid Example.toDataURL Example.req Example.req8 42
           Example.revokedOnce _ Hkey Hu Hf Ht Hpost).
Defined.

Section RevokeHandler.

(** A 200 answer of the revocation handler carries the first row with the
    id, as rewritten by the update. *)
Lemma revoke_succeeded req i reason w body :
  fst (routes.postCertificatesRevoke req i reason w)
  = Returned (mkResponse 200 body) ->
  exists r c0,
    reason = Some r
    /\ In c0 (certificates (db w))
    /\ Certificate.id c0 = i
    /\ body = Certificate.toJSON
                (storage.revoked r (clock w (ticks w)) (Request.user_id req)
                   (clock w (S (ticks w))) c0)
    /\ certificates (db (snd (routes.postCertificatesRevoke req i reason w)))
       = storage.updateWhereId i
           (storage.revoked r (clock w (ticks w)) (Request.user_id req)
              (clock w (S (ticks w))))
           (certificates (db w)).
Proof.
  unfold routes.postCertificatesRevoke.
  destruct reason as [[| ch rest] |]; try (cbn; discriminate).
  unfold storage.revokeCertificate, storage.logActivity. run_async.
  destruct (pgText (String ch rest)); run_async; [| cbn; discriminate].
  rewrite returning_updated by reflexivity.
  destruct (storage.returningWhereId i (certificates (db w))) as [| c0 others]
    eqn:Hret; cbn [map]; run_async; [cbn; discriminate |].
  destruct (storage.userExists (db w) (Request.user_id req)) eqn:Hu; run_async;
    [| cbn; discriminate].
  unfold storage.userExists in *. proj. rewrite Hu. run_async.
  intros [= <-]. exists (String ch rest), c0.
  assert (In c0 (storage.returningWhereId i (certificates (db w)))) as Hin
      by (rewrite Hret; left; reflexivity).
  apply filter_In in Hin as [Hin Hid].
  split; [reflexivity |]. split; [exact Hin |]. split; [lia |].
  split; reflexivity.
Qed.

End RevokeHandler.

(** X11. Revoke, then verify. When the revocation endpoint answers 200, its
    body is the revoked row, carrying the reason and the actor of the call,
    and verifying the number of that row right after is answered with the
    revoked answer for that row, the world staying as revocation left it.
    The stored numbers are text values of Postgres, as every stored value
    is. *)
Theorem revoke_then_verify_revoked :
  forall (req req' : Request.t) (certificateId : Z) (reason : option string)
         (w : World) (body : json),
    uniqueNumbers (db w) ->
    numbersAreText (db w) ->
    fst (routes.postCertificatesRevoke req certificateId reason w)
    = Returned (mkResponse 200 body) ->
    exists row,
      body = Certificate.toJSON row
      /\ Certificate.id row = certificateId
      /\ Certificate.revokedReason row = reason
      /\ Certificate.revokedById row = Some (Request.user_id req)
      /\ routes.getCertificatesVerify req' (Certificate.certificateNumber row)
           (snd (routes.postCertificatesRevoke req certificateId reason w))
         = (Returned (routes.revokedResponse row),
            snd (routes.postCertificatesRevoke req certificateId reason w)).
Proof.
  intros req req' i reason w body Hun Htext Hrevoke.
  destruct (revoke_succeeded _ _ _ _ Hrevoke) as (r & c0 & -> & Hin & Hid & -> & Hcs).
  eexists. split; [reflexivity |]. split; [exact Hid |].
  split; [reflexivity |]. split; [reflexivity |].
  set (w' := snd (routes.postCertificatesRevoke req i (Some r) w)) in *.
  set (row := storage.revoked r (clock w (ticks w)) (Request.user_id req)
                (clock w (S (ticks w))) c0).
  assert (In row (certificates (db w'))) as Hrow.
  { rewrite Hcs. apply updateWhereId_hit; assumption. }
  assert (uniqueNumbers (db w')) as Hun'.
  { unfold uniqueNumbers. rewrite Hcs, updateWhereId_map; [exact Hun | reflexivity]. }
  pose proof (find_by_unique_number _ _ Hun' Hrow) as Hfind.
  assert (pgText (Certificate.certificateNumber row) = true) as Hnumber.
  { unfold numbersAreText in Htext. rewrite Forall_forall in Htext.
    apply (Htext c0 Hin). }
  unfold routes.getCertificatesVerify, storage.getCertificateByNumber.
  rewrite Hnumber. run_async. rewrite Hfind. reflexivity.
Qed.

Lemma revoke_then_verify_revoked_witness :
  uniqueNumbers (db Example.issued)
  /\ numbersAreText (db Example.issued)
  /\ fst (routes.postCertificatesRevoke Example.req 1 (Some "duplicate issuance")
            Example.issued)
     = Returned (mkResponse 200 (Certificate.toJSON Example.certificate1Revoked))
  /\ exists row,
      Certificate.toJSON Example.certificate1Revoked = Certificate.toJSON row
      /\ Certificate.revokedReason row = Some "duplicate issuance"
      /\ routes.getCertificatesVerify Example.req8 (Certificate.certificateNumber row)
           Example.revokedOnce
         = (Returned (routes.revokedResponse row), Example.revokedOnce).
Proof.
  assert (uniqueNumbers (db Example.issued)) as Hu.
  { vm_compute. repeat constructor. intros []. }
  assert (fst (routes.postCertificatesRevoke Example.req 1
                 (Some "duplicate issuance") Example.issued)
          = Returned (mkResponse 200
                        (Certificate.toJSON Example.certificate1Revoked))) as Hr
      by (vm_compute; reflexivity).
  assert (numbersAreText (db Example.issued)) as Ht.
  { unfold numbersAreText. rewrite issued_ledger. repeat constructor. }
  split; [exact Hu |]. split; [exact Ht |]. split; [exact Hr |].
  destruct (@revoke_then_verify_revoked Example.req Example.req8 1
              (Some "duplicate issuance") Example.issued _ Hu Ht Hr)
    as (row & H1 & _ & H3 & _ & H5).
  exists row. split; [exact H1 |]. split; [exact H3 | exact H5].
Defined.

(** X12. The revocation endpoint changes the ledger only with a 200
    answer. A missing or empty reason is answered 400 before anything is
    read or written; an id that no row has is answered 500, not 404, and an
    actor that is no user is answered 500, both leaving the database as it
    was; and whatever the answer, if its status is not 200 the certificate
    rows are unchanged. *)
Theorem revoke_failures_change_nothing :
  forall (req : Request.t) (certificateId : Z) (reason : option string) (w : World),
    (reason = None \/ reason = Some "" ->
     routes.postCertificatesRevoke req certificateId reason w
     = (Returned (routes.message 400 "Revocation reason is required"), w))
    /\ (forall r,
           reason = Some r -> r <> "" ->
           ~ In certificateId (map Certificate.id (certificates (db w)))
           \/ storage.userExists (db w) (Request.user_id req) = false ->
           fst (routes.postCertificatesRevoke req certificateId reason w)
           = Returned (routes.message 500 "Failed to revoke certificate")
           /\ db (snd (routes.postCertificatesRevoke req certificateId reason w))
              = db w)
    /\ (forall response,
           fst (routes.postCertificatesRevoke req certificateId reason w)
           = Returned response ->
           status response <> 200 ->
           certificates
             (db (snd (routes.postCertificatesRevoke req certificateId reason w)))
           = certificates (db w)).
Proof.
  intros req i reason w. split; [| split].
  - intros [-> | ->]; reflexivity.
  - intros r -> Hr Hcase. unfold routes.postCertificatesRevoke.
    destruct r as [| ch rest]; [contradiction |].
    unfold storage.revokeCertificate, storage.logActivity. run_async.
    destruct (pgText (String ch rest)); run_async; [| split; reflexivity].
    rewrite returning_updated by reflexivity.
    destruct (storage.returningWhereId i (certificates (db w))) as [| c0 others]
      eqn:Hret; cbn [map]; run_async; [split; reflexivity |].
    destruct Hcase as [Hno | Hu].
    + exfalso. apply Hno.
      assert (In c0 (storage.returningWhereId i (certificates (db w)))) as Hin
          by (rewrite Hret; left; reflexivity).
      apply filter_In in Hin as [Hin Hid]. apply in_map_iff. exists c0.
      split; [lia | exact Hin].
    + rewrite Hu. run_async. split; reflexivity.
  - intros response Hresp Hstatus. revert Hresp.
    unfold routes.postCertificatesRevoke.
    destruct reason as [[| ch rest] |]; try reflexivity.
    unfold storage.revokeCertificate, storage.logActivity. run_async.
    destruct (pgText (String ch rest)); run_async; [| reflexivity].
    rewrite returning_updated by reflexivity.
    destruct (storage.returningWhereId i (certificates (db w))) as [| c0 others];
      cbn [map]; run_async; [reflexivity |].
    destruct (storage.userExists (db w) (Request.user_id req)) eqn:Hu; run_async;
      [| reflexivity].
    unfold storage.userExists in *. proj. rewrite Hu. run_async.
    intros [= <-]. cbn in Hstatus. contradiction.
Qed.

(** X13. Issuing for a registration id that no registration has is
    answered 500 and creates no certificate (the foreign keys holding
    before the call), whether or not the QR code renders. *)
Theorem issue_unknown_registration_fails :
  forall (toDataURL : string -> option string) (req : Request.t)
         (registrationId : Z) (w : World),
    foreignKeys (db w) ->
    storage.registrationExists (db w) registrationId = false ->
    fst (routes.postRegistrationCertificate toDataURL req registrationId w)
    = Returned (routes.message 500 "Failed to generate certificate")
    /\ certificates
         (db (snd (routes.postRegistrationCertificate toDataURL req registrationId w)))
       = certificates (db w).
Proof.
  intros toDataURL req registrationId w (Hc & _) Hreg.
  assert (storage.findByRegistration (db w) registrationId = None) as Hfind.
  { destruct (storage.findByRegistration (db w) registrationId) as [c |] eqn:Hf;
      [| reflexivity].
    destruct (findByRegistration_some _ _ Hf) as [Hin <-].
    rewrite Forall_forall in Hc. destruct (Hc c Hin) as [He _].
    rewrite He in Hreg. discriminate Hreg. }
  unfold routes.postRegistrationCertificate, generateCertificate,
    storage.generateCertificate, storage.insertCertificate.
  run_async. destruct (toDataURL _) as [q |]; run_async; [| split; reflexivity].
  rewrite Hfind. run_async. rewrite Hreg. run_async. split; reflexivity.
Qed.

Lemma issue_unknown_registration_fails_witness :
  foreignKeys (db Example.issued)
  /\ storage.registrationExists (db Example.issued) 43 = false
  /\ fst (routes.postRegistrationCertificate Example.toDataURL Example.req 43
            Example.issued)
     = Returned (routes.message 500 "Failed to generate certificate").
Proof.
  assert (foreignKeys (db Example.issued)) as Hf.
  { split; [| split]; vm_compute; repeat constructor; intros u H; discriminate H. }
  assert (storage.registrationExists (db Example.issued) 43 = false) as Hr
      by (vm_compute; reflexivity).
  split; [exact Hf |]. split; [exact Hr |].
  exact (proj1 (@issue_unknown_registration_fails Example.toDataURL Example.req 43
                  Example.issued Hf Hr)).
Defined.

(** X14. Verification never writes a certificate: whatever the number, the
    users, events, registrations and certificates are after the call what
    they were before, and the activity log is either unchanged or longer by
    one [verify_certificate] entry. A number that is not stored or whose row
    is revoked leaves the whole world unchanged: only the verification of an
    active certificate is logged. *)
Theorem verify_writes_only_the_log :
  forall (req : Request.t) (number : string) (w : World),
    users (db (snd (routes.getCertificatesVerify req number w))) = users (db w)
    /\ events (db (snd (routes.getCertificatesVerify req number w))) = events (db w)
    /\ eventRegistrations (db (snd (routes.getCertificatesVerify req number w)))
       = eventRegistrations (db w)
    /\ certificates (db (snd (routes.getCertificatesVerify req number w)))
       = certificates (db w)
    /\ (activityLogs (db (snd (routes.getCertificatesVerify req number w)))
        = activityLogs (db w)
        \/ exists entry,
            activityLogs (db (snd (routes.getCertificatesVerify req number w)))
            = (activityLogs (db w) ++ [entry])%list
            /\ ActivityLog.action entry = verify_certificate
            /\ ActivityLog.details entry
               = JObj [("certificateNumber", JStr number)])
    /\ (forall response,
           fst (routes.getCertificatesVerify req number w) = Returned response ->
           jField "valid" (body response) = Some (JBool false) ->
           snd (routes.getCertificatesVerify req number w) = w).
Proof.
  intros req number w.
  unfold routes.getCertificatesVerify, storage.getCertificateByNumber,
    storage.logActivity.
  run_async.
  destruct (pgText number); run_async; [| repeat split; auto].
  destruct (find _ (certificates (db w))) as [c |]; run_async;
    [| repeat split; auto].
  cbn [storage.certificate storage.registrationOf].
  destruct (JS.truthy (Certificate.isRevoked c)); run_async;
    [repeat split; auto |].
  destruct (storage.joinRegistration (db w) (Certificate.registrationId c))
    as [reg |]; run_async; [| repeat split; auto; intros r [= <-]; discriminate].
  destruct (storage.userExists (db w)
              (Registration.userId (storage.registration reg))); run_async;
    [| repeat split; auto; intros r [= <-]; discriminate].
  destruct (storage.event reg); run_async;
    [| repeat split; try reflexivity;
       [right; eexists; repeat split | intros r [= <-]; discriminate]].
  destruct (storage.user reg); run_async;
    repeat split; try reflexivity;
    try (right; eexists; repeat split); intros r [= <-]; discriminate.
Qed.

(* ===================================================================== *)
(** * Deleting events *)
(* ===================================================================== *)

Section DeleteEvent.

Lemma filter_all (A : Type) (p : A -> bool) (l : list A) :
  (forall x, In x l -> p x = true) -> filter p l = l.
Proof.
  induction l as [| a l IH]; cbn; [reflexivity |]. intros H.
  rewrite (H a (or_introl eq_refl)). f_equal. apply IH. intros x Hx. apply H. now right.
Qed.

Lemma filter_none (A : Type) (p : A -> bool) (l : list A) :
  (forall x, In x l -> p x = false) -> filter p l = [].
Proof.
  induction l as [| a l IH]; cbn; [reflexivity |]. intros H.
  rewrite (H a (or_introl eq_refl)). apply IH. intros x Hx. apply H. now right.
Qed.

(** The cascade reaches the rows of the event, when the event exists, and
    no other row. *)
Lemma gone_iff (d : DB) (e x : Z) :
  storage.gone d e x = true <-> eventExists d e = true /\ x = e.
Proof.
  split.
  - unfold storage.gone, storage.deletedEvents, eventExists.
    rewrite !existsb_exists. intros [ev [Hin Hx]].
    apply filter_In in Hin as [Hin He].
    split; [exists ev; split; assumption | lia].
  - intros [He ->]. apply gone_existing, He.
Qed.

(** A deletion is blocked exactly when the event exists and a schedule of
    another event names one of its speakers. *)
Lemma scheduleBlocks_iff (d : DB) (e : Z) :
  storage.scheduleBlocks d e = true
  <-> eventExists d e = true
      /\ exists s sp,
          In s (eventSchedules d) /\ In sp (eventSpeakers d)
          /\ Schedule.speakerId s = Some (Speaker.id sp)
          /\ Speaker.eventId sp = e
          /\ Schedule.eventId s <> e.
Proof.
  unfold storage.scheduleBlocks. rewrite existsb_exists. split.
  - intros [s [Hs H]]. apply andb_true_iff in H as [Hkept Hnamed].
    destruct (Schedule.speakerId s) as [sid |] eqn:Hsid; [| discriminate Hnamed].
    apply existsb_exists in Hnamed as [sp [Hsp H]].
    apply andb_true_iff in H as [Hid Hgone].
    apply gone_iff in Hgone as [He Hev].
    split; [exact He |]. exists s, sp.
    split; [exact Hs |]. split; [exact Hsp |].
    split; [rewrite Hsid; f_equal; lia |]. split; [exact Hev |].
    intros Heq. rewrite Heq, gone_existing in Hkept by exact He.
    discriminate Hkept.
  - intros [He [s [sp (Hs & Hsp & Hsid & Hev & Hne)]]].
    exists s. split; [exact Hs |].
    rewrite gone_other by exact Hne. rewrite Hsid. cbn [negb andb].
    apply existsb_exists. exists sp. split; [exact Hsp |].
    rewrite Z.eqb_refl, Hev, gone_existing by exact He. reflexivity.
Qed.

Lemma gone_absent (d : DB) (e x : Z) :
  eventExists d e = false -> storage.gone d e x = false.
Proof.
  intros Hno. destruct (storage.gone d e x) eqn:H; [| reflexivity].
  apply gone_iff in H as [H _]. congruence.
Qed.

Lemma scheduleBlocks_absent (d : DB) (e : Z) :
  eventExists d e = false -> storage.scheduleBlocks d e = false.
Proof.
  intros Hno. destruct (storage.scheduleBlocks d e) eqn:H; [| reflexivity].
  apply scheduleBlocks_iff in H as [H _]. congruence.
Qed.

(** Deleting an event of which the table has no row deletes no registration
    and none of the certificates that have their registration. *)
Lemma deleteEvent_absent e w :
  eventExists (db w) e = false ->
  Forall (fun c => storage.registrationExists (db w) (Certificate.registrationId c)
                   = true) (certificates (db w)) ->
  fst (storage.deleteEvent e w) = Returned None
  /\ db (snd (storage.deleteEvent e w)) = db w.
Proof.
  intros Hno Hc. unfold storage.deleteEvent. run_async.
  rewrite (scheduleBlocks_absent _ _ Hno). proj.
  assert (storage.deletedEvents (db w) e = []) as Hdel.
  { apply filter_none. intros ev Hin.
    destruct (Z.eqb_spec (Event.id ev) e) as [He | _]; [| reflexivity].
    exfalso. rewrite <- Bool.not_true_iff_false in Hno. apply Hno.
    apply existsb_exists. exists ev. split; [exact Hin | lia]. }
  rewrite Hdel. cbn [hd_error].
  assert (filter (fun ev => negb (Event.id ev =? e)) (events (db w)) = events (db w))
    as Hkept.
  { apply filter_all. intros ev Hin. apply negb_true_iff.
    destruct (Z.eqb_spec (Event.id ev) e) as [He | _]; [| reflexivity].
    exfalso. rewrite <- Bool.not_true_iff_false in Hno. apply Hno.
    apply existsb_exists. exists ev. split; [exact Hin | lia]. }
  rewrite Hkept.
  rewrite (filter_all _ (eventRegistrations (db w)))
    by (intros r _; rewrite gone_absent by exact Hno; reflexivity).
  rewrite (filter_all _ (eventSpeakers (db w)))
    by (intros r _; rewrite gone_absent by exact Hno; reflexivity).
  rewrite (filter_all _ (eventSchedules (db w)))
    by (intros r _; rewrite gone_absent by exact Hno; reflexivity).
  rewrite filter_all.
  - split; [reflexivity |]. destruct (db w); reflexivity.
  - rewrite Forall_forall in Hc. exact Hc.
Qed.

(** What an accepted deletion leaves: no row of the event, and every
    certificate with its registration. *)
Lemma deleteEvent_accepted e w :
  storage.scheduleBlocks (db w) e = false ->
  fst (storage.deleteEvent e w)
  = Returned (find (fun ev => Event.id ev =? e) (events (db w)))
  /\ eventExists (db (snd (storage.deleteEvent e w))) e = false
  /\ Forall (fun c =>
               storage.registrationExists (db (snd (storage.deleteEvent e w)))
                 (Certificate.registrationId c) = true)
            (certificates (db (snd (storage.deleteEvent e w)))).
Proof.
  intros Hfree. unfold storage.deleteEvent. run_async. rewrite Hfree. proj.
  split; [unfold storage.deletedEvents; rewrite hd_filter_find; reflexivity |].
  split.
  - unfold eventExists. proj.
    rewrite <- Bool.not_true_iff_false. intros H.
    apply existsb_exists in H as [ev [Hin He]].
    apply filter_In in Hin as [_ Hne]. apply negb_true_iff in Hne. lia.
  - unfold storage.registrationExists. proj.
    apply Forall_forall. intros c Hin. apply filter_In in Hin as [_ H]. exact H.
Qed.

End DeleteEvent.

(** X15. Deleting an event twice is deleting it once. When the first
    [storage.deleteEvent] is accepted, a second call for the same id returns
    no row and leaves the database as the first call left it. When a
    schedule of another event names a speaker of the event, the first call
    is refused and changes nothing, and the second call is refused in the
    same way. *)
Theorem deleteEvent_twice :
  forall (eventId : Z) (w : World),
    (storage.scheduleBlocks (db w) eventId = false ->
     fst (storage.deleteEvent eventId w)
     = Returned (find (fun ev => Event.id ev =? eventId) (events (db w)))
     /\ fst (storage.deleteEvent eventId (snd (storage.deleteEvent eventId w)))
        = Returned None
     /\ db (snd (storage.deleteEvent eventId (snd (storage.deleteEvent eventId w))))
        = db (snd (storage.deleteEvent eventId w)))
    /\ (storage.scheduleBlocks (db w) eventId = true ->
        exists error,
          storage.deleteEvent eventId w = (Thrown error, w)
          /\ storage.deleteEvent eventId (snd (storage.deleteEvent eventId w))
             = (Thrown error, w)).
Proof.
  intros e w. split; intros Hblocks.
  - destruct (deleteEvent_accepted e w Hblocks) as (Hret & Hno & Hc).
    split; [exact Hret |]. apply deleteEvent_absent; assumption.
  - assert (storage.deleteEvent e w
            = (Thrown "violates foreign key constraint event_schedules_speaker_id",
               w)) as Hrun.
    { unfold storage.deleteEvent. run_async. rewrite Hblocks. reflexivity. }
    eexists. split; [exact Hrun |]. rewrite Hrun. exact Hrun.
Qed.

(** X16. Deleting an event that does not exist returns no row and, when
    every certificate has its registration, changes nothing in the
    database. *)
Theorem deleteEvent_unknown_event :
  forall (eventId : Z) (w : World),
    foreignKeys (db w) ->
    eventExists (db w) eventId = false ->
    fst (storage.deleteEvent eventId w) = Returned None
    /\ db (snd (storage.deleteEvent eventId w)) = db w.
Proof.
  intros e w (Hc & _) Hno. apply deleteEvent_absent; [exact Hno |].
  eapply Forall_impl; [| exact Hc]. cbn. intros c [H _]. exact H.
Qed.

Lemma deleteEvent_unknown_event_witness :
  foreignKeys (db Example.issued)
  /\ eventExists (db Example.issued) 2 = false
  /\ db (snd (storage.deleteEvent 2 Example.issued)) = db Example.issued.
Proof.
  assert (foreignKeys (db Example.issued)) as Hf.
  { split; [| split]; vm_compute; repeat constructor; intros u H; discriminate H. }
  assert (eventExists (db Example.issued) 2 = false) as He by (vm_compute; reflexivity).
  split; [exact Hf |]. split; [exact He |].
  exact (proj2 (@deleteEvent_unknown_event 2 Example.issued Hf He)).
Defined.

(** X17. The cascade of [storage.deleteEvent] is complete when the
    deletion is accepted: after the call there is no event with the id, no
    registration, speaker or schedule of that event, and (the foreign keys
    holding before) no certificate of a registration of that event: every
    certificate left has a registration left. The deletion is refused
    exactly when the event exists and a schedule of another event names one
    of its speakers; the call then throws and the database is as it was. *)
Theorem deleteEvent_cascade_complete :
  forall (eventId : Z) (w : World),
    foreignKeys (db w) ->
    (storage.scheduleBlocks (db w) eventId = false ->
     (forall e, In e (events (db (snd (storage.deleteEvent eventId w)))) ->
                Event.id e <> eventId)
     /\ (forall r,
            In r (eventRegistrations (db (snd (storage.deleteEvent eventId w)))) ->
            Registration.eventId r <> eventId)
     /\ (forall c, In c (certificates (db (snd (storage.deleteEvent eventId w)))) ->
                   exists r,
                     In r (eventRegistrations
                             (db (snd (storage.deleteEvent eventId w))))
                     /\ Registration.id r = Certificate.registrationId c
                     /\ Registration.eventId r <> eventId)
     /\ (eventExists (db w) eventId = true ->
         (forall sp, In sp (eventSpeakers (db (snd (storage.deleteEvent eventId w)))) ->
                     Speaker.eventId sp <> eventId)
         /\ (forall s,
                In s (eventSchedules (db (snd (storage.deleteEvent eventId w)))) ->
                Schedule.eventId s <> eventId)))
    /\ (storage.scheduleBlocks (db w) eventId = true ->
        (exists error, fst (storage.deleteEvent eventId w) = Thrown error)
        /\ snd (storage.deleteEvent eventId w) = w)
    /\ (storage.scheduleBlocks (db w) eventId = true
        <-> eventExists (db w) eventId = true
            /\ exists s sp,
                In s (eventSchedules (db w)) /\ In sp (eventSpeakers (db w))
                /\ Schedule.speakerId s = Some (Speaker.id sp)
                /\ Speaker.eventId sp = eventId
                /\ Schedule.eventId s <> eventId).
Proof.
  intros e w (_ & Hr & _). split; [| split; [| apply scheduleBlocks_iff]].
  - intros Hfree.
    assert (forall r,
               In r (filter
                       (fun r => negb (storage.gone (db w) e (Registration.eventId r)))
                       (eventRegistrations (db w))) ->
               Registration.eventId r <> e) as Hregs.
    { intros r Hin He. apply filter_In in Hin as [Hin Hkept].
      apply negb_true_iff in Hkept. rewrite <- Bool.not_true_iff_false in Hkept.
      apply Hkept. rewrite Forall_forall in Hr. destruct (Hr r Hin) as [Hev _].
      rewrite He in *. apply gone_existing, Hev. }
    unfold storage.deleteEvent. run_async. rewrite Hfree. proj.
    split; [| split; [| split]].
    + intros ev Hin. apply filter_In in Hin as [_ Hne].
      apply negb_true_iff in Hne. lia.
    + exact Hregs.
    + intros c Hin. apply filter_In in Hin as [_ Hex].
      apply existsb_exists in Hex as [r [Hrin Hid]].
      exists r. split; [exact Hrin |]. split; [lia | apply Hregs, Hrin].
    + intros Hexists. split.
      * intros sp Hin He. apply filter_In in Hin as [_ Hkept].
        rewrite He, gone_existing in Hkept by exact Hexists. discriminate Hkept.
      * intros s Hin He. apply filter_In in Hin as [_ Hkept].
        rewrite He, gone_existing in Hkept by exact Hexists. discriminate Hkept.
  - intros Hblocks. unfold storage.deleteEvent. run_async. rewrite Hblocks.
    split; [eexists |]; reflexivity.
Qed.

Lemma deleteEvent_cascade_complete_witness :
  foreignKeys (db Example.issued)
  /\ storage.scheduleBlocks (db Example.issued) 1 = false
  /\ certificates (db (snd (storage.deleteEvent 1 Example.issued))) = []
  /\ (forall r,
         In r (eventRegistrations (db (snd (storage.deleteEvent 1 Example.issued)))) ->
         Registration.eventId r <> 1)
  /\ foreignKeys (db Example.sharedSpeaker)
  /\ storage.scheduleBlocks (db Example.sharedSpeaker) 1 = true
  /\ snd (storage.deleteEvent 1 Example.sharedSpeaker) = Example.sharedSpeaker.
Proof.
  assert (foreignKeys (db Example.issued)) as Hf.
  { split; [| split]; vm_compute; repeat constructor; intros u H; discriminate H. }
  assert (foreignKeys (db Example.sharedSpeaker)) as Hs.
  { split; [| split]; vm_compute; repeat constructor; intros u H; discriminate H. }
  split; [exact Hf |]. split; [reflexivity |]. split; [vm_compute; reflexivity |].
  split.
  - exact (proj1 (proj2 (proj1 (@deleteEvent_cascade_complete 1 Example.issued Hf)
                           eq_refl))).
  - split; [exact Hs |]. split; [reflexivity |].
    exact (proj2 (proj1 (proj2 (@deleteEvent_cascade_complete 1 Example.sharedSpeaker
                                  Hs))
                    eq_refl)).
Defined.

(* ===================================================================== *)
(** * Permissions of users *)
(* ===================================================================== *)

Section Permissions.

Import permissionStore.

Lemma filter_complement (uid : Z) (ups : list UserPermission) :
  filter (fun up => userId up =? uid)
         (filter (fun up => negb (userId up =? uid)) ups) = [].
Proof.
  induction ups as [| up ups IH]; cbn; [reflexivity |].
  destruct (userId up =? uid) eqn:He; cbn; [exact IH |].
  rewrite He. exact IH.
Qed.

Lemma filter_other (uid other : Z) (ups : list UserPermission) :
  other <> uid ->
  filter (fun up => userId up =? other)
         (filter (fun up => negb (userId up =? uid)) ups)
  = filter (fun up => userId up =? other) ups.
Proof.
  intros Hne. induction ups as [| up ups IH]; cbn; [reflexivity |].
  destruct (Z.eqb_spec (userId up) uid) as [He | Hn]; cbn.
  - destruct (Z.eqb_spec (userId up) other) as [Ho | _]; [lia | exact IH].
  - destruct (userId up =? other); [f_equal |]; exact IH.
Qed.

Lemma newRows_own (uid : Z) (pids : list Z) :
  forall seq now,
    filter (fun up => userId up =? uid) (newRows uid pids seq now)
    = newRows uid pids seq now.
Proof.
  induction pids as [| pid pids IH]; intros seq now; cbn; [reflexivity |].
  rewrite Z.eqb_refl. f_equal. apply IH.
Qed.

Lemma newRows_other (uid other : Z) (pids : list Z) :
  other <> uid ->
  forall seq now, filter (fun up => userId up =? other) (newRows uid pids seq now) = [].
Proof.
  intros Hne. induction pids as [| pid pids IH]; intros seq now; cbn; [reflexivity |].
  destruct (Z.eqb_spec uid other) as [He | _]; [lia | apply IH].
Qed.

Lemma newRows_permissions (st : State) (uid : Z) (pids : list Z) :
  forall seq now,
    map (fun up => find (fun p => id p =? permissionId up) (permissions st))
        (newRows uid pids seq now)
    = map (fun pid => find (fun p => id p =? pid) (permissions st)) pids.
Proof.
  induction pids as [| pid pids IH]; intros seq now; cbn; [reflexivity |].
  f_equal. apply IH.
Qed.

(** Whatever the order of the rows, the query returns the permissions of
    the rows of the user. *)
Lemma getUserPermissions_rows (scan : Scan) (uid : Z) (st : State) :
  anyOrder scan ->
  Permutation (getUserPermissions scan uid st)
    (map (fun up => find (fun p => id p =? permissionId up) (permissions st))
         (filter (fun up => userId up =? uid) (userPermissions st))).
Proof.
  intros Hscan. unfold getUserPermissions. apply Permutation_map, Hscan.
Qed.

(** The rows of a user after the two statements of the update. *)
Lemma updated_rows (scan : Scan) (uid other : Z) (pids : list Z) (now : Z)
  (st : State) :
  userExists st uid = true ->
  forallb (permissionExists st) pids = true ->
  filter (fun up => userId up =? other)
         (userPermissions (snd (updateUserPermissions scan uid pids now st)))
  = if other =? uid then newRows uid pids (user_permissions_id_seq st) now
    else filter (fun up => userId up =? other) (userPermissions st).
Proof.
  intros Hu Hp. unfold updateUserPermissions.
  destruct pids as [| pid pids].
  - cbn [snd userPermissions newRows].
    destruct (Z.eqb_spec other uid) as [-> | Hne];
      [apply filter_complement | apply filter_other, Hne].
  - rewrite Hu, Hp. cbn [andb snd userPermissions]. rewrite filter_app.
    destruct (Z.eqb_spec other uid) as [-> | Hne].
    + rewrite filter_complement, newRows_own. reflexivity.
    + rewrite (filter_other _ Hne), (newRows_other _ Hne), app_nil_r. reflexivity.
Qed.

Lemma updated_permissions (scan : Scan) (uid : Z) (pids : list Z) (now : Z)
  (st : State) :
  permissions (snd (updateUserPermissions scan uid pids now st)) = permissions st.
Proof.
  unfold updateUserPermissions. destruct pids as [| pid pids]; [reflexivity |].
  destruct (userExists st uid && forallb (permissionExists st) (pid :: pids));
    reflexivity.
Qed.

End Permissions.

(** X18. [storage.updateUserPermissions] replaces the permissions of the
    user: when the user exists and every id of the list is the id of a
    permission, the call returns, and the user then has, the permissions of
    the list with its repetitions, in the order in which the database
    returns the rows, which the query does not fix; the rows of every other
    user are untouched. An empty list leaves the user with no permission. *)
Theorem updateUserPermissions_replaces :
  forall (scan scan' : permissionStore.Scan) (uid : Z) (permissionIds : list Z)
         (now : Z) (st : permissionStore.State),
    permissionStore.anyOrder scan ->
    permissionStore.anyOrder scan' ->
    permissionStore.userExists st uid = true ->
    forallb (permissionStore.permissionExists st) permissionIds = true ->
    (exists result,
        fst (permissionStore.updateUserPermissions scan uid permissionIds now st)
        = Returned result
        /\ Permutation result
             (map (fun pid =>
                     find (fun p => permissionStore.id p =? pid)
                          (permissionStore.permissions st))
                  permissionIds))
    /\ Permutation
         (permissionStore.getUserPermissions scan' uid
            (snd (permissionStore.updateUserPermissions scan uid permissionIds now st)))
         (map (fun pid =>
                 find (fun p => permissionStore.id p =? pid)
                      (permissionStore.permissions st))
              permissionIds)
    /\ (forall other,
           other <> uid ->
           Permutation
             (permissionStore.getUserPermissions scan' other
                (snd (permissionStore.updateUserPermissions scan uid permissionIds
                        now st)))
             (permissionStore.getUserPermissions scan other st))
    /\ (forall pid, In pid permissionIds ->
                    exists p, In p (permissionStore.permissions st)
                              /\ permissionStore.id p = pid
                              /\ In (Some p)
                                    (permissionStore.getUserPermissions scan' uid
                                       (snd (permissionStore.updateUserPermissions
                                               scan uid permissionIds now st))))
    /\ (permissionIds = [] ->
        permissionStore.getUserPermissions scan' uid
          (snd (permissionStore.updateUserPermissions scan uid permissionIds now st))
        = []).
Proof.
  intros scan scan' uid pids now st Hscan Hscan' Hu Hp.
  assert (forall sc,
             permissionStore.anyOrder sc ->
             Permutation
               (permissionStore.getUserPermissions sc uid
                  (snd (permissionStore.updateUserPermissions scan uid pids now st)))
               (map (fun pid =>
                       find (fun p => permissionStore.id p =? pid)
                            (permissionStore.permissions st)) pids)) as Hget.
  { intros sc Hsc.
    eapply Permutation_trans; [apply getUserPermissions_rows, Hsc |].
    rewrite (updated_rows scan uid uid pids now st Hu Hp), Z.eqb_refl.
    rewrite updated_permissions, newRows_permissions. apply Permutation_refl. }
  split; [| split; [exact (Hget scan' Hscan') | split; [| split]]].
  - exists (permissionStore.getUserPermissions scan uid
              (snd (permissionStore.updateUserPermissions scan uid pids now st))).
    split; [| exact (Hget scan Hscan)].
    unfold permissionStore.updateUserPermissions.
    destruct pids as [| pid pids]; [reflexivity |].
    rewrite Hu, Hp. reflexivity.
  - intros other Hne.
    eapply Permutation_trans; [apply getUserPermissions_rows, Hscan' |].
    rewrite (updated_rows scan uid other pids now st Hu Hp), updated_permissions.
    destruct (Z.eqb_spec other uid) as [He | _]; [contradiction |].
    apply Permutation_sym, getUserPermissions_rows, Hscan.
  - intros pid Hin. rewrite forallb_forall in Hp.
    pose proof (Hp pid Hin) as He. unfold permissionStore.permissionExists in He.
    apply existsb_find in He as [p Hfind].
    pose proof (find_some _ _ Hfind) as [Hpin Hid].
    exists p. split; [exact Hpin |]. split; [lia |].
    apply (Permutation_in _ (Permutation_sym (Hget scan' Hscan'))).
    rewrite <- Hfind.
    apply (in_map (fun pid => find (fun p => permissionStore.id p =? pid)
                                   (permissionStore.permissions st))), Hin.
  - intros ->. apply Permutation_nil, Permutation_sym, (Hget scan' Hscan').
Qed.

Lemma updateUserPermissions_replaces_witness :
  permissionStore.anyOrder (@rev permissionStore.UserPermission)
  /\ permissionStore.userExists StoreExample.permissionState 7 = true
  /\ forallb (permissionStore.permissionExists StoreExample.permissionState) [2; 1]
     = true
  /\ Permutation
       (permissionStore.getUserPermissions (@rev permissionStore.UserPermission) 7
          (snd (permissionStore.updateUserPermissions (fun rows => rows) 7 [2; 1] 40
                  StoreExample.permissionState)))
       [Some StoreExample.revokeCertificates; Some StoreExample.readCertificates].
Proof.
  assert (permissionStore.anyOrder (@rev permissionStore.UserPermission)) as Hrev
      by (intros rows; apply Permutation_sym, Permutation_rev).
  assert (permissionStore.anyOrder (fun rows => rows)) as Hid
      by (intros rows; apply Permutation_refl).
  split; [exact Hrev |]. split; [reflexivity |]. split; [reflexivity |].
  exact (proj1 (proj2 (@updateUserPermissions_replaces (fun rows => rows)
                         (@rev permissionStore.UserPermission) 7 [2; 1] 40
                         StoreExample.permissionState Hid Hrev eq_refl eq_refl))).
Defined.

(** X19. [storage.updateUserPermissions] is not atomic: when the list is
    not empty and the user, or one id of the list, does not exist, the call
    throws after it has deleted the user's rows, so the user is left with no
    permission at all; the rows of the other users are untouched. This holds
    whatever the order in which the database returns rows. *)
Theorem updateUserPermissions_failure_clears :
  forall (scan scan' : permissionStore.Scan) (uid : Z) (permissionIds : list Z)
         (now : Z) (st : permissionStore.State),
    permissionStore.anyOrder scan ->
    permissionStore.anyOrder scan' ->
    permissionIds <> [] ->
    permissionStore.userExists st uid = false
    \/ (exists pid, In pid permissionIds
                    /\ permissionStore.permissionExists st pid = false) ->
    (exists error,
        fst (permissionStore.updateUserPermissions scan uid permissionIds now st)
        = Thrown error)
    /\ permissionStore.getUserPermissions scan' uid
         (snd (permissionStore.updateUserPermissions scan uid permissionIds now st))
       = []
    /\ (forall other,
           other <> uid ->
           Permutation
             (permissionStore.getUserPermissions scan' other
                (snd (permissionStore.updateUserPermissions scan uid permissionIds
                        now st)))
             (permissionStore.getUserPermissions scan other st)).
Proof.
  intros scan scan' uid pids now st Hscan Hscan' Hne Hbad.
  assert (permissionStore.userExists st uid
          && forallb (permissionStore.permissionExists st) pids = false) as Hcheck.
  { apply andb_false_iff. destruct Hbad as [Hu | [pid [Hin Hp]]]; [left; exact Hu |].
    right. rewrite <- Bool.not_true_iff_false. intros Hall.
    rewrite forallb_forall in Hall. rewrite (Hall pid Hin) in Hp. discriminate Hp. }
  unfold permissionStore.updateUserPermissions.
  destruct pids as [| pid pids]; [contradiction |].
  rewrite Hcheck. cbn [fst snd]. split; [eexists; reflexivity |].
  split.
  - apply Permutation_nil, Permutation_sym.
    eapply Permutation_trans; [apply getUserPermissions_rows, Hscan' |].
    cbn [permissionStore.userPermissions permissionStore.permissions].
    rewrite filter_complement. apply Permutation_refl.
  - intros other Hother.
    eapply Permutation_trans; [apply getUserPermissions_rows, Hscan' |].
    cbn [permissionStore.userPermissions permissionStore.permissions].
    rewrite (filter_other _ Hother).
    apply Permutation_sym, getUserPermissions_rows, Hscan.
Qed.

Lemma updateUserPermissions_failure_clears_witness :
  permissionStore.anyOrder (@rev permissionStore.UserPermission)
  /\ [1; 5] <> []
  /\ permissionStore.permissionExists StoreExample.permissionState 5 = false
  /\ permissionStore.getUserPermissions (@rev permissionStore.UserPermission) 7
       StoreExample.permissionState
     = [Some StoreExample.readCertificates]
  /\ permissionStore.getUserPermissions (@rev permissionStore.UserPermission) 7
       (snd (permissionStore.updateUserPermissions
               (@rev permissionStore.UserPermission) 7 [1; 5] 40
               StoreExample.permissionState))
     = [].
Proof.
  assert (permissionStore.anyOrder (@rev permissionStore.UserPermission)) as Hrev
      by (intros rows; apply Permutation_sym, Permutation_rev).
  assert (([1; 5] : list Z) <> []) as Hne by discriminate.
  split; [exact Hrev |].
  split; [exact Hne |]. split; [reflexivity |]. split; [reflexivity |].
  exact (proj1 (proj2 (@updateUserPermissions_failure_clears
                         (@rev permissionStore.UserPermission)
                         (@rev permissionStore.UserPermission) 7 [1; 5] 40
                         StoreExample.permissionState Hrev Hrev Hne
                         (or_intror (ex_intro _ 5
                            (conj (or_intror (or_introl eq_refl)) eq_refl)))))).
Defined.

(* ===================================================================== *)
(** * Registrations for events *)
(* ===================================================================== *)

Section Registrations.

Import registrationStore.

Lemma approvedCount_slots (st st' : State) (eid : Z) :
  map slot (eventRegistrations st') = map slot (eventRegistrations st) ->
  approvedCount st' eid = approvedCount st eid.
Proof.
  unfold approvedCount. generalize (eventRegistrations st') as l'.
  induction (eventRegistrations st) as [| r l IH]; intros l' H.
  - destruct l'; [reflexivity | discriminate H].
  - destruct l' as [| r' l']; [discriminate H |].
    cbn in H. unfold slot at 1 3 in H. injection H as He _ Hs Hrest.
    specialize (IH l' Hrest). cbn [filter]. rewrite He, Hs.
    destruct ((eventId r =? eid)
              && match status r with approved => true | _ => false end);
      cbn [List.length]; lia.
Qed.

Lemma approvedCount_added (st : State) (row : Row) (seq eid : Z) :
  approvedCount
    (mkState (userIds st) (events st) (eventRegistrations st ++ [row])%list seq) eid
  = approvedCount st eid
    + (if (eventId row =? eid)
          && match status row with approved => true | _ => false end
       then 1 else 0).
Proof.
  unfold approvedCount. cbn [eventRegistrations].
  rewrite filter_app, length_app. cbn [filter].
  destruct ((eventId row =? eid)
            && match status row with approved => true | _ => false end);
    cbn [List.length]; lia.
Qed.

Lemma confirm_slots (rid jsNow : Z) (st : State) :
  map slot (eventRegistrations (snd (confirmAttendance rid jsNow st)))
  = map slot (eventRegistrations st).
Proof.
  unfold confirmAttendance. cbn [snd eventRegistrations].
  rewrite map_map. apply map_ext. intros r.
  destruct (r_id r =? rid); reflexivity.
Qed.

Lemma find_event_unique (evs : list Event) (eid : Z) (a b : Event) :
  NoDup (map id evs) ->
  find (fun e => id e =? eid) evs = Some a ->
  In b evs -> id b = eid -> a = b.
Proof.
  induction evs as [| x evs IH]; cbn; [tauto |].
  intros Hnd Hfind Hin Hid. inversion Hnd as [| ? ? Hx Hnd']; subst.
  destruct (Z.eqb_spec (id x) (id b)) as [He | Hne].
  - injection Hfind as <-. destruct Hin as [-> | Hin]; [reflexivity |].
    exfalso. apply Hx. rewrite He. apply in_map, Hin.
  - destruct Hin as [-> | Hin]; [contradiction |]. apply IH; auto.
Qed.

End Registrations.

Section RegistrationSteps.

Import registrationStore.

Lemma register_ok data jsNow dbNow st :
  registrationsOk st -> registrationsOk (snd (registerForEvent data jsNow dbNow st)).
Proof.
  intros (Hev & Hone & Hcap). unfold registerForEvent.
  destruct (find (fun e => id e =? new_eventId data) (events st)) as [event |]
    eqn:Hevent; [| repeat split; assumption].
  destruct (find _ (eventRegistrations st)) as [existing |] eqn:Hexisting;
    [repeat split; assumption |].
  destruct (full (capacity event) (approvedCount st (new_eventId data))) eqn:Hfull;
    [repeat split; assumption |].
  destruct (existsb (Z.eqb (new_userId data)) (userIds st)); cbn [snd].
  - split; [exact Hev |]. split.
    + unfold oneRegistrationPerUser in *. cbn [eventRegistrations].
      rewrite map_app. cbn [map]. apply NoDup_app; [exact Hone | | ].
      * constructor; [intros [] | constructor].
      * intros x Hx [<- | []]. apply in_map_iff in Hx as [r [Hr Hin]].
        pose proof (find_none _ _ Hexisting r Hin) as Hno. cbn in Hno.
        injection Hr as H1 H2. rewrite H1, H2, !Z.eqb_refl in Hno. discriminate Hno.
    + intros e c Hin Hc Hpos. cbn [events] in Hin.
      rewrite approvedCount_added. cbn [eventId status].
      specialize (Hcap e c Hin Hc Hpos).
      destruct (Z.eqb_spec (new_eventId data) (id e)) as [He | _]; cbn [andb];
        [| lia].
      destruct (JS.truthy (autoApproveRegistrations event)); [| lia].
      assert (event = e) as ->
          by (apply (@find_event_unique _ _ _ _ Hev Hevent Hin); lia).
      unfold full in Hfull. rewrite Hc in Hfull.
      destruct (Z.eqb_spec c 0); [lia |].
      apply Z.leb_gt in Hfull. rewrite He in Hfull. lia.
  - split; [exact Hev |]. split; [exact Hone |].
    intros e c Hin Hc Hpos. apply (Hcap e c Hin Hc Hpos).
Qed.

Lemma confirm_ok rid jsNow st :
  registrationsOk st -> registrationsOk (snd (confirmAttendance rid jsNow st)).
Proof.
  intros (Hev & Hone & Hcap).
  pose proof (confirm_slots rid jsNow st) as Hslots.
  split; [exact Hev |]. split.
  - unfold oneRegistrationPerUser in *.
    replace (map (fun r => (eventId r, userId r))
                 (eventRegistrations (snd (confirmAttendance rid jsNow st))))
      with (map fst (map slot (eventRegistrations (snd (confirmAttendance rid jsNow st)))))
      by (rewrite map_map; reflexivity).
    rewrite Hslots, map_map. exact Hone.
  - intros e c Hin Hc Hpos.
    rewrite (@approvedCount_slots st _ (id e) Hslots). apply (Hcap e c Hin Hc Hpos).
Qed.

End RegistrationSteps.

(** X20. Through every sequence of [storage.registerForEvent] and
    [storage.confirmAttendance] calls, no user is registered twice for the
    same event and no event with a positive capacity has more approved
    registrations than its capacity (the events having distinct ids). *)
Theorem registrations_stay_within_bounds :
  forall (calls : list registrationStore.Call) (st : registrationStore.State),
    registrationStore.registrationsOk st ->
    registrationStore.registrationsOk (registrationStore.run calls st).
Proof.
  intros calls. unfold registrationStore.run.
  induction calls as [| c calls IH]; intros st Hst; cbn; [exact Hst |].
  apply IH. destruct c; cbn [registrationStore.step].
  - apply register_ok, Hst.
  - apply confirm_ok, Hst.
Qed.

Lemma registrations_stay_within_bounds_witness :
  registrationStore.registrationsOk StoreExample.registrationState
  /\ registrationStore.registrationsOk
       (registrationStore.run
          [registrationStore.CallRegister
             (registrationStore.mkNew 1 8 (Some rejected) None) 50 51;
           registrationStore.CallRegister
             (registrationStore.mkNew 1 9 None None) 60 61;
           registrationStore.CallRegister
             (registrationStore.mkNew 1 8 None None) 70 71;
           registrationStore.CallConfirm 1 80]
          StoreExample.registrationState).
Proof.
  assert (registrationStore.registrationsOk StoreExample.registrationState) as H.
  { split; [| split].
    - cbn. repeat constructor; cbn; intuition discriminate.
    - unfold registrationStore.oneRegistrationPerUser. cbn.
      repeat constructor. intros [].
    - intros e c [<- | [<- | []]] [= <-] Hpos; vm_compute; [discriminate | lia]. }
  split; [exact H |].
  exact (@registrations_stay_within_bounds _ StoreExample.registrationState H).
Defined.

(** X21. A registration that [storage.registerForEvent] creates is
    approved exactly when its event approves by itself and pending
    otherwise, whatever status the caller passed; its attendance is not
    confirmed; it is the only registration of that user for that event,
    and it is added at the end of the table. *)
Theorem registerForEvent_created :
  forall (data : registrationStore.NewEventRegistration) (jsNow dbNow : Z)
         (st st' : registrationStore.State) (row : registrationStore.Row),
    registrationStore.registerForEvent data jsNow dbNow st = (Returned row, st') ->
    exists event,
      find (fun e => registrationStore.id e =? registrationStore.new_eventId data)
           (registrationStore.events st) = Some event
      /\ registrationStore.status row
         = (if JS.truthy (registrationStore.autoApproveRegistrations event)
            then approved else pending)
      /\ registrationStore.attendanceConfirmed row = Some false
      /\ registrationStore.eventId row = registrationStore.new_eventId data
      /\ registrationStore.userId row = registrationStore.new_userId data
      /\ registrationStore.eventRegistrations st'
         = (registrationStore.eventRegistrations st ++ [row])%list
      /\ (forall r, In r (registrationStore.eventRegistrations st) ->
                    registrationStore.eventId r = registrationStore.new_eventId data ->
                    registrationStore.userId r <> registrationStore.new_userId data).
Proof.
  intros data jsNow dbNow st st' row. unfold registrationStore.registerForEvent.
  destruct (find _ (registrationStore.events st)) as [event |]; [| discriminate].
  destruct (find _ (registrationStore.eventRegistrations st)) as [existing |]
    eqn:Hexisting; [discriminate |].
  destruct (registrationStore.full _ _); [discriminate |].
  destruct (existsb _ (registrationStore.userIds st)); [| discriminate].
  intros [= <- <-]. exists event. cbn. repeat split.
  intros r Hin He Hu. pose proof (find_none _ _ Hexisting r Hin) as Hno.
  cbn in Hno. rewrite He, Hu, !Z.eqb_refl in Hno. discriminate Hno.
Qed.

Lemma registerForEvent_created_witness :
  registrationStore.registerForEvent
    (registrationStore.mkNew 1 8 (Some rejected) None) 50 51
    StoreExample.registrationState
  = (Returned (registrationStore.mkRow 2 1 8 approved 50 (Some false) None 51 51),
     registrationStore.mkState [7; 8; 9]
       (registrationStore.events StoreExample.registrationState)
       [registrationStore.mkRow 1 1 7 approved 30 (Some false) None 30 30;
        registrationStore.mkRow 2 1 8 approved 50 (Some false) None 51 51]
       3)
  /\ exists event,
      find (fun e => registrationStore.id e =? 1)
           (registrationStore.events StoreExample.registrationState) = Some event
      /\ approved
         = (if JS.truthy (registrationStore.autoApproveRegistrations event)
            then approved else pending).
Proof.
  assert (registrationStore.registerForEvent
            (registrationStore.mkNew 1 8 (Some rejected) None) 50 51
            StoreExample.registrationState
          = (Returned (registrationStore.mkRow 2 1 8 approved 50 (Some false) None
                         51 51),
             registrationStore.mkState [7; 8; 9]
               (registrationStore.events StoreExample.registrationState)
               [registrationStore.mkRow 1 1 7 approved 30 (Some false) None 30 30;
                registrationStore.mkRow 2 1 8 approved 50 (Some false) None 51 51]
               3)) as H by reflexivity.
  split; [exact H |].
  destruct (@registerForEvent_created _ _ _ _ _ _ H) as (event & H1 & H2 & _).
  exists event. split; [exact H1 | exact H2].
Defined.


